(** * speedrun: the remote job orchestrator of [speedrun.py]

    A shallow embedding of the classes [VastAI] and [SpeedRun]: the values
    exchanged with the marketplace command line are JSON values, the Python
    operations used on them keep their dynamic behaviour (truthiness,
    subscripting, [in], [==]), and every call that leaves the process (the
    [vastai] command line, the SSH session, the local file system, standard
    output) appends an event to a trace.  Exceptions and [try]/[finally] are
    modelled by a state and error monad, in which a computation may also
    never return: the polling loop has no bound, and neither the [vastai]
    subprocess nor the reads from a remote command have a timeout. *)

From Stdlib Require Import ZArith QArith Qabs String Ascii List Bool Lia DecimalString.
From stdpp Require Import base gmap strings list sorting.

Set Warnings "-register-all".
Local Open Scope string_scope.
Local Open Scope list_scope.

(** ** Values and exceptions *)

(** What [json.loads] produces: [None], [bool], [int], [float], [str],
    [list] and [dict].  A dict is kept as an association list in insertion
    order; floats are idealised as rationals: arithmetic on them is exact,
    and there is neither an infinity nor a NaN.  What is kept of the float
    format is its range: an [int] too large for a float cannot be turned
    into one. *)
Inductive json :=
| JNull
| JBool (b : bool)
| JInt (z : Z)
| JFloat (q : Q)
| JStr (s : string)
| JList (l : list json)
| JDict (d : list (string * json)).

(** The exceptions the program raises or lets through. *)
Inductive exn :=
| RuntimeError (msg : string)
| KeyError (key : string)
| IndexError
| TypeError
| ValueError
| OverflowError
| FileNotFoundError (path : string)
| FileExistsError (path : string)
| AttributeError
| OSError (what : string)
| TransportError (what : string).

(** Result of a Python expression: a value or a raised exception. *)
Inductive res (A : Type) :=
| Val (a : A)
| Exc (e : exn).
Arguments Val {A} a.
Arguments Exc {A} e.

Definition res_bind {A B} (r : res A) (k : A -> res B) : res B :=
  match r with Val a => k a | Exc e => Exc e end.

Notation "'let?' x := r 'in' k" := (res_bind r (fun x => k))
  (at level 10, x name, r at level 100, k at level 200).

(** ** The Python operations the program uses *)

Module Py.

(** [str.isspace] on the characters below 256. *)
Definition isspace (c : ascii) : bool :=
  let n := nat_of_ascii c in
  (Nat.leb 9 n && Nat.leb n 13) || (Nat.leb 28 n && Nat.leb n 32)
  || Nat.eqb n 133 || Nat.eqb n 160.

Fixpoint lstrip (s : string) : string :=
  match s with
  | EmptyString => EmptyString
  | String c s' => if isspace c then lstrip s' else s
  end.

Fixpoint rstrip (s : string) : string :=
  match s with
  | EmptyString => EmptyString
  | String c s' =>
      match rstrip s' with
      | EmptyString => if isspace c then EmptyString else String c EmptyString
      | r => String c r
      end
  end.

(** [s.strip()] *)
Definition strip (s : string) : string := lstrip (rstrip s).

(** [s.split(sep)] for a one-character separator. *)
Fixpoint split (sep : ascii) (s : string) : list string :=
  match s with
  | EmptyString => [EmptyString]
  | String c s' =>
      if Ascii.eqb c sep then EmptyString :: split sep s'
      else match split sep s' with
           | w :: ws => String c w :: ws
           | [] => [String c EmptyString]
           end
  end.

(** [sep.join(parts)] *)
Fixpoint join (sep : string) (parts : list string) : string :=
  match parts with
  | [] => EmptyString
  | [p] => p
  | p :: ps => p +:+ sep +:+ join sep ps
  end.

(** [l[:-1]] *)
Definition but_last {A} (l : list A) : list A := take (length l - 1) l.

(** [s.lower()] on the characters below 256. *)
Definition lower_char (c : ascii) : ascii :=
  let n := nat_of_ascii c in
  if (Nat.leb 65 n && Nat.leb n 90)
     || (Nat.leb 192 n && Nat.leb n 222 && negb (Nat.eqb n 215))
  then ascii_of_nat (n + 32) else c.

Fixpoint lower (s : string) : string :=
  match s with
  | EmptyString => EmptyString
  | String c s' => String (lower_char c) (lower s')
  end.

(** [s.startswith(p)] *)
Definition startswith (p s : string) : bool := String.prefix p s.

(** [sub in s] on strings. *)
Definition str_contains (sub s : string) : bool :=
  match String.index 0 sub s with Some _ => true | None => false end.

(** The lines [iter(stdout.readline, '')] yields: each keeps its
    newline, the last one may lack it. *)
Fixpoint readlines (s : string) : list string :=
  match s with
  | EmptyString => []
  | String c s' =>
      if Ascii.eqb c "010"%char then String c EmptyString :: readlines s'
      else match readlines s' with
           | l :: ls => String c l :: ls
           | [] => [String c EmptyString]
           end
  end.

(** The lines [readline] yields from a stream that stays open after [s]:
    the lines that are complete; it then waits for the rest of the last
    one. *)
Definition ends_line (l : string) : bool :=
  match String.get (String.length l - 1) l with
  | Some c => Ascii.eqb c "010"%char
  | None => false
  end.

Definition whole_lines (s : string) : list string :=
  filter (fun l => Is_true (ends_line l)) (readlines s).

(** [PurePosixPath(s).name]: the last component that is neither empty
    nor ["."], the empty string when there is none. *)
Definition path_parts (s : string) : list string :=
  filter (fun x => x ≠ "" ∧ x ≠ ".") (split "/"%char s).

Definition path_name (s : string) : string := List.last (path_parts s) "".

(** [str(Path(dir) / name)] for a [name] that is a [path_name]. *)
Definition path_join (dir name : string) : string :=
  if decide (name = "") then dir else dir +:+ "/" +:+ name.

(** [int(x)] on a float: truncation towards zero. *)
Definition int_of_float (q : Q) : Z := Z.quot (Qnum q) (Zpos (Qden q)).

(** [str(n)] on an int. *)
Definition str_of_int (z : Z) : string := NilZero.string_of_int (Z.to_int z).

(** [bool(v)] *)
Definition truthy (v : json) : bool :=
  match v with
  | JNull => false
  | JBool b => b
  | JInt z => negb (Z.eqb z 0)
  | JFloat q => negb (Qeq_bool q 0)
  | JStr s => negb (String.eqb s "")
  | JList l => match l with [] => false | _ => true end
  | JDict d => match d with [] => false | _ => true end
  end.

(** The numeric value of an [int], [float] or [bool]. *)
Definition to_number (v : json) : option Q :=
  match v with
  | JBool b => Some (if b then 1 else 0)%Q
  | JInt z => Some (inject_Z z)
  | JFloat q => Some q
  | _ => None
  end.

(** [d.get(k)] on the association list of a dict. *)
Fixpoint lookup_key (k : string) (d : list (string * json)) : option json :=
  match d with
  | [] => None
  | (k', v) :: d' => if String.eqb k k' then Some v else lookup_key k d'
  end.

(** [a == b] *)
Fixpoint eq (a b : json) {struct a} : bool :=
  match to_number a, to_number b with
  | Some x, Some y => Qeq_bool x y
  | Some _, None | None, Some _ => false
  | None, None =>
      match a, b with
      | JNull, JNull => true
      | JStr s, JStr t => String.eqb s t
      | JList xs, JList ys =>
          (fix go (xs ys : list json) {struct xs} : bool :=
             match xs, ys with
             | [], [] => true
             | x :: xs', y :: ys' => eq x y && go xs' ys'
             | _, _ => false
             end) xs ys
      | JDict d, JDict e =>
          Nat.eqb (length d) (length e) &&
          (fix all (d : list (string * json)) : bool :=
             match d with
             | [] => true
             | (k, v) :: d' =>
                 match lookup_key k e with
                 | Some v' => eq v v'
                 | None => false
                 end && all d'
             end) d
      | _, _ => false
      end
  end.

(** [v[key]] with a string key. *)
Definition getitem (v : json) (key : string) : res json :=
  match v with
  | JDict d =>
      match lookup_key key d with
      | Some x => Val x
      | None => Exc (KeyError key)
      end
  | _ => Exc TypeError
  end.

(** [v[0]] *)
Definition getitem0 (v : json) : res json :=
  match v with
  | JList (x :: _) => Val x
  | JList [] => Exc IndexError
  | JStr (String c _) => Val (JStr (String c EmptyString))
  | JStr EmptyString => Exc IndexError
  | JDict _ => Exc (KeyError "0")
  | _ => Exc TypeError
  end.

(** [key in v] with a string key. *)
Definition contains (key : string) (v : json) : res bool :=
  match v with
  | JDict d => Val (match lookup_key key d with Some _ => true | None => false end)
  | JList l => Val (existsb (eq (JStr key)) l)
  | JStr s => Val (str_contains key s)
  | _ => Exc TypeError
  end.

(** What [for x in v] iterates over. *)
Definition iterate (v : json) : res (list json) :=
  match v with
  | JList l => Val l
  | JDict d => Val (map (fun kv => JStr kv.1) d)
  | JStr s => Val (map (fun c => JStr (String c EmptyString)) (list_ascii_of_string s))
  | _ => Exc TypeError
  end.

(** The numbers that round to a finite float are those below
    [2^1024 - 2^970] in absolute value; from there on the nearest float
    would be [2^1024], which does not exist. *)
Definition float_limit : Z := 2 ^ 1024 - 2 ^ 970.

Definition fits_float (q : Q) : bool := negb (Qle_bool (inject_Z float_limit) (Qabs q)).

(** [float(v)] as arithmetic and formatting apply it to a number: an
    [int] must fit, a [bool] counts as 0 or 1. *)
Definition to_float (v : json) : res Q :=
  match v with
  | JBool b => Val (if b then 1 else 0)%Q
  | JInt z => if fits_float (inject_Z z) then Val (inject_Z z) else Exc OverflowError
  | JFloat q => Val q
  | _ => Exc TypeError
  end.

(** [format(v, ".2f")]: accepted by numbers only; an [int] is turned into
    a float first; a string is a [ValueError], anything else a
    [TypeError]. *)
Definition format_float (v : json) : res Q :=
  match v with
  | JStr _ => Exc ValueError
  | _ => to_float v
  end.

(** [v / n] for a positive [int] constant [n].  The quotient of two
    [int]s is computed exactly and then rounded, so that it is the quotient
    that must fit. *)
Definition div_const (v : json) (n : Z) : res Q :=
  match v with
  | JBool b => Val ((if b then 1 else 0) / inject_Z n)%Q
  | JInt z => if fits_float (inject_Z z / inject_Z n)
              then Val (inject_Z z / inject_Z n)%Q else Exc OverflowError
  | JFloat q => Val (q / inject_Z n)%Q
  | _ => Exc TypeError
  end.

(** [x * v] for a float [x]. *)
Definition float_mul (x : Q) (v : json) : res Q :=
  let? q := to_float v in Val (x * q)%Q.

End Py.

(** ** The world outside the process *)

(** One argument of a command line: a literal, or [str(v)] of a runtime
    value. *)
Inductive arg :=
| Lit (s : string)
| Str (v : json).

(** A local directory tree, as [tarfile] walks it. *)
Inductive node :=
| File (name : string)
| Dir (name : string) (children : list node).

Definition node_name (n : node) : string :=
  match n with File name => name | Dir name _ => name end.

(** A local file-system entry. *)
Inductive entry :=
| Archive (members : list string)
| Blob (data : string)
| Directory.

(** The status lines written to standard output, one constructor for each
    [print] of the source, with the values it interpolates. *)
Inductive message :=
| MsgFinding
| MsgNoAffordable4
| MsgNo4
| MsgNoMulti
| MsgSelected (num_gpus gpu_name : json) (gpu_ram_gb total_gpu_ram_gb dph_total : Q)
| MsgCreating
| MsgCreated (contract : json)
| MsgWaiting
| MsgReady
| MsgSshFields (fields : list string)
| MsgDestroying (contract : json)
| MsgDestroyed
| MsgPackaging
| MsgPackaged (size_mb : Q)
| MsgNoPort
| MsgConnecting (host port : json)
| MsgConnected
| MsgUploading
| MsgExtracting
| MsgDirContents (listing : string)
| MsgFoundTrain (dir : string)
| MsgTrainNotFound (dir : string)
| MsgInstalling
| MsgInstalled
| MsgRunning
| MsgLine (line : string)
| MsgCompleted
| MsgDownloadingArtifacts
| MsgDownloading (filename : string)
| MsgDownloaded (count : nat) (dir : string)
| MsgNoArtifacts
| MsgCost (cost : Q).

(** Everything the run does that can be observed from outside, in the order
    it happens. *)
Inductive event :=
| Print (m : message)
| Vastai (cmd : list arg)
| Sleep (seconds : Z)
| MkTemp (path : string)
| TarOpen (path : string)
| TarAdd (path : string) (arcname : string)
| Stat (path : string)
| Unlink (path : string)
| Mkdir (path : string)
| SshConnect (host port : json)
| ScpOpen
| ScpPut (local remote : string)
| SshExec (cmd : string) (pty : bool)
| ScpGet (remote local : string)
| SshClose.

(** Answer of the [vastai] command line to one call: its parsed output,
    a nonzero exit status, output that is not JSON, a failure to start it,
    or no answer at all ([subprocess.run] is given no timeout). *)
Inductive cli_result :=
| CliJson (j : json)
| CliFailed (stderr : string)
| CliGarbage (why : string)
| CliCrashed (e : exn)
| CliBlocks.

(** Answer of the remote shell to one command: it ends with its output
    and exit status, it cannot be started, or it never ends, having written
    [out] so far (the reads from it have no timeout). *)
Inductive exec_result :=
| ExecDone (out err : string) (status : Z)
| ExecRaises (e : exn)
| ExecBlocks (out : string).

(** The behaviour of the external collaborators during one run: the
    answers of the command line by call number, the clock by reading, the
    name [tempfile] chooses, [os.path.abspath], what opening the archive,
    listing a directory and adding an entry do, the size of an archive, and
    the answers of the SSH and SCP sessions. *)
Record Env := {
  vastai : nat -> list arg -> cli_result;
  clock : nat -> Q;
  tmp_file : res string;
  abspath : string -> string;
  tar_open : option exn;
  listing : string -> res (list node);
  tar_add : string -> option exn;
  archive_size : list string -> Z;
  ssh_connect : json -> json -> option exn;
  scp_put : string -> string -> option exn;
  ssh_exec : string -> exec_result;
  scp_get : string -> res string
}.

(** The state of a run: the trace so far, the local files under the paths
    by which the program names them, how often the command line and the
    clock were used, and the variable [contract_id] of [SpeedRun.run], which
    its [finally] clause reads.  Two spellings of one path are two keys of
    [fs]; statements about other files are made up to [abspath]. *)
Record World := {
  trace : list event;
  fs : gmap string entry;
  cli_calls : nat;
  clock_reads : nat;
  run_contract_id : json
}.

(** The world at the start of a run over the local files [f]. *)
Definition start (f : gmap string entry) : World :=
  {| trace := []; fs := f; cli_calls := 0; clock_reads := 0; run_contract_id := JNull |}.

(** ** A state and exception monad *)

Inductive outcome (A : Type) :=
| Ok (a : A)
| Raise (e : exn)
| Diverge.
Arguments Ok {A} a.
Arguments Raise {A} e.
Arguments Diverge {A}.

Definition M (A : Type) : Type := World -> outcome A * World.

Definition ret {A} (a : A) : M A := fun w => (Ok a, w).

Definition raise {A} (e : exn) : M A := fun w => (Raise e, w).

Definition diverge {A} : M A := fun w => (Diverge, w).

Definition bind {A B} (m : M A) (k : A -> M B) : M B :=
  fun w =>
    match m w with
    | (Ok a, w') => k a w'
    | (Raise e, w') => (Raise e, w')
    | (Diverge, w') => (Diverge, w')
    end.

Declare Scope run_scope.
Delimit Scope run_scope with run.
Notation "x <- m ;; k" := (bind m (fun x => k))
  (at level 100, m at next level, right associativity) : run_scope.
Notation "m ;; k" := (bind m (fun _ => k))
  (at level 100, right associativity) : run_scope.
Local Open Scope run_scope.

(** A Python expression evaluated inside the run. *)
Definition lift {A} (r : res A) : M A :=
  match r with Val a => ret a | Exc e => raise e end.

(** An operation that either succeeds or raises what the environment says. *)
Definition may_raise (o : option exn) : M unit :=
  match o with None => ret tt | Some e => raise e end.

(** [try: body finally: cleanup].  The cleanup runs whether the body
    returned or raised; an exception of the cleanup replaces the outcome of
    the body.  A body that never returns never reaches the cleanup. *)
Definition try_finally {A} (body : M A) (cleanup : M unit) : M A :=
  fun w =>
    match body w with
    | (Diverge, w') => (Diverge, w')
    | (r, w') =>
        match cleanup w' with
        | (Ok _, w'') => (r, w'')
        | (Raise e, w'') => (Raise e, w'')
        | (Diverge, w'') => (Diverge, w'')
        end
    end.

(** [for x in xs: body] *)
Fixpoint for_each {A} (xs : list A) (body : A -> M unit) : M unit :=
  match xs with
  | [] => ret tt
  | x :: xs' => body x ;; for_each xs' body
  end.

Definition emit (e : event) : M unit :=
  fun w => (Ok tt, {| trace := trace w ++ [e]; fs := fs w; cli_calls := cli_calls w;
                      clock_reads := clock_reads w; run_contract_id := run_contract_id w |}).

Definition print (m : message) : M unit := emit (Print m).

Definition get_fs : M (gmap string entry) := fun w => (Ok (fs w), w).

Definition put_fs (f : gmap string entry) : M unit :=
  fun w => (Ok tt, {| trace := trace w; fs := f; cli_calls := cli_calls w;
                      clock_reads := clock_reads w; run_contract_id := run_contract_id w |}).

Definition next_cli_call : M nat :=
  fun w => (Ok (cli_calls w),
            {| trace := trace w; fs := fs w; cli_calls := S (cli_calls w);
               clock_reads := clock_reads w; run_contract_id := run_contract_id w |}).

Definition next_clock_read : M nat :=
  fun w => (Ok (clock_reads w),
            {| trace := trace w; fs := fs w; cli_calls := cli_calls w;
               clock_reads := S (clock_reads w); run_contract_id := run_contract_id w |}).

Definition get_contract_id : M json := fun w => (Ok (run_contract_id w), w).

Definition set_contract_id (c : json) : M unit :=
  fun w => (Ok tt, {| trace := trace w; fs := fs w; cli_calls := cli_calls w;
                      clock_reads := clock_reads w; run_contract_id := c |}).

(** ** The program *)

Section Program.

Variable env : Env.

(** [time.time()] *)
Definition time_time : M Q :=
  n <- next_clock_read ;;
  ret (clock env n).

(** *** class VastAI *)

(** [VastAI._run_vastai_cmd]: runs [vastai <cmd> --raw] and parses its
    standard output. *)
Definition run_vastai_cmd (cmd : list arg) : M json :=
  n <- next_cli_call ;;
  emit (Vastai cmd) ;;
  match vastai env n cmd with
  | CliJson j => ret j
  | CliFailed stderr => raise (RuntimeError ("vastai command failed: " +:+ stderr))
  | CliGarbage why => raise (RuntimeError ("Failed to parse vastai response: " +:+ why))
  | CliCrashed e => raise e
  | CliBlocks => diverge
  end.

Definition search_offers (query order : string) : list arg :=
  [Lit "search"; Lit "offers"; Lit query; Lit "--order"; Lit order; Lit "--limit"; Lit "10"].

Definition tier1 : list arg :=
  search_offers "rentable=true reliability>0.95 num_gpus>=4 dph_total<10.0"
                "num_gpus-,gpu_total_ram-".
Definition tier2 : list arg :=
  search_offers "rentable=true reliability>0.95 num_gpus>=4" "num_gpus-,gpu_total_ram-".
Definition tier3 : list arg :=
  search_offers "rentable=true reliability>0.95 num_gpus>=2" "num_gpus-,gpu_total_ram-".
Definition tier4 : list arg :=
  search_offers "rentable=true reliability>0.95" "gpu_total_ram-".

Definition tiers : list (list arg) := [tier1; tier2; tier3; tier4].

(** Lines 83 to 94 of [find_best_gpu]: take and report the first
    candidate. *)
Definition select_best (instances : json) : M json :=
  (if negb (Py.truthy instances)
   then raise (RuntimeError "No GPU instances found")
   else ret tt) ;;
  best <- lift (Py.getitem0 instances) ;;
  gpu_ram_gb <- lift (let? v := Py.getitem best "gpu_ram" in Py.div_const v 1024) ;;
  total_gpu_ram_gb <- lift (let? v := Py.getitem best "gpu_total_ram" in Py.div_const v 1024) ;;
  num_gpus <- lift (Py.getitem best "num_gpus") ;;
  gpu_name <- lift (Py.getitem best "gpu_name") ;;
  dph_total <- lift (let? v := Py.getitem best "dph_total" in Py.format_float v) ;;
  print (MsgSelected num_gpus gpu_name gpu_ram_gb total_gpu_ram_gb dph_total) ;;
  ret best.

(** [VastAI.find_best_gpu] *)
Definition find_best_gpu : M json :=
  print MsgFinding ;;
  instances <- run_vastai_cmd tier1 ;;
  instances <- (if negb (Py.truthy instances)
                then print MsgNoAffordable4 ;; run_vastai_cmd tier2
                else ret instances) ;;
  instances <- (if negb (Py.truthy instances)
                then print MsgNo4 ;; run_vastai_cmd tier3
                else ret instances) ;;
  instances <- (if negb (Py.truthy instances)
                then print MsgNoMulti ;; run_vastai_cmd tier4
                else ret instances) ;;
  select_best instances.

(** [VastAI.create_instance] *)
Definition create_instance (instance_id : json) : M json :=
  print MsgCreating ;;
  result <- run_vastai_cmd
    [Lit "create"; Lit "instance"; Str instance_id;
     Lit "--image"; Lit "pytorch/pytorch:2.1.0-cuda11.8-cudnn8-runtime";
     Lit "--disk"; Lit "50"; Lit "--label"; Lit "speedrun"; Lit "--ssh"; Lit "--direct"] ;;
  contract_id <- lift (Py.getitem result "new_contract") ;;
  print (MsgCreated contract_id) ;;
  ret contract_id.

(** The test of the polling loop:
    [instance["id"] == contract_id and instance["actual_status"] == "running"]. *)
Definition is_running (contract_id instance : json) : res bool :=
  let? id := Py.getitem instance "id" in
  if Py.eq id contract_id
  then let? status := Py.getitem instance "actual_status" in
       Val (Py.eq status (JStr "running"))
  else Val false.

(** The inner [for instance in instances] of the polling loop: the first
    running instance of the contract, if any. *)
Fixpoint find_running (contract_id : json) (instances : list json) : res (option json) :=
  match instances with
  | [] => Val None
  | instance :: rest =>
      let? running := is_running contract_id instance in
      if running then Val (Some instance) else find_running contract_id rest
  end.

(** The keys shown by the debugging line of [wait_for_instance]. *)
Definition ssh_fields (instance : json) : res (list string) :=
  match instance with
  | JDict d =>
      Val (filter (fun k => Is_true (existsb (fun term => Py.str_contains term (Py.lower k))
                                             ["ssh"; "port"; "host"; "ip"]))
                  (map fst d))
  | _ => Exc AttributeError
  end.

(** The command of the polling loop. *)
Definition show_cmd : list arg := [Lit "show"; Lit "instances"].

(** The [while True] loop of [wait_for_instance] polls without a bound;
    the model polls at most [fuel] times and diverges when that is not
    enough. *)
Fixpoint wait_loop (fuel : nat) (contract_id : json) : M json :=
  match fuel with
  | O => diverge
  | S fuel' =>
      instances <- run_vastai_cmd show_cmd ;;
      items <- lift (Py.iterate instances) ;;
      found <- lift (find_running contract_id items) ;;
      match found with
      | Some instance =>
          print MsgReady ;;
          fields <- lift (ssh_fields instance) ;;
          (match fields with [] => ret tt | _ => print (MsgSshFields fields) end) ;;
          ret instance
      | None =>
          emit (Sleep 10) ;;
          wait_loop fuel' contract_id
      end
  end.

(** [VastAI.wait_for_instance] *)
Definition wait_for_instance (fuel : nat) (contract_id : json) : M json :=
  print MsgWaiting ;;
  wait_loop fuel contract_id.

(** [VastAI.destroy_instance] *)
Definition destroy_cmd (contract_id : json) : list arg :=
  [Lit "destroy"; Lit "instance"; Str contract_id].

Definition destroy_instance (contract_id : json) : M unit :=
  print (MsgDestroying contract_id) ;;
  run_vastai_cmd (destroy_cmd contract_id) ;;
  print MsgDestroyed.

(** *** class SpeedRun *)

(** The members [tar.add(name, arcname=...)] writes: the entry itself and,
    for a directory, everything below it, the children in sorted order.
    [tar.add] leaves out the archive it is writing: an entry whose absolute
    path is that of the archive is skipped, wherever it lies. *)
Definition by_name (a b : string * list string) : Prop := Is_true (String.leb a.1 b.1).

Definition is_archive (archive name : string) : bool :=
  String.eqb (abspath env name) (abspath env archive).

Fixpoint tar_members (archive name arcname : string) (n : node) : list string :=
  if is_archive archive name then []
  else match n with
       | File _ => [arcname]
       | Dir _ children =>
           arcname ::
           concat (map snd (merge_sort by_name
             (map (fun c => (node_name c,
                             tar_members archive (name +:+ "/" +:+ node_name c)
                                         (arcname +:+ "/" +:+ node_name c) c))
                  children)))
       end.

(** [tempfile.NamedTemporaryFile(suffix='.tar.gz', delete=False)] and
    [temp_file.close()]: an empty file that stays on disk. *)
Definition named_temporary_file : M string :=
  path <- lift (tmp_file env) ;;
  emit (MkTemp path) ;;
  f <- get_fs ;;
  put_fs (<[path := Blob ""]> f) ;;
  ret path.

(** [tarfile.open(path, 'w:gz')] *)
Definition tarfile_open (path : string) : M unit :=
  emit (TarOpen path) ;;
  may_raise (tar_open env) ;;
  f <- get_fs ;;
  put_fs (<[path := Archive []]> f).

(** [tar.add(item, arcname=item.name)] on the archive at [path]. *)
Definition tarfile_add (path dir : string) (item : node) : M unit :=
  emit (TarAdd (Py.path_join dir (node_name item)) (node_name item)) ;;
  may_raise (tar_add env (node_name item)) ;;
  f <- get_fs ;;
  let old := match f !! path with Some (Archive ms) => ms | _ => [] end in
  put_fs (<[path := Archive (old ++ tar_members path (Py.path_join dir (node_name item))
                                                (node_name item) item)]> f).

(** [path.stat().st_size] *)
Definition stat_size (path : string) : M Z :=
  emit (Stat path) ;;
  f <- get_fs ;;
  match f !! path with
  | Some (Archive ms) => ret (archive_size env ms)
  | Some (Blob data) => ret (Z.of_nat (String.length data))
  | Some Directory => ret 4096%Z
  | None => raise (FileNotFoundError path)
  end.

(** [path.unlink()] *)
Definition unlink (path : string) : M unit :=
  emit (Unlink path) ;;
  f <- get_fs ;;
  match f !! path with
  | Some Directory => raise (OSError "is a directory")
  | Some _ => put_fs (delete path f)
  | None => raise (FileNotFoundError path)
  end.

(** [path.mkdir(exist_ok=True)] *)
Definition mkdir_exist_ok (path : string) : M unit :=
  emit (Mkdir path) ;;
  f <- get_fs ;;
  match f !! path with
  | Some Directory => ret tt
  | Some _ => raise (FileExistsError path)
  | None => put_fs (<[path := Directory]> f)
  end.

(** [SpeedRun.package_project] *)
Definition package_project (project_path : string) : M string :=
  print MsgPackaging ;;
  temp_path <- named_temporary_file ;;
  tarfile_open temp_path ;;
  items <- lift (listing env project_path) ;;
  for_each items (fun item =>
    if negb (Py.startswith "." (node_name item))
    then tarfile_add temp_path project_path item
    else ret tt) ;;
  size <- stat_size temp_path ;;
  print (MsgPackaged (inject_Z size / (1024 * 1024))) ;;
  ret temp_path.

(** Lines 163 to 184 of [run_on_instance]: the host and port of the SSH
    connection, and whether the default port was taken. *)
Definition resolve_connection (instance_info : json) : res (json * json * bool) :=
  let? host := Py.getitem instance_info "public_ipaddr" in
  let? has_host := Py.contains "ssh_host" instance_info in
  let? has_port := (if has_host then Py.contains "ssh_port" instance_info else Val false) in
  if has_host && has_port then
    let? host := Py.getitem instance_info "ssh_host" in
    let? port := Py.getitem instance_info "ssh_port" in
    Val (host, port, false)
  else
    let? has_ports := Py.contains "ports" instance_info in
    let? has_22 := (if has_ports
                    then let? ports := Py.getitem instance_info "ports" in
                         Py.contains "22/tcp" ports
                    else Val false) in
    if has_ports && has_22 then
      let? ports := Py.getitem instance_info "ports" in
      let? port_info := Py.getitem ports "22/tcp" in
      match port_info with
      | JList (first :: _) =>
          let? port := Py.getitem first "HostPort" in
          Val (host, port, false)
      | _ => Val (host, port_info, false)
      end
    else
      let? has_direct := Py.contains "direct_port_start" instance_info in
      if has_direct then
        let? port := Py.getitem instance_info "direct_port_start" in
        Val (host, port, false)
      else Val (host, JInt 22, true).

(** [ssh.exec_command(cmd)] and the read of its output to the end, with
    what the caller takes from it: standard output, standard error and the
    exit status.  The read returns when the command ends. *)
Definition exec_command (cmd : string) (pty : bool) : M (string * string * Z) :=
  emit (SshExec cmd pty) ;;
  match ssh_exec env cmd with
  | ExecDone out err status => ret (out, err, status)
  | ExecRaises e => raise e
  | ExecBlocks _ => diverge
  end.

(** [ssh.exec_command(cmd, get_pty=True)], the loop that prints its output
    line by line as it comes, and [recv_exit_status()]: lines 229 to 235.
    When the command never ends, the lines it has completed are printed and
    the loop waits for the next one. *)
Definition stream_command (cmd : string) : M Z :=
  emit (SshExec cmd true) ;;
  match ssh_exec env cmd with
  | ExecDone out err status =>
      for_each (Py.readlines out) (fun line => print (MsgLine (Py.rstrip line))) ;;
      ret status
  | ExecRaises e => raise e
  | ExecBlocks out =>
      for_each (Py.whole_lines out) (fun line => print (MsgLine (Py.rstrip line))) ;;
      diverge
  end.

(** [scp.put(local, remote)] *)
Definition scp_put_file (local remote : string) : M unit :=
  emit (ScpPut local remote) ;;
  f <- get_fs ;;
  match f !! local with
  | None => raise (FileNotFoundError local)
  | Some _ => may_raise (scp_put env local remote)
  end.

(** Where [scp.get(remote, local)] writes: to [local], or into it under
    the remote file's name when [local] is a directory. *)
Definition scp_target (f : gmap string entry) (remote local : string) : string :=
  match f !! local with
  | Some Directory => Py.path_join local (Py.path_name remote)
  | _ => local
  end.

(** [scp.get(remote, local)] *)
Definition scp_get_file (remote local : string) : M unit :=
  emit (ScpGet remote local) ;;
  data <- lift (scp_get env remote) ;;
  f <- get_fs ;;
  put_fs (<[scp_target f remote local := Blob data]> f).

Definition patterns : list string := ["*.pt"; "*.pth"; "*.pkl"; "*.h5"; "*.hdf5"].

(** The non-blank lines of a command's output, stripped. *)
Definition output_lines (out : string) : list string :=
  filter (fun f => f ≠ "") (map Py.strip (Py.split "010"%char out)).

(** The command that searches the project for one pattern. *)
Definition find_command (actual_project_dir pattern : string) : string :=
  "find " +:+ actual_project_dir +:+ " -name '" +:+ pattern +:+ "' -type f".

(** The [for pattern in patterns] loop, extending [model_files]. *)
Fixpoint find_model_files (actual_project_dir : string) (ps : list string)
    (model_files : list string) : M (list string) :=
  match ps with
  | [] => ret model_files
  | pattern :: rest =>
      r <- exec_command (find_command actual_project_dir pattern) false ;;
      let files := output_lines r.1.1 in
      find_model_files actual_project_dir rest (model_files ++ files)
  end.

Definition results_dir_name (now : Q) : string :=
  "speedrun_results_" +:+ Py.str_of_int (Py.int_of_float now).

(** Where a remote artifact is written locally. *)
Definition local_file (results_dir remote_file : string) : string :=
  Py.path_join results_dir (Py.path_name remote_file).

(** The [for remote_file in model_files] loop. *)
Definition download_all (results_dir : string) (model_files : list string) : M unit :=
  for_each model_files (fun remote_file =>
    print (MsgDownloading (Py.path_name remote_file)) ;;
    scp_get_file remote_file (local_file results_dir remote_file)).

(** Lines 240 to 266 of [run_on_instance]: find and download the model
    artifacts. *)
Definition download_artifacts (actual_project_dir : string) : M unit :=
  print MsgDownloadingArtifacts ;;
  model_files <- find_model_files actual_project_dir patterns [] ;;
  match model_files with
  | _ :: _ =>
      now <- time_time ;;
      let results_dir := results_dir_name now in
      mkdir_exist_ok results_dir ;;
      download_all results_dir model_files ;;
      print (MsgDownloaded (length model_files) results_dir)
  | [] => print MsgNoArtifacts
  end.

(** The command that runs the training. *)
Definition training_command (actual_project_dir : string) : string :=
  "cd " +:+ actual_project_dir +:+ " && python train.py".

(** Lines 195 to 238 of [run_on_instance]: upload, set up and run the
    training. *)
Definition train (package_path project_name : string) : M string :=
  print MsgUploading ;;
  scp_put_file package_path "/root/project.tar.gz" ;;
  print MsgExtracting ;;
  exec_command "cd /root && tar -xzf project.tar.gz && rm project.tar.gz" false ;;
  r <- exec_command "ls -la /root/" false ;;
  print (MsgDirContents r.1.1) ;;
  r <- exec_command "find /root -name 'train.py' -type f" false ;;
  let train_py_path := Py.strip r.1.1 in
  actual_project_dir <-
    (if negb (String.eqb train_py_path "")
     then let dir := Py.join "/" (Py.but_last (Py.split "/"%char train_py_path)) in
          print (MsgFoundTrain dir) ;; ret dir
     else let dir := "/root/" +:+ project_name in
          print (MsgTrainNotFound dir) ;; ret dir) ;;
  r <- exec_command ("ls " +:+ actual_project_dir +:+ "/requirements.txt") false ;;
  (if String.eqb r.1.2 ""
   then print MsgInstalling ;;
        exec_command ("cd " +:+ actual_project_dir +:+ " && pip install -r requirements.txt")
                     false ;;
        print MsgInstalled
   else ret tt) ;;
  print MsgRunning ;;
  status <- stream_command (training_command actual_project_dir) ;;
  (if negb (Z.eqb status 0) then raise (RuntimeError "Training failed") else ret tt) ;;
  print MsgCompleted ;;
  ret actual_project_dir.

(** [SpeedRun.run_on_instance] *)
Definition run_on_instance (instance_info : json) (package_path project_name : string)
    : M unit :=
  conn <- lift (resolve_connection instance_info) ;;
  let host := conn.1.1 in
  let port := conn.1.2 in
  (if conn.2 then print MsgNoPort else ret tt) ;;
  print (MsgConnecting host port) ;;
  emit (SshConnect host port) ;;
  may_raise (ssh_connect env host port) ;;
  emit ScpOpen ;;
  print MsgConnected ;;
  try_finally
    (actual_project_dir <- train package_path project_name ;;
     download_artifacts actual_project_dir)
    (emit SshClose).

(** The body of the inner [try] of [run]: the deployment and the cost. *)
Definition deploy (start_time : Q) (instance instance_info : json)
    (package_path project_name : string) : M unit :=
  run_on_instance instance_info package_path project_name ;;
  now <- time_time ;;
  let duration_hours := ((now - start_time) / 3600)%Q in
  cost <- lift (let? dph := Py.getitem instance "dph_total" in
                Py.float_mul duration_hours dph) ;;
  print (MsgCost cost).

(** The inner [try]/[finally] of [run]: the deployment phase, with the
    removal of the package on every way out. *)
Definition deploy_and_unlink (start_time : Q) (instance instance_info : json)
    (package_path project_name : string) : M unit :=
  try_finally
    (deploy start_time instance instance_info package_path project_name)
    (unlink package_path).

(** The body of the outer [try] of [run]. *)
Definition run_body (fuel : nat) (start_time : Q) (project_path : string) : M unit :=
  instance <- find_best_gpu ;;
  offer_id <- lift (Py.getitem instance "id") ;;
  contract_id <- create_instance offer_id ;;
  set_contract_id contract_id ;;
  instance_info <- wait_for_instance fuel contract_id ;;
  package_path <- package_project project_path ;;
  deploy_and_unlink start_time instance instance_info package_path
                    (Py.path_name project_path).

(** The [finally] clause of [run]. *)
Definition run_cleanup : M unit :=
  contract_id <- get_contract_id ;;
  if Py.truthy contract_id then destroy_instance contract_id else ret tt.

(** [SpeedRun.run] *)
Definition run (fuel : nat) (project_path : string) : M unit :=
  start_time <- time_time ;;
  set_contract_id JNull ;;
  try_finally (run_body fuel start_time project_path) run_cleanup.

End Program.

(** *** The entry point *)

(** What [main] asks of the machine it runs on: [Path(p).resolve()],
    [Path.exists], [Path.is_dir] and [os.environ.get], taken as answers that
    do not fail. *)
Record Host := {
  resolve : string -> string;
  path_exists : string -> bool;
  path_is_dir : string -> bool;
  environ_get : string -> option string
}.

(** The lines [main] prints itself. *)
Inductive notice :=
| MsgUsage
| MsgNotADirectory (project_path : string)
| MsgNoTrainPy
| MsgNoApiKey
| MsgStarting (name : string)
| MsgDryRunMode
| MsgRule
| MsgDryRunCompleted
| MsgDryRunFailed (e : exn)
| MsgSpeedrunCompleted.

(** What the process shows of [main]: its own lines, and the events of the
    selection or of the run it starts. *)
Inductive step :=
| Say (n : notice)
| Do (e : event).

(** How [main] ends: it returns, [sys.exit(status)] ends the process, an
    exception leaves it, or it never ends. *)
Inductive ending :=
| Returns
| Exits (status : Z)
| Fails (e : exn)
| Hangs.

(** [if not api_key] on the answer of [os.environ.get]. *)
Definition key_is_set (api_key : option string) : bool :=
  match api_key with
  | Some s => negb (String.eqb s "")
  | None => false
  end.

(** [main], on the command line [argv] and the local files [f]. *)
Definition main (host : Host) (env : Env) (fuel : nat) (argv : list string)
    (f : gmap string entry) : ending * list step :=
  if Nat.ltb (length argv) 2 || Nat.ltb 3 (length argv)
  then (Exits 1, [Say MsgUsage])
  else
    let project_path := resolve host (nth 1 argv "") in
    let dry_run := Nat.eqb (length argv) 3 && String.eqb (nth 2 argv "") "--dry-run" in
    if negb (path_exists host project_path) || negb (path_is_dir host project_path)
    then (Exits 1, [Say (MsgNotADirectory project_path)])
    else if negb (path_exists host (Py.path_join project_path "train.py"))
    then (Exits 1, [Say MsgNoTrainPy])
    else if negb (key_is_set (environ_get host "VAST_API_KEY"))
    then (Exits 1, [Say MsgNoApiKey])
    else
      let banner :=
        Say (MsgStarting (Py.path_name project_path))
        :: (if dry_run then [Say MsgDryRunMode] else []) ++ [Say MsgRule] in
      if dry_run
      then match find_best_gpu env (start f) with
           | (Ok _, w) => (Returns, banner ++ map Do (trace w) ++ [Say MsgDryRunCompleted])
           | (Raise e, w) => (Exits 1, banner ++ map Do (trace w) ++ [Say (MsgDryRunFailed e)])
           | (Diverge, w) => (Hangs, banner ++ map Do (trace w))
           end
      else match run env fuel project_path (start f) with
           | (Ok _, w) => (Returns, banner ++ map Do (trace w) ++ [Say MsgSpeedrunCompleted])
           | (Raise e, w) => (Fails e, banner ++ map Do (trace w))
           | (Diverge, w) => (Hangs, banner ++ map Do (trace w))
           end.

(** * Notions used in the statements *)

(** The [vastai] commands of a trace, in order. *)
Definition calls (t : list event) : list (list arg) :=
  omap (fun e => match e with Vastai cmd => Some cmd | _ => None end) t.

(** The events that are calls to a collaborator, that is, everything but
    the status lines. *)
Definition is_call (e : event) : bool :=
  match e with Print _ => false | _ => true end.

(** An offer record that [find_best_gpu] can report: a dict with
    ["num_gpus"] and ["gpu_name"], with numbers for ["gpu_ram"] and
    ["gpu_total_ram"] whose 1024th part is within the range of a float when
    they are [int]s, and with a number for ["dph_total"] that is within that
    range when it is an [int]. *)
Definition is_offer (o : json) : bool :=
  match o with
  | JDict d =>
      let megabytes k := match Py.lookup_key k d with
                         | Some (JInt z) => Py.fits_float (inject_Z z / 1024)
                         | Some (JBool _) | Some (JFloat _) => true
                         | _ => false
                         end in
      let price k := match Py.lookup_key k d with
                     | Some (JInt z) => Py.fits_float (inject_Z z)
                     | Some (JBool _) | Some (JFloat _) => true
                     | _ => false
                     end in
      let present k := bool_decide (is_Some (Py.lookup_key k d)) in
      megabytes "gpu_ram" && megabytes "gpu_total_ram" && present "num_gpus"
      && present "gpu_name" && price "dph_total"
  | _ => false
  end.

(** The hourly price of an offer, as a float. *)
Definition hourly_price (o : json) : option Q :=
  match Py.getitem o "dph_total" with
  | Val v => match Py.to_float v with Val q => Some q | Exc _ => None end
  | Exc _ => None
  end.

(** The world after the events [evs]. *)
Definition log (evs : list event) (w : World) : World :=
  {| trace := trace w ++ evs; fs := fs w; cli_calls := cli_calls w;
     clock_reads := clock_reads w; run_contract_id := run_contract_id w |}.

(** The world with the local files [f]. *)
Definition with_fs (f : gmap string entry) (w : World) : World :=
  {| trace := trace w; fs := f; cli_calls := cli_calls w;
     clock_reads := clock_reads w; run_contract_id := run_contract_id w |}.

(** The world after the command line was called with [cmd]. *)
Definition issue (cmd : list arg) (w : World) : World :=
  {| trace := trace w ++ [Vastai cmd]; fs := fs w; cli_calls := S (cli_calls w);
     clock_reads := clock_reads w; run_contract_id := run_contract_id w |}.

(** What [_run_vastai_cmd] makes of an answer of the command line. *)
Definition cli_outcome (r : cli_result) : outcome json :=
  match r with
  | CliJson j => Ok j
  | CliFailed stderr => Raise (RuntimeError ("vastai command failed: " +:+ stderr))
  | CliGarbage why => Raise (RuntimeError ("Failed to parse vastai response: " +:+ why))
  | CliCrashed e => Raise e
  | CliBlocks => Diverge
  end.

(** The world after [run] has read the clock and cleared [contract_id]. *)
Definition started (w : World) : World :=
  {| trace := trace w; fs := fs w; cli_calls := cli_calls w;
     clock_reads := S (clock_reads w); run_contract_id := JNull |}.

(** The first word of a command line. *)
Definition verb (cmd : list arg) : string :=
  match cmd with Lit s :: _ => s | _ => "" end.

(** The phases of a run, and the phase an event belongs to. *)
Inductive phase :=
| Selecting
| Creating
| Waiting
| Packaging
| Deploying
| Costing
| Unlinking
| Destroying
| Unknown.

Definition phase_of_message (m : message) : phase :=
  match m with
  | MsgFinding | MsgNoAffordable4 | MsgNo4 | MsgNoMulti | MsgSelected _ _ _ _ _ => Selecting
  | MsgCreating | MsgCreated _ => Creating
  | MsgWaiting | MsgReady | MsgSshFields _ => Waiting
  | MsgDestroying _ | MsgDestroyed => Destroying
  | MsgPackaging | MsgPackaged _ => Packaging
  | MsgCost _ => Costing
  | _ => Deploying
  end.

Definition phase_of (e : event) : phase :=
  match e with
  | Print m => phase_of_message m
  | Vastai cmd =>
      if String.eqb (verb cmd) "search" then Selecting
      else if String.eqb (verb cmd) "create" then Creating
      else if String.eqb (verb cmd) "show" then Waiting
      else if String.eqb (verb cmd) "destroy" then Destroying
      else Unknown
  | Sleep _ => Waiting
  | MkTemp _ | TarOpen _ | TarAdd _ _ | Stat _ => Packaging
  | Unlink _ => Unlinking
  | Mkdir _ | SshConnect _ _ | ScpOpen | ScpPut _ _ | SshExec _ _ | ScpGet _ _ | SshClose =>
      Deploying
  end.

(** Relations between the world before and after a computation. *)

(** Only events satisfying [P] were added. *)
Definition only (P : event -> Prop) (w w' : World) : Prop :=
  exists evs, trace w' = trace w ++ evs /\ Forall P evs.

Definition same_contract (w w' : World) : Prop := run_contract_id w' = run_contract_id w.

Definition same_fs (w w' : World) : Prop := fs w' = fs w.

Definition same_clock (w w' : World) : Prop := clock_reads w' = clock_reads w.

Definition same_cli (w w' : World) : Prop := cli_calls w' = cli_calls w.

(** A regular file at [path] stays one. *)
Definition is_file (e : option entry) : Prop :=
  match e with Some (Archive _) | Some (Blob _) => True | _ => False end.

Definition keeps_file (path : string) (w w' : World) : Prop :=
  is_file (fs w !! path) -> is_file (fs w' !! path).

(** A computation whose effect on the world is within [R]. *)
Definition respects (R : World -> World -> Prop) {A} (m : M A) : Prop :=
  forall w, R w (m w).2.

(** The paths of a tree below [arcname], the tree's own path first. *)
Fixpoint tree_paths (arcname : string) (n : node) : list string :=
  match n with
  | File _ => [arcname]
  | Dir _ children =>
      arcname :: flat_map (fun c => tree_paths (arcname +:+ "/" +:+ node_name c) c) children
  end.

(** The paths of a tree that an archive keeps when the entries for which
    [skip] holds are left out with all that lies below them: [name] is the
    entry's place in the file system, [arcname] its path in the archive. *)
Fixpoint kept_paths (skip : string -> bool) (name arcname : string) (n : node) : list string :=
  if skip name then []
  else match n with
       | File _ => [arcname]
       | Dir _ children =>
           arcname :: flat_map (fun c => kept_paths skip (name +:+ "/" +:+ node_name c)
                                                    (arcname +:+ "/" +:+ node_name c) c) children
       end.

(** The top-level entries [package_project] passes to [tar.add]. *)
Definition packaged (items : list node) : list node :=
  filter (fun item => Py.startswith "." (node_name item) = false) items.

(** The world after one more reading of the clock. *)
Definition tick (w : World) : World :=
  {| trace := trace w; fs := fs w; cli_calls := cli_calls w;
     clock_reads := S (clock_reads w); run_contract_id := run_contract_id w |}.

(** The five searches for artifacts. *)
Definition searches (actual_project_dir : string) : list event :=
  map (fun pattern => SshExec (find_command actual_project_dir pattern) false) patterns.

(** The standard output read from a remote command, empty when it cannot
    be run or does not end. *)
Definition stdout_of (r : exec_result) : string :=
  match r with ExecDone out _ _ => out | ExecRaises _ | ExecBlocks _ => "" end.

(** The remote files the five searches report for a project directory, in
    the order of the patterns and of the output, repetitions included. *)
Definition found (env : Env) (actual_project_dir : string) : list string :=
  flat_map (fun pattern =>
              output_lines (stdout_of (ssh_exec env (find_command actual_project_dir pattern))))
           patterns.

(** The contents [scp.get] fetches for a remote file. *)
Definition contents (env : Env) (remote_file : string) : string :=
  match scp_get env remote_file with Val data => data | Exc _ => "" end.

(** The events of the download of one remote file. *)
Definition download_events (results_dir remote_file : string) : list event :=
  [Print (MsgDownloading (Py.path_name remote_file));
   ScpGet remote_file (local_file results_dir remote_file)].

(** The local files after the downloads of [model_files] into
    [results_dir]. *)
Definition downloaded (env : Env) (results_dir : string) (model_files : list string)
    (f : gmap string entry) : gmap string entry :=
  foldl (fun m remote_file =>
           <[local_file results_dir remote_file := Blob (contents env remote_file)]> m)
        f model_files.

(** A computation that returns or raises from every world. *)
Definition total {A} (m : M A) : Prop := forall w, (m w).1 <> Diverge.

(** An environment in which every call of the marketplace CLI ends, and one
    in which every remote command ends. *)
Definition cli_ends (env : Env) : Prop := forall n cmd, vastai env n cmd <> CliBlocks.

Definition ssh_ends (env : Env) : Prop := forall cmd out, ssh_exec env cmd <> ExecBlocks out.

(** The events of a run before its deployment phase. *)
Definition early (e : event) : Prop :=
  phase_of e = Selecting \/ phase_of e = Creating \/ phase_of e = Waiting
  \/ phase_of e = Packaging.

(** The last status line of [package_project]. *)
Definition is_packaged (e : event) : Prop := exists size_mb, e = Print (MsgPackaged size_mb).

(** The status line that reports the cost. *)
Definition is_cost (e : event) : Prop := exists cost, e = Print (MsgCost cost).

(** The costs that a trace reports, in their order. *)
Definition costs (evs : list event) : list Q :=
  flat_map (fun e => match e with Print (MsgCost cost) => [cost] | _ => [] end) evs.

(** The cost of a run that started at [start_time] and ended at [now] on
    an instance of the given hourly price. *)
Definition cost_of (start_time now price : Q) : Q :=
  ((now - start_time) / 3600 * price)%Q.

(** The events of the teardown: its status lines and the destroy
    command. *)
Definition destroys (e : event) : bool :=
  match phase_of e with Destroying => true | _ => false end.

(** The events of artifact collection: its status lines, the searches for
    the five patterns, the results directory and the downloads. *)
Definition collects (e : event) : bool :=
  match e with
  | Print MsgDownloadingArtifacts | Print (MsgDownloading _) | Print (MsgDownloaded _ _)
  | Print MsgNoArtifacts | Mkdir _ | ScpGet _ _ => true
  | SshExec cmd _ =>
      existsb (fun pattern => Py.str_contains (" -name '" +:+ pattern +:+ "' -type f") cmd)
              patterns
  | _ => false
  end.

(** Events of one phase only. *)
Definition in_phase (p : phase) (e : event) : Prop := phase_of e = p.


(** Events of the packaging phase other than its last status line. *)
Definition packing (e : event) : Prop := phase_of e = Packaging /\ ~ is_packaged e.


(** Events before the package is complete. *)
Definition preparing (e : event) : Prop := early e /\ ~ is_packaged e.


(** The status line that reports the new contract. *)
Definition is_created (e : event) : Prop := exists contract, e = Print (MsgCreated contract).

(** Events that neither belong to the teardown nor report a new contract:
    what a run does after the instance is created and before the
    teardown. *)
Definition working (e : event) : Prop := destroys e = false /\ ~ is_created e.

(** The command run with a pseudo-terminal: the training. *)
Definition interactive (e : event) : bool :=
  match e with SshExec _ true => true | _ => false end.

(** The status lines that stream the output of the training. *)
Definition output_events (out : string) : list event :=
  map (fun line => Print (MsgLine (Py.rstrip line))) (Py.readlines out).

(** The status lines for the output of a training that never exits: the
    lines that were completed. *)
Definition partial_output_events (out : string) : list event :=
  map (fun line => Print (MsgLine (Py.rstrip line))) (Py.whole_lines out).

(** Whether the answer to the [i]-th call of the command line, taken as a
    poll for the contract, ends the polling loop: by an error, by never
    coming, or by a running instance of the contract. *)
Definition poll_ends (env : Env) (contract_id : json) (i : nat) : bool :=
  match vastai env i show_cmd with
  | CliJson instances =>
      match Py.iterate instances with
      | Val items =>
          match find_running contract_id items with
          | Val None => false
          | _ => true
          end
      | Exc _ => true
      end
  | _ => true
  end.

(** The command that creates an instance from the offer [offer_id]. *)
Definition create_cmd (offer_id : json) : list arg :=
  [Lit "create"; Lit "instance"; Str offer_id;
   Lit "--image"; Lit "pytorch/pytorch:2.1.0-cuda11.8-cudnn8-runtime";
   Lit "--disk"; Lit "50"; Lit "--label"; Lit "speedrun"; Lit "--ssh"; Lit "--direct"].

(** [n] polls that did not end the polling loop, each with the pause that
    follows it. *)
Definition polls (n : nat) : list event :=
  concat (replicate n [Vastai show_cmd; Sleep 10]).

(** Events of the phases before packaging: selection, creation and the
    wait. *)
Definition provisioning (e : event) : Prop :=
  phase_of e = Selecting \/ phase_of e = Creating \/ phase_of e = Waiting.

(** What is done through an SSH connection: uploads, commands, downloads
    and the closing of the connection. *)
Definition in_session (e : event) : bool :=
  match e with
  | ScpPut _ _ | SshExec _ _ | ScpGet _ _ | SshClose => true
  | _ => false
  end.

(** The closing of the connection. *)
Definition closes (e : event) : bool :=
  match e with SshClose => true | _ => false end.

(** The environment [env] with another remote shell. *)
Definition with_exec (env : Env) (exec : string -> exec_result) : Env :=
  {| vastai := vastai env; clock := clock env; tmp_file := tmp_file env;
     abspath := abspath env;
     tar_open := tar_open env; listing := listing env; tar_add := tar_add env;
     archive_size := archive_size env; ssh_connect := ssh_connect env;
     scp_put := scp_put env; ssh_exec := exec; scp_get := scp_get env |}.

(** The answer of the remote shell without its exit status. *)
Definition forget_status (r : exec_result) : exec_result :=
  match r with
  | ExecDone out err _ => ExecDone out err 0
  | ExecRaises e => ExecRaises e
  | ExecBlocks out => ExecBlocks out
  end.

(** The directory [run_on_instance] takes for the project, given what
    [find /root -name 'train.py' -type f] printed: the output without its
    last path component, or [/root/<project_name>] when the output is
    blank. *)
Definition project_dir (find_output project_name : string) : string :=
  let train_py_path := Py.strip find_output in
  if String.eqb train_py_path "" then "/root/" +:+ project_name
  else Py.join "/" (Py.but_last (Py.split "/"%char train_py_path)).

(** The commands that look for and install the requirements. *)
Definition requirements_command (actual_project_dir : string) : string :=
  "ls " +:+ actual_project_dir +:+ "/requirements.txt".

Definition install_command (actual_project_dir : string) : string :=
  "cd " +:+ actual_project_dir +:+ " && pip install -r requirements.txt".

(** What [run_on_instance] does on the instance before it looks for the
    requirements: the upload, the extraction and the search for
    [train.py]. *)
Definition unpacking (e : event) : bool :=
  match e with
  | Print MsgUploading | Print MsgExtracting | Print (MsgDirContents _)
  | Print (MsgFoundTrain _) | Print (MsgTrainNotFound _)
  | ScpPut _ _ | SshExec _ false => true
  | _ => false
  end.

(** The calls to the marketplace among the events. *)
Definition backend (e : event) : bool :=
  match e with Vastai _ => true | _ => false end.

(** The local paths a run writes to: its temporary archive, a results
    directory [speedrun_results_<seconds>], the file in it that is named
    after a remote file, and, where that name is taken by a directory, the
    file of that name inside it. *)
Definition own_path (env : Env) (q : string) : Prop :=
  tmp_file env = Val q \/
  exists (now : Q) (remote_file : string),
    q = results_dir_name now \/
    q = local_file (results_dir_name now) remote_file \/
    q = Py.path_join (local_file (results_dir_name now) remote_file)
                     (Py.path_name remote_file).

(** The local files outside [own] are as they were. *)
Definition untouched (own : string -> Prop) (w w' : World) : Prop :=
  forall q, ~ own q -> fs w' !! q = fs w !! q.

(** * Scenarios

    Concrete instance metadata, project trees and environments on which the
    program is evaluated below. *)

(** Metadata of a running instance without any connectivity field, not even
    a public address. *)
Definition bare_metadata : list (string * json) :=
  [("id", JInt 7001); ("actual_status", JStr "running")].

(** Metadata whose only connectivity field is the public address. *)
Definition plain_metadata : list (string * json) :=
  [("id", JInt 7001); ("actual_status", JStr "running"); ("public_ipaddr", JStr "1.2.3.4")].

(** Metadata with a public address whose field ["ports"] is [null]. *)
Definition null_ports_metadata : list (string * json) :=
  [("id", JInt 7001); ("actual_status", JStr "running"); ("public_ipaddr", JStr "1.2.3.4");
   ("ports", JNull)].

(** Metadata whose SSH port is [null]. *)
Definition null_port_metadata : list (string * json) :=
  [("id", JInt 7001); ("actual_status", JStr "running"); ("public_ipaddr", JStr "1.2.3.4");
   ("ssh_host", JStr "ssh4.vast.ai"); ("ssh_port", JNull)].

(** An 8-GPU offer at 5 dollars an hour. *)
Definition offer8 : json :=
  JDict [("id", JInt 42); ("num_gpus", JInt 8); ("gpu_name", JStr "H100");
         ("gpu_ram", JInt 81920); ("gpu_total_ram", JInt 655360); ("dph_total", JFloat 5)].

(** A single-GPU offer. *)
Definition offer1 : json :=
  JDict [("id", JInt 43); ("num_gpus", JInt 1); ("gpu_name", JStr "RTX 4090");
         ("gpu_ram", JInt 24576); ("gpu_total_ram", JInt 24576); ("dph_total", JFloat (2 # 5))].

(** Metadata of the running instance of a contract, reachable through the
    SSH proxy. *)
Definition running_instance (contract : json) : json :=
  JDict [("id", contract); ("actual_status", JStr "running");
         ("public_ipaddr", JStr "1.2.3.4");
         ("ssh_host", JStr "ssh5.vast.ai"); ("ssh_port", JInt 31022)].

(** A marketplace that answers the [n]-th call: searches with the
    corresponding entry of [tier_answers], [create] with the contract,
    [show] with an empty list for the calls before [ready_at] and the
    running instance from then on, [destroy] with [destroy_answer]. *)
Definition market (tier_answers : list json) (contract : json) (ready_at : nat)
    (destroy_answer : cli_result) (n : nat) (cmd : list arg) : cli_result :=
  if String.eqb (verb cmd) "search" then CliJson (nth n tier_answers (JList []))
  else if String.eqb (verb cmd) "create"
       then CliJson (JDict [("success", JBool true); ("new_contract", contract)])
  else if String.eqb (verb cmd) "show"
       then CliJson (JList (if Nat.ltb n ready_at then [] else [running_instance contract]))
  else destroy_answer.

Definition destroyed : cli_result := CliJson (JDict [("success", JBool true)]).

(** A remote host on which [train.py] lies in [/root/proj], there is no
    [requirements.txt], the training prints two lines and exits with
    [status], and the artifact searches answer [found]. *)
Definition remote (status : Z) (found : string -> string) (cmd : string) : exec_result :=
  if String.eqb cmd "find /root -name 'train.py' -type f"
  then ExecDone "/root/proj/train.py
" "" 0
  else if String.eqb cmd "ls /root/proj/requirements.txt"
  then ExecDone "" "ls: cannot access '/root/proj/requirements.txt'" 2
  else if String.eqb cmd "cd /root/proj && python train.py"
  then ExecDone "epoch 1
epoch 2
" "" status
  else if Py.startswith "find /root/proj -name " cmd
  then ExecDone (found cmd) "" 0
  else ExecDone "" "" 0.

(** Scenario E of the specification: [model.pt] and [weights.pth]. *)
Definition found_two (cmd : string) : string :=
  if String.eqb cmd "find /root/proj -name '*.pt' -type f" then "/root/proj/model.pt
"
  else if String.eqb cmd "find /root/proj -name '*.pth' -type f" then "/root/proj/weights.pth
"
  else "".

(** A project with dotfiles at the top and below. *)
Definition project_tree : list node :=
  [File "train.py"; File ".env";
   Dir "src" [File "model.py"; File ".secret"; File "data.py"];
   Dir ".git" [File "HEAD"]].

Definition make_env (cli : nat -> list arg -> cli_result) (exec : string -> exec_result) : Env :=
  {| vastai := cli;
     clock := fun n => inject_Z (1000 + 3600 * Z.of_nat n);
     tmp_file := Val "/tmp/tmpabc.tar.gz";
     abspath := fun name => name;
     tar_open := None;
     listing := fun _ => Val project_tree;
     tar_add := fun _ => None;
     archive_size := fun _ => 2097152%Z;
     ssh_connect := fun _ _ => None;
     scp_put := fun _ _ => None;
     ssh_exec := exec;
     scp_get := fun remote_file => Val ("contents of " +:+ remote_file) |}.

(** Scenario A of the specification: tier 1 answers with one 8-GPU offer;
    everything else goes well. *)
Definition scenario_a : Env :=
  make_env (market [JList [offer8]] (JInt 7001) 3 destroyed) (remote 0 found_two).

(** Only the last tier has an offer. *)
Definition scenario_single_gpu : Env :=
  make_env (market [JList []; JList []; JList []; JList [offer1]] (JInt 7001) 6 destroyed)
           (remote 0 found_two).

(** Scenario B of the specification: every tier is empty. *)
Definition scenario_b : Env :=
  make_env (market [] (JInt 7001) 0 destroyed) (remote 0 found_two).

(** A remote host on which two directories hold a [model.pt]. *)
Definition found_same_name (cmd : string) : string :=
  if String.eqb cmd "find /root/proj -name '*.pt' -type f" then "/root/proj/model.pt
/root/proj/ckpt/model.pt
"
  else "".

Definition scenario_same_name : Env :=
  make_env (market [JList [offer8]] (JInt 7001) 3 destroyed) (remote 0 found_same_name).

(** A remote host whose search reports one file twice. *)
Definition found_twice (cmd : string) : string :=
  if String.eqb cmd "find /root/proj -name '*.pt' -type f" then "/root/proj/model.pt
/root/proj/model.pt
"
  else "".

Definition scenario_twice : Env :=
  make_env (market [JList [offer8]] (JInt 7001) 3 destroyed) (remote 0 found_twice).

(** Local files left by an earlier run that started in the same second. *)
Definition stale_results : gmap string entry :=
  {[ "speedrun_results_1000" := Directory;
     "speedrun_results_1000/old.pt" := Blob "stale" ]}.

(** The job succeeds and the teardown is refused. *)
Definition scenario_teardown_fails : Env :=
  make_env (market [JList [offer8]] (JInt 7001) 3 (CliFailed "error 404: no such instance"))
           (remote 0 found_two).

(** Scenario D of the specification: the training exits with status 1. *)
Definition scenario_d : Env :=
  make_env (market [JList [offer8]] (JInt 7001) 3 destroyed) (remote 1 found_two).

(** The training exits with status 1 and the teardown is refused. *)
Definition scenario_both_fail : Env :=
  make_env (market [JList [offer8]] (JInt 7001) 3 (CliFailed "error 404: no such instance"))
           (remote 1 found_two).

(** The marketplace gives the new instance the contract id 0. *)
Definition scenario_contract_zero : Env :=
  make_env (market [JList [offer8]] (JInt 0) 3 destroyed) (remote 0 found_two).

(** The contract id is 0 and the training exits with status 1. *)
Definition scenario_contract_zero_d : Env :=
  make_env (market [JList [offer8]] (JInt 0) 3 destroyed) (remote 1 found_two).

(** The size in megabytes that the scenarios report for their package. *)
Definition package_size_mb : Q := inject_Z 2097152 / (1024 * 1024).

(** A scenario played from an empty local file system, with fuel for ten
    polls: the whole run, and the body of its outer [try] alone. *)
Definition played (env : Env) : outcome unit * World :=
  run env 10 "/home/user/proj" (start ∅).

Definition body_played (env : Env) : outcome unit * World :=
  run_body env 10 (clock env 0) "/home/user/proj" (started (start ∅)).

(** A machine on which the project directory and its [train.py] exist and
    the API key is set. *)
Definition workstation : Host :=
  {| resolve := fun p => "/home/user/" +:+ p;
     path_exists := fun p => String.eqb p "/home/user/proj"
                             || String.eqb p "/home/user/proj/train.py";
     path_is_dir := fun p => String.eqb p "/home/user/proj";
     environ_get := fun k => if String.eqb k "VAST_API_KEY" then Some "secret" else None |}.

(** A marketplace on which the new instance is not running during the
    first hundred calls. *)
Definition scenario_slow_start : Env :=
  make_env (market [JList [offer8]] (JInt 7001) 100 destroyed) (remote 0 found_two).

(** A marketplace whose first tier is empty and whose later searches are
    refused. *)
Definition scenario_search_refused : Env :=
  make_env (fun n _ => if Nat.eqb n 0 then CliJson (JList []) else CliFailed "rate limited")
           (remote 0 found_two).

(** A marketplace that answers the create command with an error record
    instead of a contract. *)
Definition scenario_creation_refused : Env :=
  make_env (fun n cmd =>
              if String.eqb (verb cmd) "search" then CliJson (JList [offer8])
              else CliJson (JDict [("success", JBool false); ("error", JStr "no_such_ask")]))
           (remote 0 found_two).

(** A marketplace on which listing the instances always fails. *)
Definition scenario_listing_fails : Env :=
  make_env (fun n cmd => if String.eqb (verb cmd) "show" then CliFailed "session expired"
                         else market [JList [offer8]] (JInt 7001) 0 destroyed n cmd)
           (remote 0 found_two).

(** The local files once the package of the scenarios is written. *)
Definition package_in_place : World :=
  with_fs {[ "/tmp/tmpabc.tar.gz" := Archive ["train.py"] ]} (start ∅).

(** A machine on which adding [src] to the archive fails. *)
Definition scenario_unreadable_source : Env :=
  {| vastai := market [JList [offer8]] (JInt 7001) 3 destroyed;
     clock := fun n => inject_Z (1000 + 3600 * Z.of_nat n);
     tmp_file := Val "/tmp/tmpabc.tar.gz";
     abspath := fun name => name;
     tar_open := None;
     listing := fun _ => Val project_tree;
     tar_add := fun name => if String.eqb name "src" then Some (OSError "permission denied")
                            else None;
     archive_size := fun _ => 2097152%Z;
     ssh_connect := fun _ _ => None;
     scp_put := fun _ _ => None;
     ssh_exec := remote 0 found_two;
     scp_get := fun remote_file => Val ("contents of " +:+ remote_file) |}.

(** A remote host from which [weights.pth] cannot be fetched. *)
Definition scenario_download_fails : Env :=
  {| vastai := market [JList [offer8]] (JInt 7001) 3 destroyed;
     clock := fun n => inject_Z (1000 + 3600 * Z.of_nat n);
     tmp_file := Val "/tmp/tmpabc.tar.gz";
     abspath := fun name => name;
     tar_open := None;
     listing := fun _ => Val project_tree;
     tar_add := fun _ => None;
     archive_size := fun _ => 2097152%Z;
     ssh_connect := fun _ _ => None;
     scp_put := fun _ _ => None;
     ssh_exec := remote 0 found_two;
     scp_get := fun remote_file =>
                  if String.eqb remote_file "/root/proj/weights.pth"
                  then Exc (TransportError "connection lost")
                  else Val ("contents of " +:+ remote_file) |}.

(** The remote host of scenario A, on which every command that does not
    start with [cd] exits with status 1. *)
Definition failing_lookups (cmd : string) : exec_result :=
  match remote 0 found_two cmd with
  | ExecDone out err status =>
      if Py.startswith "cd " cmd then ExecDone out err status else ExecDone out err 1
  | other => other
  end.

(** The remote host of scenario A with a [requirements.txt] beside
    [train.py]. *)
Definition remote_with_requirements (cmd : string) : exec_result :=
  if String.eqb cmd "ls /root/proj/requirements.txt"
  then ExecDone "/root/proj/requirements.txt
" "" 0
  else remote 0 found_two cmd.

Definition scenario_requirements : Env :=
  make_env (market [JList [offer8]] (JInt 7001) 3 destroyed) remote_with_requirements.

(** Local files of the user before a run. *)
Definition user_files : gmap string entry :=
  {[ "/home/user/proj/train.py" := Blob "print('training')";
     "/home/user/notes.txt" := Blob "remember to stop the instance" ]}.

(** A machine on which the temporary archive is made in the project
    directory, where the listing finds it. *)
Definition scenario_archive_in_project : Env :=
  {| vastai := market [JList [offer8]] (JInt 7001) 3 destroyed;
     clock := fun n => inject_Z (1000 + 3600 * Z.of_nat n);
     tmp_file := Val "/home/user/proj/tmpabc.tar.gz";
     abspath := fun name => name;
     tar_open := None;
     listing := fun _ => Val (project_tree ++ [File "tmpabc.tar.gz"]);
     tar_add := fun _ => None;
     archive_size := fun _ => 2097152%Z;
     ssh_connect := fun _ _ => None;
     scp_put := fun _ _ => None;
     ssh_exec := remote 0 found_two;
     scp_get := fun remote_file => Val ("contents of " +:+ remote_file) |}.

(** A remote host on which the training prints one line and a half and
    never exits. *)
Definition scenario_training_hangs : Env :=
  make_env (market [JList [offer8]] (JInt 7001) 3 destroyed)
           (fun cmd => if String.eqb cmd "cd /root/proj && python train.py"
                       then ExecBlocks "epoch 1
epo"
                       else remote 0 found_two cmd).

(** A marketplace on which the third listing of the instances fails. *)
Definition scenario_listing_breaks : Env :=
  make_env (fun n cmd => if Nat.eqb n 4 then CliFailed "502 bad gateway"
                         else market [JList [offer8]] (JInt 7001) 100 destroyed n cmd)
           (remote 0 found_two).

(** * Properties *)

(** ** The Python operations on examples *)

Example strip_example : Py.strip "  /root/p/train.py
" = "/root/p/train.py".
Proof. reflexivity. Qed.

Example split_example :
  Py.split "/"%char "/root/p/train.py" = [""; "root"; "p"; "train.py"].
Proof. reflexivity. Qed.

Example dirname_example :
  Py.join "/" (Py.but_last (Py.split "/"%char "/root/p/train.py")) = "/root/p".
Proof. reflexivity. Qed.

Example path_name_example :
  Py.path_name "/root/p/out/model.pt" = "model.pt" /\ Py.path_name "/" = "".
Proof. split; reflexivity. Qed.

Example readlines_example : Py.readlines "ab
cd" = ["ab
"; "cd"].
Proof. reflexivity. Qed.

Example eq_example :
  Py.eq (JInt 1) (JFloat 1) = true /\ Py.eq (JStr "1") (JInt 1) = false
  /\ Py.eq (JBool true) (JInt 1) = true.
Proof. repeat split; reflexivity. Qed.

Example truthy_example :
  Py.truthy (JInt 0) = false /\ Py.truthy JNull = false /\ Py.truthy (JList []) = false
  /\ Py.truthy (JInt 7001) = true.
Proof. repeat split; reflexivity. Qed.

Example results_dir_example : results_dir_name (2001 # 2) = "speedrun_results_1000".
Proof. reflexivity. Qed.

(** Scenario A from beginning to end: the commands sent to the
    marketplace. *)
Example scenario_a_calls :
  (played scenario_a).1 = Ok tt /\
  map verb (calls (trace (played scenario_a).2))
  = ["search"; "create"; "show"; "show"; "destroy"].
Proof. split; vm_compute; reflexivity. Qed.

(** ** Connection resolution *)

Section Resolve.

Variable d : list (string * json).

Lemma contains_dict (k : string) :
  Py.contains k (JDict d) = Val (bool_decide (is_Some (Py.lookup_key k d))).
Proof.
  simpl. now destruct (Py.lookup_key k d).
Qed.

Lemma getitem_dict (k : string) (v : json) :
  Py.lookup_key k d = Some v -> Py.getitem (JDict d) k = Val v.
Proof. intros H. simpl. now rewrite H. Qed.

Lemma resolve_no_address :
  Py.lookup_key "public_ipaddr" d = None ->
  resolve_connection (JDict d) = Exc (KeyError "public_ipaddr").
Proof. intros H. unfold resolve_connection. simpl Py.getitem. now rewrite H. Qed.

Lemma resolve_ssh_fields (h h' p : json) :
  Py.lookup_key "public_ipaddr" d = Some h ->
  Py.lookup_key "ssh_host" d = Some h' ->
  Py.lookup_key "ssh_port" d = Some p ->
  resolve_connection (JDict d) = Val (h', p, false).
Proof.
  intros Ha Hh Hp. unfold resolve_connection.
  rewrite !contains_dict, (getitem_dict _ _ Ha), (getitem_dict _ _ Hh),
    (getitem_dict _ _ Hp), Hh, Hp.
  reflexivity.
Qed.

(** Without both SSH fields the first branch is not taken. *)
Lemma resolve_skip_ssh (h : json) :
  Py.lookup_key "public_ipaddr" d = Some h ->
  Py.lookup_key "ssh_host" d = None \/ Py.lookup_key "ssh_port" d = None ->
  resolve_connection (JDict d) =
    let? has_ports := Py.contains "ports" (JDict d) in
    let? has_22 := (if has_ports
                    then let? ports := Py.getitem (JDict d) "ports" in
                         Py.contains "22/tcp" ports
                    else Val false) in
    if has_ports && has_22 then
      let? ports := Py.getitem (JDict d) "ports" in
      let? port_info := Py.getitem ports "22/tcp" in
      match port_info with
      | JList (first :: _) =>
          let? port := Py.getitem first "HostPort" in
          Val (h, port, false)
      | _ => Val (h, port_info, false)
      end
    else
      let? has_direct := Py.contains "direct_port_start" (JDict d) in
      if has_direct then
        let? port := Py.getitem (JDict d) "direct_port_start" in
        Val (h, port, false)
      else Val (h, JInt 22, true).
Proof.
  intros Ha Hno. unfold resolve_connection.
  rewrite (getitem_dict _ _ Ha). cbn [res_bind].
  rewrite (contains_dict "ssh_host"), (contains_dict "ssh_port"). cbn [res_bind].
  destruct Hno as [H | H]; rewrite H.
  - reflexivity.
  - destruct (Py.lookup_key "ssh_host" d); reflexivity.
Qed.

Lemma resolve_port_mapping (h : json) (pm : list (string * json)) (v : json) :
  Py.lookup_key "public_ipaddr" d = Some h ->
  Py.lookup_key "ssh_host" d = None \/ Py.lookup_key "ssh_port" d = None ->
  Py.lookup_key "ports" d = Some (JDict pm) ->
  Py.lookup_key "22/tcp" pm = Some v ->
  resolve_connection (JDict d) =
    match v with
    | JList (first :: _) => let? port := Py.getitem first "HostPort" in Val (h, port, false)
    | _ => Val (h, v, false)
    end.
Proof.
  intros Ha Hno Hports H22. rewrite (resolve_skip_ssh h Ha Hno).
  rewrite (contains_dict "ports"), (getitem_dict _ _ Hports), Hports.
  cbn [res_bind bool_decide]. simpl Py.contains. simpl Py.getitem. rewrite H22.
  reflexivity.
Qed.

(** A field ["ports"] that is no mapping: [in] fails on it, or finds the
    key and the subscript fails. *)
Lemma resolve_bad_ports (h ps : json) :
  Py.lookup_key "public_ipaddr" d = Some h ->
  Py.lookup_key "ssh_host" d = None \/ Py.lookup_key "ssh_port" d = None ->
  Py.lookup_key "ports" d = Some ps ->
  match ps with
  | JDict _ => False
  | JList l => existsb (Py.eq (JStr "22/tcp")) l = true
  | JStr s => Py.str_contains "22/tcp" s = true
  | _ => True
  end ->
  resolve_connection (JDict d) = Exc TypeError.
Proof.
  intros Ha Hno Hports Hbad. rewrite (resolve_skip_ssh h Ha Hno).
  rewrite (contains_dict "ports"), (getitem_dict _ _ Hports), Hports.
  cbn [res_bind bool_decide].
  destruct ps; try contradiction; try reflexivity;
    cbn [Py.contains res_bind]; rewrite Hbad; reflexivity.
Qed.

Lemma resolve_no_mapping (h : json) :
  Py.lookup_key "public_ipaddr" d = Some h ->
  Py.lookup_key "ssh_host" d = None \/ Py.lookup_key "ssh_port" d = None ->
  match Py.lookup_key "ports" d with
  | None => True
  | Some (JDict pm) => Py.lookup_key "22/tcp" pm = None
  | Some (JList l) => existsb (Py.eq (JStr "22/tcp")) l = false
  | Some (JStr s) => Py.str_contains "22/tcp" s = false
  | Some _ => False
  end ->
  resolve_connection (JDict d) =
    match Py.lookup_key "direct_port_start" d with
    | Some p => Val (h, p, false)
    | None => Val (h, JInt 22, true)
    end.
Proof.
  intros Ha Hno Hports. rewrite (resolve_skip_ssh h Ha Hno).
  rewrite (contains_dict "ports"), (contains_dict "direct_port_start").
  destruct (Py.lookup_key "ports" d) as [ps |] eqn:H.
  - rewrite (getitem_dict _ _ H).
    destruct ps; try contradiction; cbn [res_bind bool_decide Py.contains];
      rewrite Hports;
      destruct (Py.lookup_key "direct_port_start" d) eqn:E; simpl; now rewrite ?E.
  - simpl. destruct (Py.lookup_key "direct_port_start" d) eqn:E; simpl; now rewrite ?E.
Qed.

End Resolve.

(** C6, as amended.  Connection resolution is a pure function of the
    instance metadata, and a partial one.  On a record it raises [KeyError]
    when there is no ["public_ipaddr"].  When the public address is there,
    it tries in a fixed order: the pair ["ssh_host"] and ["ssh_port"] when
    both are present; else the entry ["22/tcp"] of the mapping ["ports"],
    taking the ["HostPort"] of the first binding of a non-empty list, which
    raises when that binding is no record or has no ["HostPort"], or else
    the bare value; else ["direct_port_start"]; else port 22 together with
    the public address.  A field ["ports"] that is consulted and is [null],
    a boolean or a number raises [TypeError], and so does one that is a list
    or a string containing ["22/tcp"]; a list or a string without it counts
    as absent.  The port of the first three cases is whatever the field
    holds.  Metadata that is no record raises [TypeError]. *)
Theorem resolve_connection_priority :
  (forall v, (forall d, v <> JDict d) -> resolve_connection v = Exc TypeError) /\
  (forall d,
     (Py.lookup_key "public_ipaddr" d = None ->
      resolve_connection (JDict d) = Exc (KeyError "public_ipaddr")) /\
     (forall h, Py.lookup_key "public_ipaddr" d = Some h ->
        (forall h' p,
           Py.lookup_key "ssh_host" d = Some h' ->
           Py.lookup_key "ssh_port" d = Some p ->
           resolve_connection (JDict d) = Val (h', p, false)) /\
        (Py.lookup_key "ssh_host" d = None \/ Py.lookup_key "ssh_port" d = None ->
           (forall pm v,
              Py.lookup_key "ports" d = Some (JDict pm) ->
              Py.lookup_key "22/tcp" pm = Some v ->
              resolve_connection (JDict d) =
                match v with
                | JList (JDict binding :: _) =>
                    match Py.lookup_key "HostPort" binding with
                    | Some port => Val (h, port, false)
                    | None => Exc (KeyError "HostPort")
                    end
                | JList (_ :: _) => Exc TypeError
                | _ => Val (h, v, false)
                end) /\
           (forall ps,
              Py.lookup_key "ports" d = Some ps ->
              match ps with
              | JDict _ => False
              | JList l => existsb (Py.eq (JStr "22/tcp")) l = true
              | JStr s => Py.str_contains "22/tcp" s = true
              | _ => True
              end ->
              resolve_connection (JDict d) = Exc TypeError) /\
           (match Py.lookup_key "ports" d with
            | None => True
            | Some (JDict pm) => Py.lookup_key "22/tcp" pm = None
            | Some (JList l) => existsb (Py.eq (JStr "22/tcp")) l = false
            | Some (JStr s) => Py.str_contains "22/tcp" s = false
            | Some _ => False
            end ->
              (forall p, Py.lookup_key "direct_port_start" d = Some p ->
                         resolve_connection (JDict d) = Val (h, p, false)) /\
              (Py.lookup_key "direct_port_start" d = None ->
               resolve_connection (JDict d) = Val (h, JInt 22, true)))))).
Proof.
  split.
  { intros v Hv. destruct v; try reflexivity. exfalso. now apply (Hv d). }
  intros d. split; [apply resolve_no_address |].
  intros h Ha. split; [intros h' p; now apply (resolve_ssh_fields d h) |].
  intros Hno. split; [| split].
  - intros pm v Hports H22. rewrite (resolve_port_mapping d h pm v Ha Hno Hports H22).
    destruct v as [| | | | | l |]; try reflexivity.
    destruct l as [| first l]; [reflexivity |].
    destruct first as [| | | | | | b]; try reflexivity.
    simpl. now destruct (Py.lookup_key "HostPort" b).
  - intros ps. now apply (resolve_bad_ports d h).
  - intros Hpm. pose proof (resolve_no_mapping d h Ha Hno Hpm) as E.
    split; [intros p Hp | intros Hp]; now rewrite E, Hp.
Qed.

(** The default of port 22, obtained from the theorem on metadata that has
    a public address and nothing else. *)
Lemma resolve_connection_priority_witness :
  resolve_connection (JDict plain_metadata) = Val (JStr "1.2.3.4", JInt 22, true).
Proof.
  destruct resolve_connection_priority as [_ H].
  destruct (H plain_metadata) as [_ H0].
  destruct (H0 (JStr "1.2.3.4") eq_refl) as [_ H1].
  destruct (H1 (or_introl eq_refl)) as (_ & _ & H2).
  destruct (H2 I) as [_ H3].
  exact (H3 eq_refl).
Defined.

(** C6 as stated fails: on metadata that lacks every connectivity field and
    the public address too, resolution raises instead of returning port
    22; with a public address and a field ["ports"] that is [null] it raises
    as well; and an SSH port that is [null] is returned as the port. *)
Lemma resolve_connection_not_total :
  resolve_connection (JDict bare_metadata) = Exc (KeyError "public_ipaddr") /\
  ~ (exists host port flag, resolve_connection (JDict bare_metadata) = Val (host, port, flag)) /\
  resolve_connection (JDict null_ports_metadata) = Exc TypeError /\
  resolve_connection (JDict null_port_metadata) = Val (JStr "ssh4.vast.ai", JNull, false).
Proof.
  split; [reflexivity |]. split; [| split; reflexivity].
  intros (host & port & flag & H). discriminate H.
Qed.

(** ** The monad *)

Lemma bind_assoc {A B C} (m : M A) (f : A -> M B) (g : B -> M C) (w : World) :
  bind (bind m f) g w = bind m (fun x => bind (f x) g) w.
Proof. unfold bind. destruct (m w) as [[a | e |] w1]; reflexivity. Qed.

Lemma bind_ret {A B} (a : A) (k : A -> M B) (w : World) : bind (ret a) k w = k a w.
Proof. reflexivity. Qed.

Lemma bind_emit {B} (e : event) (k : unit -> M B) (w : World) :
  bind (emit e) k w = k tt (log [e] w).
Proof. reflexivity. Qed.

Lemma bind_print {B} (m : message) (k : unit -> M B) (w : World) :
  bind (print m) k w = k tt (log [Print m] w).
Proof. reflexivity. Qed.

Lemma bind_Ok {A B} (m : M A) (k : A -> M B) (w w1 : World) (a : A) :
  m w = (Ok a, w1) -> bind m k w = k a w1.
Proof. intros H. unfold bind. now rewrite H. Qed.

Lemma bind_Raise {A B} (m : M A) (k : A -> M B) (w w1 : World) (e : exn) :
  m w = (Raise e, w1) -> bind m k w = (Raise e, w1).
Proof. intros H. unfold bind. now rewrite H. Qed.

Lemma bind_Diverge {A B} (m : M A) (k : A -> M B) (w w1 : World) :
  m w = (Diverge, w1) -> bind m k w = (Diverge, w1).
Proof. intros H. unfold bind. now rewrite H. Qed.

Lemma calls_app (t u : list event) : calls (t ++ u) = calls t ++ calls u.
Proof. apply omap_app. Qed.

(** ** The command line wrapper *)

Section Wrapper.

Variable env : Env.

Lemma run_vastai_cmd_spec (cmd : list arg) (w : World) :
  run_vastai_cmd env cmd w = (cli_outcome (vastai env (cli_calls w) cmd), issue cmd w).
Proof.
  unfold run_vastai_cmd, bind, next_cli_call, emit. simpl.
  destruct (vastai env (cli_calls w) cmd); reflexivity.
Qed.

Lemma bind_run_vastai_cmd {B} (cmd : list arg) (k : json -> M B) (w : World) (j : json) :
  vastai env (cli_calls w) cmd = CliJson j ->
  bind (run_vastai_cmd env cmd) k w = k j (issue cmd w).
Proof. intros H. apply bind_Ok. now rewrite run_vastai_cmd_spec, H. Qed.

End Wrapper.

(** ** Offer selection *)

Section Selection.

Variable env : Env.

Lemma select_best_offer (o : json) (rest : list json) (w : World) :
  is_offer o = true ->
  exists m, select_best (JList (o :: rest)) w = (Ok o, log [Print m] w).
Proof.
  intros Ho. destruct o as [| | | | | |d]; try discriminate Ho.
  unfold is_offer in Ho. apply andb_prop in Ho as [Ho H5].
  apply andb_prop in Ho as [Ho H4]. apply andb_prop in Ho as [Ho H3].
  apply andb_prop in Ho as [H1 H2].
  destruct (Py.lookup_key "gpu_ram" d) as [v1|] eqn:E1; [|discriminate H1].
  destruct (Py.lookup_key "gpu_total_ram" d) as [v2|] eqn:E2; [|discriminate H2].
  destruct (Py.lookup_key "num_gpus" d) as [v3|] eqn:E3; [|discriminate H3].
  destruct (Py.lookup_key "gpu_name" d) as [v4|] eqn:E4; [|discriminate H4].
  destruct (Py.lookup_key "dph_total" d) as [v5|] eqn:E5; [|discriminate H5].
  assert (D1 : exists q, Py.div_const v1 1024 = Val q).
  { destruct v1 as [| | z | | | |]; try discriminate H1; cbn [Py.div_const]; eauto.
    assert (H : Py.fits_float (inject_Z z / inject_Z 1024) = true) by exact H1.
    rewrite H. eauto. }
  assert (D2 : exists q, Py.div_const v2 1024 = Val q).
  { destruct v2 as [| | z | | | |]; try discriminate H2; cbn [Py.div_const]; eauto.
    assert (H : Py.fits_float (inject_Z z / inject_Z 1024) = true) by exact H2.
    rewrite H. eauto. }
  assert (D5 : exists q, Py.format_float v5 = Val q).
  { destruct v5; try discriminate H5; cbn [Py.format_float Py.to_float]; rewrite ?H5; eauto. }
  destruct D1 as [q1 D1], D2 as [q2 D2], D5 as [q5 D5].
  unfold select_best, bind, lift, ret, print, emit.
  cbn [Py.truthy negb Py.getitem0 Py.getitem]. rewrite E1, E2, E3, E4, E5.
  cbn [res_bind]. rewrite D1, D2, D5. eexists. reflexivity.
Qed.

Lemma select_best_empty (w : World) :
  select_best (JList []) w = (Raise (RuntimeError "No GPU instances found"), w).
Proof. reflexivity. Qed.

(** The searches the fallback issues when the first [k] tiers are empty. *)
Lemma find_best_gpu_falls_through (w : World) (k : nat) (j : json) :
  k < 4 ->
  (forall i, i < k -> vastai env (cli_calls w + i) (tiers !!! i) = CliJson (JList [])) ->
  vastai env (cli_calls w + k) (tiers !!! k) = CliJson j ->
  (k < 3 -> Py.truthy j = true) ->
  exists w1, find_best_gpu env w = select_best j w1 /\
             calls (trace w1) = calls (trace w) ++ take (S k) tiers.
Proof.
  intros Hk Hempty Hj Htruthy. unfold find_best_gpu.
  rewrite bind_print; cbv beta.
  assert (H0 : 0 < k -> vastai env (cli_calls w) tier1 = CliJson (JList [])).
  { intros H. specialize (Hempty 0 H). now rewrite Nat.add_0_r in Hempty. }
  assert (H1 : 1 < k -> vastai env (S (cli_calls w)) tier2 = CliJson (JList [])).
  { intros H. specialize (Hempty 1 H). now rewrite Nat.add_1_r in Hempty. }
  assert (H2 : 2 < k -> vastai env (S (S (cli_calls w))) tier3 = CliJson (JList [])).
  { intros H. specialize (Hempty 2 H).
    now replace (cli_calls w + 2) with (S (S (cli_calls w))) in Hempty by lia. }
  clear Hempty.
  destruct k as [|[|[|[|k]]]]; try lia.
  - rewrite Nat.add_0_r in Hj. simpl in Hj.
    erewrite bind_run_vastai_cmd by exact Hj.
    repeat (rewrite (Htruthy ltac:(lia)); simpl negb; cbv beta iota; rewrite bind_ret).
    eexists. split; [reflexivity |].
    simpl. rewrite !calls_app. simpl. now rewrite app_nil_r.
  - erewrite bind_run_vastai_cmd by (apply H0; lia). simpl negb; cbv beta iota.
    rewrite bind_assoc, bind_print; cbv beta.
    rewrite Nat.add_1_r in Hj. simpl in Hj.
    erewrite bind_run_vastai_cmd by exact Hj.
    repeat (rewrite (Htruthy ltac:(lia)); simpl negb; cbv beta iota; rewrite bind_ret).
    eexists. split; [reflexivity |].
    simpl. rewrite !calls_app. simpl. rewrite ?app_nil_r, <- ?app_assoc. reflexivity.
  - erewrite bind_run_vastai_cmd by (apply H0; lia). simpl negb; cbv beta iota.
    rewrite bind_assoc, bind_print; cbv beta.
    erewrite bind_run_vastai_cmd by (apply H1; lia). simpl negb; cbv beta iota.
    rewrite bind_assoc, bind_print; cbv beta.
    replace (cli_calls w + 2) with (S (S (cli_calls w))) in Hj by lia. simpl in Hj.
    erewrite bind_run_vastai_cmd by exact Hj.
    repeat (rewrite (Htruthy ltac:(lia)); simpl negb; cbv beta iota; rewrite bind_ret).
    eexists. split; [reflexivity |].
    simpl. rewrite !calls_app. simpl. rewrite ?app_nil_r, <- ?app_assoc. reflexivity.
  - erewrite bind_run_vastai_cmd by (apply H0; lia). simpl negb; cbv beta iota.
    rewrite bind_assoc, bind_print; cbv beta.
    erewrite bind_run_vastai_cmd by (apply H1; lia). simpl negb; cbv beta iota.
    rewrite bind_assoc, bind_print; cbv beta.
    erewrite bind_run_vastai_cmd by (apply H2; lia). simpl negb; cbv beta iota.
    rewrite bind_assoc, bind_print; cbv beta.
    replace (cli_calls w + 3) with (S (S (S (cli_calls w)))) in Hj by lia. simpl in Hj.
    erewrite bind_run_vastai_cmd by exact Hj.
    eexists. split; [reflexivity |].
    simpl. rewrite !calls_app. simpl. rewrite ?app_nil_r, <- ?app_assoc. reflexivity.
Qed.

End Selection.

(** ** Frame reasoning

    [respects R m] says that whatever [m] does to the world stays within
    the relation [R].  For a reflexive and transitive [R] this is preserved
    by sequencing, [try]/[finally] and loops, so that it is enough to look
    at the primitive operations. *)

#[local] Instance only_preorder (P : event -> Prop) : PreOrder (only P).
Proof.
  split.
  - intros w. exists []. split; [now rewrite app_nil_r | constructor].
  - intros w1 w2 w3 (e1 & H1 & F1) (e2 & H2 & F2). exists (e1 ++ e2). split.
    + now rewrite H2, H1, app_assoc.
    + now apply Forall_app.
Qed.

#[local] Instance same_contract_preorder : PreOrder same_contract.
Proof. split; [now intros w | intros w1 w2 w3 H1 H2; unfold same_contract in *; congruence]. Qed.

#[local] Instance same_fs_preorder : PreOrder same_fs.
Proof. split; [now intros w | intros w1 w2 w3 H1 H2; unfold same_fs in *; congruence]. Qed.

#[local] Instance same_clock_preorder : PreOrder same_clock.
Proof. split; [now intros w | intros w1 w2 w3 H1 H2; unfold same_clock in *; congruence]. Qed.

#[local] Instance same_cli_preorder : PreOrder same_cli.
Proof. split; [now intros w | intros w1 w2 w3 H1 H2; unfold same_cli in *; congruence]. Qed.

#[local] Instance keeps_file_preorder (path : string) : PreOrder (keeps_file path).
Proof. split; [now intros w | intros w1 w2 w3 H1 H2 H; auto]. Qed.

Section Respects.

Context (R : World -> World -> Prop) `{!PreOrder R}.

Lemma respects_ret {A} (a : A) : respects R (ret a).
Proof. intros w. reflexivity. Qed.

Lemma respects_raise {A} (e : exn) : respects R (@raise A e).
Proof. intros w. reflexivity. Qed.

Lemma respects_diverge {A} : respects R (@diverge A).
Proof. intros w. reflexivity. Qed.

Lemma respects_lift {A} (r : res A) : respects R (lift r).
Proof. destruct r; [apply respects_ret | apply respects_raise]. Qed.

Lemma respects_may_raise (o : option exn) : respects R (may_raise o).
Proof. destruct o; [apply respects_raise | apply respects_ret]. Qed.

Lemma respects_get_fs : respects R get_fs.
Proof. intros w. reflexivity. Qed.

Lemma respects_get_contract_id : respects R get_contract_id.
Proof. intros w. reflexivity. Qed.

Lemma respects_bind {A B} (m : M A) (k : A -> M B) :
  respects R m -> (forall a, respects R (k a)) -> respects R (bind m k).
Proof.
  intros Hm Hk w. unfold bind. specialize (Hm w).
  destruct (m w) as [[a | e |] w1]; simpl in *; try assumption.
  transitivity w1; [assumption | apply Hk].
Qed.

Lemma respects_try_finally {A} (body : M A) (cleanup : M unit) :
  respects R body -> respects R cleanup -> respects R (try_finally body cleanup).
Proof.
  intros Hb Hc w. unfold try_finally. specialize (Hb w).
  destruct (body w) as [[a | e |] w1]; simpl in *; try assumption;
    specialize (Hc w1); destruct (cleanup w1) as [[[] | e' |] w2]; simpl in *;
    now transitivity w1.
Qed.

Lemma respects_for_each {A} (xs : list A) (body : A -> M unit) :
  (forall x, respects R (body x)) -> respects R (for_each xs body).
Proof.
  intros Hb. induction xs as [| x xs IH]; simpl.
  - apply respects_ret.
  - apply respects_bind; [apply Hb | intros _; exact IH].
Qed.

End Respects.

Lemma respects_weaken {A} (R S : World -> World -> Prop) (m : M A) :
  (forall w w', R w w' -> S w w') -> respects R m -> respects S m.
Proof. intros H Hm w. apply H, Hm. Qed.

Lemma only_weaken (P Q : event -> Prop) (w w' : World) :
  (forall e, P e -> Q e) -> only P w w' -> only Q w w'.
Proof.
  intros H (evs & E & F). exists evs. split; [exact E |].
  eapply Forall_impl; eauto.
Qed.

(** The primitive operations. *)

Lemma only_emit (P : event -> Prop) (e : event) : P e -> respects (only P) (emit e).
Proof. intros H w. exists [e]. split; [reflexivity | now constructor]. Qed.

Lemma only_silent (P : event -> Prop) {A} (m : M A) :
  (forall w, trace (m w).2 = trace w) -> respects (only P) m.
Proof. intros H w. exists []. split; [now rewrite H, app_nil_r | constructor]. Qed.

Create HintDb respects discriminated.

#[local] Hint Resolve respects_ret respects_raise respects_diverge respects_lift
  respects_may_raise respects_get_fs respects_get_contract_id : respects.
#[local] Hint Extern 1 (respects (only _) (emit _)) =>
  (apply only_emit; first [reflexivity | discriminate | exact I | cbn; congruence]) : respects.
#[local] Hint Extern 1 (respects (only _) (put_fs _)) => (apply only_silent; reflexivity) : respects.
#[local] Hint Extern 1 (respects (only _) next_cli_call) => (apply only_silent; reflexivity) : respects.
#[local] Hint Extern 1 (respects (only _) next_clock_read) => (apply only_silent; reflexivity) : respects.
#[local] Hint Extern 1 (respects (only _) (set_contract_id _)) =>
  (apply only_silent; reflexivity) : respects.
#[local] Hint Extern 1 (respects same_contract (emit _)) => (intros ?; reflexivity) : respects.
#[local] Hint Extern 1 (respects same_contract (put_fs _)) => (intros ?; reflexivity) : respects.
#[local] Hint Extern 1 (respects same_contract next_cli_call) => (intros ?; reflexivity) : respects.
#[local] Hint Extern 1 (respects same_contract next_clock_read) => (intros ?; reflexivity) : respects.
#[local] Hint Extern 1 (respects same_fs (emit _)) => (intros ?; reflexivity) : respects.
#[local] Hint Extern 1 (respects same_fs next_cli_call) => (intros ?; reflexivity) : respects.
#[local] Hint Extern 1 (respects same_fs next_clock_read) => (intros ?; reflexivity) : respects.
#[local] Hint Extern 1 (respects same_fs (set_contract_id _)) => (intros ?; reflexivity) : respects.
#[local] Hint Extern 1 (respects same_clock (emit _)) => (intros ?; reflexivity) : respects.
#[local] Hint Extern 1 (respects same_clock (put_fs _)) => (intros ?; reflexivity) : respects.
#[local] Hint Extern 1 (respects same_clock next_cli_call) => (intros ?; reflexivity) : respects.
#[local] Hint Extern 1 (respects same_clock (set_contract_id _)) => (intros ?; reflexivity) : respects.
#[local] Hint Extern 1 (respects same_cli (emit _)) => (intros ?; reflexivity) : respects.
#[local] Hint Extern 1 (respects same_cli (put_fs _)) => (intros ?; reflexivity) : respects.
#[local] Hint Extern 1 (respects same_cli next_clock_read) => (intros ?; reflexivity) : respects.
#[local] Hint Extern 1 (respects same_cli (set_contract_id _)) => (intros ?; reflexivity) : respects.
#[local] Hint Extern 1 (respects (keeps_file _) (emit _)) => (intros ? ?; assumption) : respects.
#[local] Hint Extern 1 (respects (keeps_file _) next_cli_call) => (intros ? ?; assumption) : respects.
#[local] Hint Extern 1 (respects (keeps_file _) next_clock_read) => (intros ? ?; assumption) : respects.
#[local] Hint Extern 1 (respects (keeps_file _) (set_contract_id _)) =>
  (intros ? ?; assumption) : respects.

(** Decompose a computation down to its primitive operations. *)
Ltac respects_step :=
  lazymatch goal with
  | |- respects _ (bind _ _) => apply respects_bind; [typeclasses eauto | | intros ?]
  | |- respects _ (try_finally _ _) => apply respects_try_finally; [typeclasses eauto | |]
  | |- respects _ (for_each _ _) => apply respects_for_each; [typeclasses eauto | intros ?]
  | |- respects _ (print _) => unfold print
  | |- respects _ (match ?x with _ => _ end) => destruct x
  | |- respects _ (let _ := _ in _) => cbv zeta
  | |- _ => solve [eauto with respects typeclass_instances]
  end.

Ltac respects_auto := repeat respects_step.

(** The local file operations. *)

Lemma unlink_only path : respects (only (in_phase Unlinking)) (unlink path).
Proof. unfold unlink. respects_auto. Qed.

Lemma unlink_same_contract path : respects same_contract (unlink path).
Proof. unfold unlink. respects_auto. Qed.

Lemma unlink_same_clock path : respects same_clock (unlink path).
Proof. unfold unlink. respects_auto. Qed.

Lemma mkdir_keeps_file path dir : respects (keeps_file path) (mkdir_exist_ok dir).
Proof.
  unfold mkdir_exist_ok. apply respects_bind; [typeclasses eauto | respects_auto | intros _].
  intros w. unfold keeps_file, bind, get_fs, put_fs. simpl.
  destruct (fs w !! dir) as [[] |] eqn:E; simpl; try (intros H; exact H).
  intros H. destruct (decide (dir = path)) as [-> | Hne].
  - rewrite E in H. destruct H.
  - now rewrite lookup_insert_ne.
Qed.

(** The report of the selected offer. *)

Lemma select_best_only j : respects (only (in_phase Selecting)) (select_best j).
Proof. unfold select_best. respects_auto. Qed.

Section Frames.

Variable env : Env.

(** The clock and the command line wrapper. *)

Lemma time_time_silent P : respects (only P) (time_time env).
Proof. unfold time_time. respects_auto. Qed.

Lemma time_time_same_contract : respects same_contract (time_time env).
Proof. unfold time_time. respects_auto. Qed.

Lemma time_time_keeps_file p : respects (keeps_file p) (time_time env).
Proof. unfold time_time. respects_auto. Qed.

Lemma time_time_same_cli : respects same_cli (time_time env).
Proof. unfold time_time. respects_auto. Qed.

Lemma run_vastai_cmd_only (P : event -> Prop) cmd :
  P (Vastai cmd) -> respects (only P) (run_vastai_cmd env cmd).
Proof.
  intros H. unfold run_vastai_cmd.
  apply respects_bind; [typeclasses eauto | respects_auto | intros n].
  apply respects_bind; [typeclasses eauto | now apply only_emit | intros _].
  respects_auto.
Qed.

Lemma run_vastai_cmd_same_contract cmd : respects same_contract (run_vastai_cmd env cmd).
Proof. unfold run_vastai_cmd. respects_auto. Qed.

Lemma run_vastai_cmd_same_fs cmd : respects same_fs (run_vastai_cmd env cmd).
Proof. unfold run_vastai_cmd. respects_auto. Qed.

Lemma run_vastai_cmd_same_clock cmd : respects same_clock (run_vastai_cmd env cmd).
Proof. unfold run_vastai_cmd. respects_auto. Qed.

Lemma run_vastai_cmd_keeps_file p cmd : respects (keeps_file p) (run_vastai_cmd env cmd).
Proof. unfold run_vastai_cmd. respects_auto. Qed.

#[local] Hint Resolve time_time_silent time_time_same_contract time_time_keeps_file
  time_time_same_cli run_vastai_cmd_same_contract run_vastai_cmd_same_fs
  run_vastai_cmd_same_clock run_vastai_cmd_keeps_file : respects.
#[local] Hint Extern 1 (respects (only _) (run_vastai_cmd _ _)) =>
  (apply run_vastai_cmd_only; reflexivity) : respects.

(** Offer selection. *)

Lemma find_best_gpu_only : respects (only (in_phase Selecting)) (find_best_gpu env).
Proof. unfold find_best_gpu, select_best. respects_auto. Qed.

Lemma find_best_gpu_same_contract : respects same_contract (find_best_gpu env).
Proof. unfold find_best_gpu, select_best. respects_auto. Qed.

Lemma find_best_gpu_same_fs : respects same_fs (find_best_gpu env).
Proof. unfold find_best_gpu, select_best. respects_auto. Qed.

(** Creation. *)

Lemma create_instance_only i : respects (only (in_phase Creating)) (create_instance env i).
Proof. unfold create_instance. respects_auto. Qed.

Lemma create_instance_same_contract i : respects same_contract (create_instance env i).
Proof. unfold create_instance. respects_auto. Qed.

Lemma create_instance_same_fs i : respects same_fs (create_instance env i).
Proof. unfold create_instance. respects_auto. Qed.

(** Waiting. *)

Lemma wait_for_instance_only fuel c :
  respects (only (in_phase Waiting)) (wait_for_instance env fuel c).
Proof.
  unfold wait_for_instance. respects_step; [respects_auto |].
  induction fuel as [| fuel IH]; simpl; respects_auto.
Qed.

Lemma wait_for_instance_same_contract fuel c :
  respects same_contract (wait_for_instance env fuel c).
Proof.
  unfold wait_for_instance. respects_step; [respects_auto |].
  induction fuel as [| fuel IH]; simpl; respects_auto.
Qed.

Lemma wait_for_instance_same_fs fuel c : respects same_fs (wait_for_instance env fuel c).
Proof.
  unfold wait_for_instance. respects_step; [respects_auto |].
  induction fuel as [| fuel IH]; simpl; respects_auto.
Qed.

(** Destruction. *)

Lemma destroy_instance_only c : respects (only (in_phase Destroying)) (destroy_instance env c).
Proof. unfold destroy_instance. respects_auto. Qed.

Lemma destroy_instance_same_fs c : respects same_fs (destroy_instance env c).
Proof. unfold destroy_instance. respects_auto. Qed.

Lemma destroy_instance_same_clock c : respects same_clock (destroy_instance env c).
Proof. unfold destroy_instance. respects_auto. Qed.

Lemma run_cleanup_only : respects (only (in_phase Destroying)) (run_cleanup env).
Proof. unfold run_cleanup, destroy_instance. respects_auto. Qed.

Lemma run_cleanup_same_fs : respects same_fs (run_cleanup env).
Proof. unfold run_cleanup, destroy_instance. respects_auto. Qed.

Lemma run_cleanup_same_clock : respects same_clock (run_cleanup env).
Proof. unfold run_cleanup, destroy_instance. respects_auto. Qed.

(** Packaging. *)

Lemma package_project_only path :
  respects (only (in_phase Packaging)) (package_project env path).
Proof.
  unfold package_project, named_temporary_file, tarfile_open, tarfile_add, stat_size.
  respects_auto.
Qed.

Lemma package_project_same_contract path :
  respects same_contract (package_project env path).
Proof.
  unfold package_project, named_temporary_file, tarfile_open, tarfile_add, stat_size.
  respects_auto.
Qed.

(** Deployment. *)

Lemma find_model_files_only dir ps acc :
  respects (only (in_phase Deploying)) (find_model_files env dir ps acc).
Proof.
  revert acc. induction ps as [| p ps IH]; intros acc; simpl.
  - respects_auto.
  - unfold exec_command. respects_auto.
Qed.

Lemma find_model_files_same_contract dir ps acc :
  respects same_contract (find_model_files env dir ps acc).
Proof.
  revert acc. induction ps as [| p ps IH]; intros acc; simpl.
  - respects_auto.
  - unfold exec_command. respects_auto.
Qed.

Lemma find_model_files_keeps_file path dir ps acc :
  respects (keeps_file path) (find_model_files env dir ps acc).
Proof.
  revert acc. induction ps as [| p ps IH]; intros acc; simpl.
  - respects_auto.
  - unfold exec_command. respects_auto.
Qed.

#[local] Hint Resolve find_model_files_only find_model_files_same_contract
  find_model_files_keeps_file : respects.

Lemma scp_get_file_keeps_file path remote_file local :
  respects (keeps_file path) (scp_get_file env remote_file local).
Proof.
  unfold scp_get_file. apply respects_bind; [typeclasses eauto | respects_auto | intros _].
  apply respects_bind; [typeclasses eauto | respects_auto | intros data].
  intros w. unfold keeps_file, bind, get_fs, put_fs. simpl. intros H.
  match goal with |- context [<[?t := _]> _] => destruct (decide (t = path)) as [-> | Hne] end.
  - now rewrite lookup_insert_eq.
  - now rewrite lookup_insert_ne.
Qed.

#[local] Hint Resolve mkdir_keeps_file scp_get_file_keeps_file : respects.

Lemma download_artifacts_only dir :
  respects (only (in_phase Deploying)) (download_artifacts env dir).
Proof.
  unfold download_artifacts, download_all, mkdir_exist_ok, scp_get_file. respects_auto.
Qed.

Lemma download_artifacts_same_contract dir :
  respects same_contract (download_artifacts env dir).
Proof.
  unfold download_artifacts, download_all, mkdir_exist_ok, scp_get_file. respects_auto.
Qed.

Lemma download_artifacts_keeps_file path dir :
  respects (keeps_file path) (download_artifacts env dir).
Proof. unfold download_artifacts, download_all. respects_auto. Qed.

Lemma train_only pkg name : respects (only (in_phase Deploying)) (train env pkg name).
Proof. unfold train, scp_put_file, exec_command, stream_command. respects_auto. Qed.

Lemma train_same_contract pkg name : respects same_contract (train env pkg name).
Proof. unfold train, scp_put_file, exec_command, stream_command. respects_auto. Qed.

Lemma train_keeps_file path pkg name : respects (keeps_file path) (train env pkg name).
Proof. unfold train, scp_put_file, exec_command, stream_command. respects_auto. Qed.

#[local] Hint Resolve download_artifacts_only download_artifacts_same_contract
  download_artifacts_keeps_file train_only train_same_contract train_keeps_file : respects.

Lemma run_on_instance_only info pkg name :
  respects (only (in_phase Deploying)) (run_on_instance env info pkg name).
Proof. unfold run_on_instance. respects_auto. Qed.

Lemma run_on_instance_same_contract info pkg name :
  respects same_contract (run_on_instance env info pkg name).
Proof. unfold run_on_instance. respects_auto. Qed.

Lemma run_on_instance_keeps_file path info pkg name :
  respects (keeps_file path) (run_on_instance env info pkg name).
Proof. unfold run_on_instance. respects_auto. Qed.

End Frames.

Lemma run_unfold (env : Env) (fuel : nat) (project_path : string) (w : World) :
  run env fuel project_path w =
  try_finally (run_body env fuel (clock env (clock_reads w)) project_path) (run_cleanup env)
              (started w).
Proof. reflexivity. Qed.

(** C4.  Offer selection is a strict four-tier fallback.  The tiers are the
    four command lines below, word for word (at least 4 GPUs under 10
    dollars an hour; at least 4 GPUs; at least 2 GPUs; any number of GPUs,
    ordered by total GPU memory alone; ten offers at most each time).  When
    the tiers before tier [k] answer with an empty list and tier [k] answers
    with at least one offer, the first offer of tier [k] is selected and
    exactly the tiers up to [k] were queried.  When all four answer with an
    empty list, selection fails with "No GPU instances found", and a run
    then issues the four searches and no other command: no instance is
    created. *)
Theorem tiered_selection (env : Env) :
  tiers =
    [[Lit "search"; Lit "offers";
      Lit "rentable=true reliability>0.95 num_gpus>=4 dph_total<10.0";
      Lit "--order"; Lit "num_gpus-,gpu_total_ram-"; Lit "--limit"; Lit "10"];
     [Lit "search"; Lit "offers";
      Lit "rentable=true reliability>0.95 num_gpus>=4";
      Lit "--order"; Lit "num_gpus-,gpu_total_ram-"; Lit "--limit"; Lit "10"];
     [Lit "search"; Lit "offers";
      Lit "rentable=true reliability>0.95 num_gpus>=2";
      Lit "--order"; Lit "num_gpus-,gpu_total_ram-"; Lit "--limit"; Lit "10"];
     [Lit "search"; Lit "offers";
      Lit "rentable=true reliability>0.95";
      Lit "--order"; Lit "gpu_total_ram-"; Lit "--limit"; Lit "10"]] /\
  (forall w k o rest,
     k < 4 ->
     (forall i, i < k -> vastai env (cli_calls w + i) (tiers !!! i) = CliJson (JList [])) ->
     vastai env (cli_calls w + k) (tiers !!! k) = CliJson (JList (o :: rest)) ->
     is_offer o = true ->
     exists w', find_best_gpu env w = (Ok o, w') /\
                calls (trace w') = calls (trace w) ++ take (S k) tiers) /\
  (forall w,
     (forall i, i < 4 -> vastai env (cli_calls w + i) (tiers !!! i) = CliJson (JList [])) ->
     exists w', find_best_gpu env w = (Raise (RuntimeError "No GPU instances found"), w') /\
                calls (trace w') = calls (trace w) ++ tiers) /\
  (forall fuel project_path f,
     (forall i, i < 4 -> vastai env i (tiers !!! i) = CliJson (JList [])) ->
     exists w', run env fuel project_path (start f)
                = (Raise (RuntimeError "No GPU instances found"), w') /\
                calls (trace w') = tiers).
Proof.
  assert (Hnone : forall w,
     (forall i, i < 4 -> vastai env (cli_calls w + i) (tiers !!! i) = CliJson (JList [])) ->
     exists w', find_best_gpu env w = (Raise (RuntimeError "No GPU instances found"), w') /\
                calls (trace w') = calls (trace w) ++ tiers).
  { intros w Hempty.
    destruct (find_best_gpu_falls_through env w 3 (JList [])) as (w1 & E & Hc);
      [lia | intros i Hi; apply Hempty; lia | apply Hempty; lia | intros; lia |].
    exists w1. now rewrite E, select_best_empty. }
  split; [reflexivity |]. split; [| split; [exact Hnone |]].
  - intros w k o rest Hk Hempty Hj Ho.
    destruct (find_best_gpu_falls_through env w k (JList (o :: rest))) as (w1 & E & Hc);
      [assumption .. | reflexivity |].
    destruct (select_best_offer o rest w1 Ho) as (m & Es).
    eexists. split; [now rewrite E, Es |].
    simpl. rewrite calls_app. simpl. now rewrite app_nil_r.
  - intros fuel project_path f Hempty.
    rewrite run_unfold. unfold try_finally.
    destruct (Hnone (started (start f)) Hempty) as (w' & E & Hc).
    unfold run_body. rewrite (bind_Raise _ _ _ _ _ E).
    pose proof (find_best_gpu_same_contract env (started (start f))) as Hid.
    rewrite E in Hid. unfold same_contract in Hid. simpl in Hid.
    unfold run_cleanup, bind, get_contract_id. rewrite Hid. simpl.
    eexists. split; [reflexivity | exact Hc].
Qed.

(** Scenario A, the single-GPU fallback and scenario B, from the theorem. *)
Lemma tiered_selection_witness :
  (exists w', find_best_gpu scenario_a (start ∅) = (Ok offer8, w') /\
              calls (trace w') = [tier1]) /\
  (exists w', find_best_gpu scenario_single_gpu (start ∅) = (Ok offer1, w') /\
              calls (trace w') = [tier1; tier2; tier3; tier4]) /\
  (exists w', run scenario_b 10 "/home/user/proj" (start ∅)
              = (Raise (RuntimeError "No GPU instances found"), w') /\
              calls (trace w') = [tier1; tier2; tier3; tier4]).
Proof.
  split; [| split].
  - destruct (tiered_selection scenario_a) as (_ & H & _).
    apply (H (start ∅) 0 offer8 []); [lia | intros i Hi; lia | reflexivity | reflexivity].
  - destruct (tiered_selection scenario_single_gpu) as (_ & H & _).
    apply (H (start ∅) 3 offer1 []); [lia | | reflexivity | reflexivity].
    intros [|[|[|i]]] Hi; try reflexivity. lia.
  - destruct (tiered_selection scenario_b) as (_ & _ & _ & H).
    apply H. intros [|[|[|[|i]]]] Hi; try reflexivity. lia.
Defined.

(** ** Stepping through a computation *)

Lemma bind_get_fs {B} (k : gmap string entry -> M B) (w : World) :
  bind get_fs k w = k (fs w) w.
Proof. reflexivity. Qed.

Lemma bind_put_fs {B} (f : gmap string entry) (k : unit -> M B) (w : World) :
  bind (put_fs f) k w = k tt (with_fs f w).
Proof. reflexivity. Qed.

Lemma bind_may_raise_None {B} (k : unit -> M B) (w : World) :
  bind (may_raise None) k w = k tt w.
Proof. reflexivity. Qed.

Lemma bind_lift_Val {A B} (a : A) (k : A -> M B) (w : World) :
  bind (lift (Val a)) k w = k a w.
Proof. reflexivity. Qed.

Lemma bind_lift_Exc {A B} (e : exn) (k : A -> M B) (w : World) :
  bind (lift (Exc e)) k w = (Raise e, w).
Proof. reflexivity. Qed.

Lemma bind_raise {A B} (e : exn) (k : A -> M B) (w : World) :
  bind (raise e) k w = (Raise e, w).
Proof. reflexivity. Qed.

(** Run the deterministic steps at the head of a computation. *)
Ltac mstep :=
  repeat (first [ rewrite bind_assoc | rewrite bind_ret | rewrite bind_emit
                | rewrite bind_print | rewrite bind_get_fs | rewrite bind_put_fs
                | rewrite bind_may_raise_None | rewrite bind_lift_Val
                | rewrite bind_lift_Exc | rewrite bind_raise ];
          cbv beta;
          cbn [fs trace cli_calls clock_reads run_contract_id log issue with_fs tick started]).

(** ** Packaging *)

(** Induction on trees, with the hypothesis for every child. *)
Lemma node_induction (P : node -> Prop) :
  (forall name, P (File name)) ->
  (forall name children, Forall P children -> P (Dir name children)) ->
  forall n, P n.
Proof.
  intros HF HD. fix IH 1. intros [name | name children].
  - apply HF.
  - apply HD. induction children as [| c cs IHcs]; constructor; [apply IH | exact IHcs].
Qed.

Lemma concat_map_Permutation {A B} (g h : A -> list B) (l : list A) :
  Forall (fun x => g x ≡ₚ h x) l -> concat (map g l) ≡ₚ concat (map h l).
Proof.
  induction 1 as [| x l Hx _ IH]; simpl; [reflexivity |].
  now rewrite Hx, IH.
Qed.

(** [tarfile] visits the children in sorted order, which changes the order
    of the members and nothing else. *)
Lemma tar_members_Permutation (env : Env) (archive : string) (n : node) :
  forall name arcname,
    tar_members env archive name arcname n
    ≡ₚ kept_paths (is_archive env archive) name arcname n.
Proof.
  induction n as [x | x children IH] using node_induction; intros name arcname; simpl;
    destruct (is_archive env archive name); try reflexivity.
  constructor.
  rewrite (merge_sort_Permutation by_name). rewrite map_map. simpl.
  rewrite flat_map_concat_map.
  apply concat_map_Permutation.
  eapply Forall_impl; [exact IH |]. intros c Hc. apply Hc.
Qed.

(** Where nothing is skipped, the kept paths are all the paths of the tree. *)
Lemma kept_paths_all (skip : string -> bool) (n : node) :
  forall name arcname,
    (forall x, x ∈ tree_paths name n -> skip x = false) ->
    kept_paths skip name arcname n = tree_paths arcname n.
Proof.
  induction n as [x | x children IH] using node_induction; intros name arcname Hskip; simpl.
  - rewrite Hskip; [reflexivity | simpl; set_solver].
  - rewrite Hskip by (simpl; set_solver). f_equal.
    rewrite !flat_map_concat_map. f_equal. apply map_ext_in.
    intros c Hc. rewrite List.Forall_forall in IH. apply (IH c Hc).
    intros y Hy. apply Hskip. simpl. apply list_elem_of_In. right.
    apply in_flat_map. exists c. split; [exact Hc | now apply list_elem_of_In].
Qed.

(** What is kept is part of the tree. *)
Lemma kept_paths_tree (skip : string -> bool) (n : node) :
  forall name arcname path,
    path ∈ kept_paths skip name arcname n -> path ∈ tree_paths arcname n.
Proof.
  induction n as [x | x children IH] using node_induction; intros name arcname path; simpl;
    destruct (skip name); try (intros H; now apply elem_of_nil in H); [tauto |].
  rewrite !elem_of_cons. intros [-> | H]; [now left | right].
  apply list_elem_of_In, in_flat_map in H as (c & Hc & H).
  apply list_elem_of_In, in_flat_map. exists c. split; [exact Hc |].
  rewrite List.Forall_forall in IH. apply list_elem_of_In.
  eapply (IH c Hc). apply list_elem_of_In. exact H.
Qed.

Section Packaging.

Variable env : Env.

(** The loop of [package_project] appends the members of every entry
    that does not start with a dot. *)
Lemma package_loop (p dir : string) (items : list node) :
  Forall (fun item => tar_add env (node_name item) = None) items ->
  forall (w : World) (old : list string),
    fs w !! p = Some (Archive old) ->
    exists w',
      for_each items (fun item =>
        if negb (Py.startswith "." (node_name item))
        then tarfile_add env p dir item else ret tt) w = (Ok tt, w') /\
      fs w' !! p = Some (Archive
        (old ++ flat_map (fun item => tar_members env p (Py.path_join dir (node_name item))
                                                  (node_name item) item) (packaged items))).
Proof.
  induction 1 as [| item items Hadd _ IH]; intros w old Hp; simpl.
  - exists w. split; [reflexivity |]. now rewrite app_nil_r.
  - unfold packaged. rewrite filter_cons.
    destruct (Py.startswith "." (node_name item)) eqn:Edot; simpl negb; cbv iota.
    + rewrite bind_ret. destruct (IH w old Hp) as (w' & E & Hfs).
      exists w'. split; [exact E |].
      rewrite decide_False by discriminate. exact Hfs.
    + rewrite decide_True by reflexivity.
      unfold tarfile_add. rewrite Hadd. mstep. rewrite Hp.
      match goal with |- context [for_each _ _ ?w1] =>
        destruct (IH w1 (old ++ tar_members env p (Py.path_join dir (node_name item))
                                            (node_name item) item)) as (w' & E & Hfs)
      end.
      { simpl. apply lookup_insert_eq. }
      exists w'. split; [exact E |].
      rewrite Hfs. simpl. now rewrite app_assoc.
Qed.

(** What [package_project] produces when nothing fails. *)
Lemma package_project_archive (project_path p : string) (items : list node) (w : World) :
  tmp_file env = Val p ->
  tar_open env = None ->
  listing env project_path = Val items ->
  Forall (fun item => tar_add env (node_name item) = None) items ->
  exists w',
    package_project env project_path w = (Ok p, w') /\
    fs w' !! p = Some (Archive
      (flat_map (fun item => tar_members env p (Py.path_join project_path (node_name item))
                                         (node_name item) item) (packaged items))).
Proof.
  intros Htmp Hopen Hlist Hadd.
  unfold package_project, named_temporary_file, tarfile_open.
  rewrite Htmp, Hopen, Hlist. mstep.
  match goal with |- context [bind (for_each _ _) _ ?w1] =>
    destruct (package_loop p project_path items Hadd w1 []) as (w' & E & Hfs)
  end.
  { simpl. apply lookup_insert_eq. }
  rewrite (bind_Ok _ _ _ _ _ E).
  unfold stat_size. mstep. rewrite Hfs. mstep.
  eexists. split; [reflexivity |]. exact Hfs.
Qed.

End Packaging.

(** C9, as amended.  The deployment package leaves out the entries at the
    top of the project directory whose name starts with a dot, with
    everything below them.  Every other top-level entry is archived with
    all that lies below it, dotfiles included, except for an entry that is
    the archive being written, which [tarfile] skips: a path is a member of
    the archive exactly when it is a kept path of a top-level entry whose
    name does not start with a dot.  Every member lies in the tree of such
    an entry, and when no entry in these trees is the archive, the members
    are all the paths of these trees. *)
Theorem package_excludes_top_level_dot_entries
    (env : Env) (project_path p : string) (items : list node) (w : World) :
  tmp_file env = Val p ->
  tar_open env = None ->
  listing env project_path = Val items ->
  Forall (fun item => tar_add env (node_name item) = None) items ->
  exists w' members,
    package_project env project_path w = (Ok p, w') /\
    fs w' !! p = Some (Archive members) /\
    (forall path,
       path ∈ members <->
       exists item, item ∈ items /\ Py.startswith "." (node_name item) = false /\
                    path ∈ kept_paths (is_archive env p)
                             (Py.path_join project_path (node_name item))
                             (node_name item) item) /\
    (forall path,
       path ∈ members ->
       exists item, item ∈ items /\ Py.startswith "." (node_name item) = false /\
                    path ∈ tree_paths (node_name item) item) /\
    ((forall item x,
        item ∈ items -> Py.startswith "." (node_name item) = false ->
        x ∈ tree_paths (Py.path_join project_path (node_name item)) item ->
        is_archive env p x = false) ->
     forall path,
       path ∈ members <->
       exists item, item ∈ items /\ Py.startswith "." (node_name item) = false /\
                    path ∈ tree_paths (node_name item) item).
Proof.
  intros Htmp Hopen Hlist Hadd.
  destruct (package_project_archive env project_path p items w Htmp Hopen Hlist Hadd)
    as (w' & E & Hfs).
  exists w'. eexists. split; [exact E |]. split; [exact Hfs |].
  assert (Hkept : forall path,
    path ∈ flat_map (fun item => tar_members env p (Py.path_join project_path (node_name item))
                                             (node_name item) item) (packaged items) <->
    exists item, item ∈ items /\ Py.startswith "." (node_name item) = false /\
                 path ∈ kept_paths (is_archive env p)
                          (Py.path_join project_path (node_name item))
                          (node_name item) item).
  { intros path. rewrite list_elem_of_In, in_flat_map. split.
    - intros (item & Hin & Hpath). exists item.
      apply list_elem_of_In in Hin. unfold packaged in Hin.
      apply list_elem_of_filter in Hin as [Hdot Hin].
      split; [exact Hin |]. split; [exact Hdot |].
      rewrite <- (tar_members_Permutation env p item). now apply list_elem_of_In.
    - intros (item & Hin & Hdot & Hpath). exists item. split.
      + apply list_elem_of_In. unfold packaged. apply list_elem_of_filter. now split.
      + apply list_elem_of_In. now rewrite (tar_members_Permutation env p item). }
  split; [exact Hkept |]. split.
  - intros path Hpath. apply Hkept in Hpath as (item & Hin & Hdot & Hpath).
    exists item. split; [exact Hin |]. split; [exact Hdot |].
    eapply kept_paths_tree. exact Hpath.
  - intros Hout path. rewrite Hkept. split; intros (item & Hin & Hdot & Hpath);
      exists item; (split; [exact Hin |]); (split; [exact Hdot |]).
    + eapply kept_paths_tree. exact Hpath.
    + rewrite kept_paths_all; [exact Hpath |]. intros x Hx. now apply (Hout item).
Qed.

(** The package of the sample project, from the theorem: [.env] and [.git]
    stay out, [src] goes in with all its files. *)
Lemma package_excludes_top_level_dot_entries_witness :
  exists w' members,
    package_project scenario_a "/home/user/proj" (start ∅) = (Ok "/tmp/tmpabc.tar.gz", w') /\
    fs w' !! "/tmp/tmpabc.tar.gz" = Some (Archive members) /\
    (forall path,
       path ∈ members <->
       exists item, item ∈ project_tree /\ Py.startswith "." (node_name item) = false /\
                    path ∈ kept_paths (is_archive scenario_a "/tmp/tmpabc.tar.gz")
                             (Py.path_join "/home/user/proj" (node_name item))
                             (node_name item) item) /\
    (forall path,
       path ∈ members ->
       exists item, item ∈ project_tree /\ Py.startswith "." (node_name item) = false /\
                    path ∈ tree_paths (node_name item) item) /\
    ((forall item x,
        item ∈ project_tree -> Py.startswith "." (node_name item) = false ->
        x ∈ tree_paths (Py.path_join "/home/user/proj" (node_name item)) item ->
        is_archive scenario_a "/tmp/tmpabc.tar.gz" x = false) ->
     forall path,
       path ∈ members <->
       exists item, item ∈ project_tree /\ Py.startswith "." (node_name item) = false /\
                    path ∈ tree_paths (node_name item) item).
Proof.
  apply (package_excludes_top_level_dot_entries scenario_a "/home/user/proj"
           "/tmp/tmpabc.tar.gz" project_tree (start ∅));
    [reflexivity | reflexivity | reflexivity |].
  repeat constructor.
Defined.

(** A temporary archive that lies in the project directory is not packed
    into itself. *)
Example archive_in_project_is_skipped :
  exists w',
    package_project scenario_archive_in_project "/home/user/proj" (start ∅)
    = (Ok "/home/user/proj/tmpabc.tar.gz", w') /\
    fs w' !! "/home/user/proj/tmpabc.tar.gz"
    = Some (Archive ["train.py"; "src"; "src/.secret"; "src/data.py"; "src/model.py"]) /\
    TarAdd "/home/user/proj/tmpabc.tar.gz" "tmpabc.tar.gz" ∈ trace w'.
Proof.
  eexists. split; [vm_compute; reflexivity |].
  split; [vm_compute; reflexivity |].
  apply list_elem_of_In. vm_compute. repeat (first [left; reflexivity | right]).
Qed.

(** C9 as stated fails: the dotfile [src/.secret] of the sample project is
    in its package. *)
Lemma nested_dotfile_is_packaged :
  exists w',
    package_project scenario_a "/home/user/proj" (start ∅) = (Ok "/tmp/tmpabc.tar.gz", w') /\
    fs w' !! "/tmp/tmpabc.tar.gz"
      = Some (Archive ["train.py"; "src"; "src/.secret"; "src/data.py"; "src/model.py"]) /\
    Py.startswith "." (Py.path_name "src/.secret") = true /\
    "src/.secret" ∈ tree_paths "src" (Dir "src" [File "model.py"; File ".secret"; File "data.py"]).
Proof.
  eexists. split; [vm_compute; reflexivity |].
  split; [vm_compute; reflexivity |]. split; [reflexivity |].
  simpl. set_solver.
Qed.

(** ** Artifact collection *)

Lemma log_nil (w : World) : log [] w = w.
Proof. destruct w. unfold log. simpl. now rewrite app_nil_r. Qed.

Lemma log_log (e1 e2 : list event) (w : World) : log e2 (log e1 w) = log (e1 ++ e2) w.
Proof. unfold log. simpl. now rewrite app_assoc. Qed.

Lemma log_with_fs (e : list event) (f : gmap string entry) (w : World) :
  log e (with_fs f w) = with_fs f (log e w).
Proof. reflexivity. Qed.

Lemma with_fs_with_fs (f g : gmap string entry) (w : World) :
  with_fs g (with_fs f w) = with_fs g w.
Proof. reflexivity. Qed.

Lemma with_fs_same (w : World) : with_fs (fs w) w = w.
Proof. now destruct w. Qed.

Section Artifacts.

Variable env : Env.

Lemma bind_time_time {B} (k : Q -> M B) (w : World) :
  bind (time_time env) k w = k (clock env (clock_reads w)) (tick w).
Proof. reflexivity. Qed.

Lemma bind_exec_command {B} (cmd : string) (pty : bool) (k : string * string * Z -> M B)
    (w : World) (out err : string) (status : Z) :
  ssh_exec env cmd = ExecDone out err status ->
  bind (exec_command env cmd pty) k w = k (out, err, status) (log [SshExec cmd pty] w).
Proof. intros H. unfold exec_command. rewrite bind_assoc, bind_emit. now rewrite H. Qed.

(** The searches always run for all the patterns given, and collect the
    reported files in order. *)
Lemma find_model_files_spec (dir : string) (ps : list string) :
  Forall (fun p => exists out err st, ssh_exec env (find_command dir p) = ExecDone out err st)
         ps ->
  forall (acc : list string) (w : World),
    find_model_files env dir ps acc w =
    (Ok (acc ++ flat_map (fun p => output_lines (stdout_of (ssh_exec env (find_command dir p))))
                         ps),
     log (map (fun p => SshExec (find_command dir p) false) ps) w).
Proof.
  induction 1 as [| p ps (out & err & st & Hp) _ IH]; intros acc w; simpl.
  - now rewrite app_nil_r, log_nil.
  - erewrite bind_exec_command by exact Hp. cbv beta. rewrite IH, log_log.
    rewrite Hp. simpl. now rewrite app_assoc.
Qed.

(** The downloads run for every file given, one after the other. *)
Lemma download_all_trace (d : string) (files : list string) :
  Forall (fun f => exists data, scp_get env f = Val data) files ->
  forall w : World,
    exists w', download_all env d files w = (Ok tt, w') /\
               trace w' = trace w ++ flat_map (download_events d) files /\
               clock_reads w' = clock_reads w /\ cli_calls w' = cli_calls w.
Proof.
  unfold download_all.
  induction 1 as [| f files (data & Hf) _ IH]; intros w; simpl.
  - exists w. now rewrite app_nil_r.
  - unfold scp_get_file. rewrite Hf. mstep.
    match goal with |- context [for_each _ _ ?w1] => destruct (IH w1) as (w' & E & Ht & Hc) end.
    exists w'. split; [exact E |]. rewrite Ht. simpl. now rewrite <- !app_assoc.
Qed.

(** When no artifact has the name of a local directory, every download
    is written under the artifact's file name. *)
Lemma download_all_files (d : string) (files : list string) :
  Forall (fun f => exists data, scp_get env f = Val data) files ->
  forall w : World,
    (forall f, f ∈ files -> fs w !! local_file d f <> Some Directory) ->
    exists w', download_all env d files w = (Ok tt, w') /\
               fs w' = downloaded env d files (fs w).
Proof.
  unfold download_all.
  induction 1 as [| f files (data & Hf) _ IH]; intros w Hdir; simpl.
  - now exists w.
  - unfold scp_get_file. rewrite Hf. mstep.
    assert (Et : scp_target (fs w) f (local_file d f) = local_file d f).
    { unfold scp_target. specialize (Hdir f ltac:(set_solver)).
      destruct (fs w !! local_file d f) as [[] |]; congruence. }
    rewrite Et.
    match goal with |- context [for_each _ _ ?w1] => destruct (IH w1) as (w' & E & Hfs) end.
    { intros g Hg. simpl.
      destruct (decide (local_file d f = local_file d g)) as [<- | Hne].
      - rewrite lookup_insert_eq. discriminate.
      - rewrite lookup_insert_ne by exact Hne. apply Hdir. set_solver. }
    exists w'. split; [exact E |]. rewrite Hfs. simpl.
    unfold contents. now rewrite Hf.
Qed.

End Artifacts.

(** C8, as amended.  Artifact collection searches the remote project root
    with exactly five patterns and keeps every reported path, in order and
    with repetitions: nothing is deduplicated.  If no file is reported it
    returns without error and without creating anything.  Otherwise it
    makes the directory [speedrun_results_<seconds>] named after the
    current time in whole seconds, accepting a directory that already
    exists, and downloads every reported file into it under its file name
    alone. *)
Theorem artifact_collection (env : Env) (dir : string) (w : World) :
  Forall (fun p => exists out err st, ssh_exec env (find_command dir p) = ExecDone out err st)
         patterns ->
  patterns = ["*.pt"; "*.pth"; "*.pkl"; "*.h5"; "*.hdf5"] /\
  (found env dir = [] ->
   download_artifacts env dir w =
   (Ok tt, log (Print MsgDownloadingArtifacts :: searches dir ++ [Print MsgNoArtifacts]) w)) /\
  (found env dir <> [] ->
   let results_dir := results_dir_name (clock env (clock_reads w)) in
   fs w !! results_dir = None \/ fs w !! results_dir = Some Directory ->
   Forall (fun f => exists data, scp_get env f = Val data) (found env dir) ->
   exists w',
     download_artifacts env dir w = (Ok tt, w') /\
     trace w' = trace w ++ Print MsgDownloadingArtifacts :: searches dir
                ++ Mkdir results_dir :: flat_map (download_events results_dir) (found env dir)
                ++ [Print (MsgDownloaded (length (found env dir)) results_dir)]).
Proof.
  intros Hexec. split; [reflexivity |].
  assert (Hfind : forall k : list string -> M unit,
            bind (find_model_files env dir patterns []) k (log [Print MsgDownloadingArtifacts] w)
            = k (found env dir) (log (Print MsgDownloadingArtifacts :: searches dir) w)).
  { intros k. erewrite bind_Ok by apply (find_model_files_spec env dir patterns Hexec).
    now rewrite log_log. }
  split.
  - intros Hnone. unfold download_artifacts. rewrite bind_print; cbv beta.
    rewrite Hfind, Hnone. unfold print, emit, log. simpl. now rewrite <- ?app_assoc.
  - intros Hsome. cbv zeta. intros Hdir Hget.
    set (results_dir := results_dir_name (clock env (clock_reads w))) in *.
    unfold download_artifacts.
    rewrite bind_print; cbv beta. rewrite Hfind.
    destruct (found env dir) as [| f files] eqn:Efound; [congruence |].
    rewrite bind_time_time. cbn [clock_reads log]. fold results_dir.
    unfold mkdir_exist_ok. mstep.
    assert (Hall : forall w1 : World,
              trace w1 = trace w ++ Print MsgDownloadingArtifacts :: searches dir
                         ++ [Mkdir results_dir] ->
              exists w',
                bind (download_all env results_dir (f :: files))
                     (fun _ => print (MsgDownloaded (length (f :: files)) results_dir)) w1
                = (Ok tt, w') /\
                trace w' = trace w ++ Print MsgDownloadingArtifacts :: searches dir
                  ++ Mkdir results_dir :: flat_map (download_events results_dir) (f :: files)
                  ++ [Print (MsgDownloaded (length (f :: files)) results_dir)]).
    { intros w1 Hw1.
      destruct (download_all_trace env results_dir (f :: files) Hget w1) as (w' & E & Ht & _).
      rewrite (bind_Ok _ _ _ _ _ E). eexists. split; [reflexivity |].
      cbn [trace print emit fst snd]. rewrite Ht, Hw1.
      rewrite <- ?app_assoc. simpl. rewrite <- ?app_assoc. reflexivity. }
    destruct Hdir as [Hd | Hd]; rewrite Hd; mstep; apply Hall; simpl;
      rewrite <- ?app_assoc; reflexivity.
Qed.

(** Scenario E of the specification, from the theorem: [model.pt] and
    [weights.pth] go into one directory under their file names. *)
Lemma artifact_collection_witness :
  exists w',
    download_artifacts scenario_a "/root/proj" (start ∅) = (Ok tt, w') /\
    trace w' =
      Print MsgDownloadingArtifacts :: searches "/root/proj"
      ++ [Mkdir "speedrun_results_1000";
          Print (MsgDownloading "model.pt");
          ScpGet "/root/proj/model.pt" "speedrun_results_1000/model.pt";
          Print (MsgDownloading "weights.pth");
          ScpGet "/root/proj/weights.pth" "speedrun_results_1000/weights.pth";
          Print (MsgDownloaded 2 "speedrun_results_1000")].
Proof.
  assert (Hexec : Forall (fun p => exists out err st,
                    ssh_exec scenario_a (find_command "/root/proj" p) = ExecDone out err st)
                    patterns).
  { repeat constructor; do 3 eexists; vm_compute; reflexivity. }
  destruct (artifact_collection scenario_a "/root/proj" (start ∅) Hexec) as (_ & _ & H).
  apply H.
  - vm_compute. discriminate.
  - left. reflexivity.
  - vm_compute. repeat constructor; eexists; reflexivity.
Defined.

(** C8 as stated fails.  When a search reports a path twice the file is
    downloaded twice, and a results directory left by an earlier run of
    the same second is used again, stale files included. *)
Lemma artifacts_are_not_deduplicated :
  found scenario_twice "/root/proj" = ["/root/proj/model.pt"; "/root/proj/model.pt"] /\
  exists w',
    download_artifacts scenario_twice "/root/proj" (start stale_results) = (Ok tt, w') /\
    trace w' =
      Print MsgDownloadingArtifacts :: searches "/root/proj"
      ++ [Mkdir "speedrun_results_1000";
          Print (MsgDownloading "model.pt");
          ScpGet "/root/proj/model.pt" "speedrun_results_1000/model.pt";
          Print (MsgDownloading "model.pt");
          ScpGet "/root/proj/model.pt" "speedrun_results_1000/model.pt";
          Print (MsgDownloaded 2 "speedrun_results_1000")] /\
    fs (start stale_results) !! "speedrun_results_1000" = Some Directory /\
    fs w' !! "speedrun_results_1000/old.pt" = Some (Blob "stale").
Proof.
  split; [vm_compute; reflexivity |].
  eexists. split; [vm_compute; reflexivity |].
  split; [vm_compute; reflexivity |]. split; vm_compute; reflexivity.
Qed.

(** ** Artifacts with the same file name *)

Section SameName.

Variable env : Env.
Variable d : string.

Lemma downloaded_cons (r : string) (files : list string) (f : gmap string entry) :
  downloaded env d (r :: files) f
  = downloaded env d files (<[local_file d r := Blob (contents env r)]> f).
Proof. reflexivity. Qed.

Lemma downloaded_size_le (files : list string) :
  forall f : gmap string entry, size (downloaded env d files f) <= size f + length files.
Proof.
  induction files as [| r files IH]; intros f; [simpl; lia |].
  rewrite downloaded_cons. etransitivity; [apply IH |].
  rewrite map_size_insert. simpl. destruct (f !! local_file d r); simpl; lia.
Qed.

(** A download to a path that is already taken adds no file. *)
Lemma downloaded_size_taken (files : list string) :
  forall (f : gmap string entry) (j : nat) (r : string),
    files !! j = Some r ->
    is_Some (f !! local_file d r) ->
    size (downloaded env d files f) < size f + length files.
Proof.
  induction files as [| x files IH]; intros f j r Hj Hr; [discriminate |].
  rewrite downloaded_cons. destruct j as [| j]; simpl in Hj.
  - injection Hj as ->.
    pose proof (downloaded_size_le files (<[local_file d r := Blob (contents env r)]> f)).
    rewrite map_size_insert_Some in H by exact Hr. simpl. lia.
  - assert (Hr' : is_Some (<[local_file d x := Blob (contents env x)]> f !! local_file d r)).
    { apply lookup_insert_is_Some'. now right. }
    pose proof (IH _ j r Hj Hr') as H.
    rewrite map_size_insert in H. simpl. destruct (f !! local_file d x); simpl in H; lia.
Qed.

Lemma downloaded_size_collision (files : list string) :
  forall (f : gmap string entry) (i j : nat) (r1 r2 : string),
    files !! i = Some r1 -> files !! j = Some r2 -> i < j ->
    local_file d r1 = local_file d r2 ->
    size (downloaded env d files f) < size f + length files.
Proof.
  induction files as [| x files IH]; intros f i j r1 r2 Hi Hj Hij Heq; [discriminate |].
  rewrite downloaded_cons. destruct j as [| j]; [lia |]. simpl in Hj.
  destruct i as [| i]; simpl in Hi.
  - injection Hi as ->.
    assert (Hr : is_Some (<[local_file d r1 := Blob (contents env r1)]> f !! local_file d r2)).
    { rewrite <- Heq, lookup_insert_eq. eauto. }
    pose proof (downloaded_size_taken files _ j r2 Hj Hr) as H.
    rewrite map_size_insert in H. simpl. destruct (f !! local_file d r1); simpl in H; lia.
  - pose proof (IH (<[local_file d x := Blob (contents env x)]> f) i j r1 r2 Hi Hj
                  ltac:(lia) Heq) as H.
    rewrite map_size_insert in H. simpl. destruct (f !! local_file d x); simpl in H; lia.
Qed.

(** The file at a path holds what the last download to that path
    fetched. *)
Lemma downloaded_last (files : list string) :
  forall (f : gmap string entry) (j : nat) (r : string),
    files !! j = Some r ->
    exists k r',
      j <= k /\ files !! k = Some r' /\ local_file d r' = local_file d r /\
      downloaded env d files f !! local_file d r = Some (Blob (contents env r')).
Proof.
  induction files as [| x files IH] using rev_ind; intros f j r Hj; [discriminate |].
  unfold downloaded. rewrite foldl_snoc. fold (downloaded env d files f).
  destruct (decide (local_file d x = local_file d r)) as [Heq | Hne].
  - exists (length files), x. split; [| split; [| split]].
    + apply lookup_lt_Some in Hj. rewrite length_app in Hj. simpl in Hj. lia.
    + now rewrite lookup_app_r, Nat.sub_diag by lia.
    + exact Heq.
    + now rewrite Heq, lookup_insert_eq.
  - assert (Hj' : files !! j = Some r).
    { destruct (decide (j < length files)) as [Hlt | Hge].
      - now rewrite lookup_app_l in Hj by exact Hlt.
      - rewrite lookup_app_r in Hj by lia.
        destruct (j - length files) as [| n]; simpl in Hj; [| discriminate].
        injection Hj as ->. congruence. }
    destruct (IH f j r Hj') as (k & r' & Hk & Hr' & Heq & Hl).
    exists k, r'. split; [exact Hk |]. split.
    + rewrite lookup_app_l; [exact Hr' |]. now apply lookup_lt_Some in Hr'.
    + split; [exact Heq |]. now rewrite lookup_insert_ne.
Qed.

End SameName.

(** C10.  Downloads are written under the file name alone, so two
    discovered artifacts with the same file name go to the same local path:
    after the downloads that path holds what a later download fetched (the
    last one written there), not the earlier one, and the run has added
    fewer local files than it discovered artifacts. *)
Theorem same_name_artifacts_collide (env : Env) (results_dir : string)
    (model_files : list string) (w : World) (i j : nat) (r1 r2 : string) :
  model_files !! i = Some r1 ->
  model_files !! j = Some r2 ->
  i < j ->
  Py.path_name r1 = Py.path_name r2 ->
  Forall (fun f => exists data, scp_get env f = Val data) model_files ->
  (forall f, f ∈ model_files -> fs w !! local_file results_dir f <> Some Directory) ->
  exists w',
    download_all env results_dir model_files w = (Ok tt, w') /\
    local_file results_dir r1 = local_file results_dir r2 /\
    (exists k r, j <= k /\ model_files !! k = Some r /\
                 local_file results_dir r = local_file results_dir r1 /\
                 fs w' !! local_file results_dir r1 = Some (Blob (contents env r))) /\
    size (fs w') < size (fs w) + length model_files.
Proof.
  intros Hi Hj Hij Hname Hget Hdir.
  assert (Heq : local_file results_dir r1 = local_file results_dir r2).
  { unfold local_file. now rewrite Hname. }
  destruct (download_all_files env results_dir model_files Hget w Hdir) as (w' & E & Hfs).
  exists w'. split; [exact E |]. split; [exact Heq |]. rewrite Hfs. split.
  - rewrite Heq.
    destruct (downloaded_last env results_dir model_files (fs w) j r2 Hj)
      as (k & r & Hk & Hr & Hl & Hv).
    exists k, r. repeat split; assumption.
  - now apply (downloaded_size_collision env results_dir model_files (fs w) i j r1 r2).
Qed.

(** Two [model.pt] in different remote directories, from the theorem: one
    local file is left, holding the second download. *)
Lemma same_name_artifacts_collide_witness :
  exists w',
    download_all scenario_same_name "speedrun_results_1000"
      ["/root/proj/model.pt"; "/root/proj/ckpt/model.pt"] (start ∅) = (Ok tt, w') /\
    local_file "speedrun_results_1000" "/root/proj/model.pt"
      = local_file "speedrun_results_1000" "/root/proj/ckpt/model.pt" /\
    (exists k r, 1 <= k /\
       ["/root/proj/model.pt"; "/root/proj/ckpt/model.pt"] !! k = Some r /\
       local_file "speedrun_results_1000" r
         = local_file "speedrun_results_1000" "/root/proj/model.pt" /\
       fs w' !! local_file "speedrun_results_1000" "/root/proj/model.pt"
         = Some (Blob (contents scenario_same_name r))) /\
    size (fs w') < size (fs (start ∅)) + 2.
Proof.
  apply (same_name_artifacts_collide scenario_same_name "speedrun_results_1000"
           ["/root/proj/model.pt"; "/root/proj/ckpt/model.pt"] (start ∅) 0 1
           "/root/proj/model.pt" "/root/proj/ckpt/model.pt");
    [reflexivity | reflexivity | lia | reflexivity | |].
  - repeat constructor; eexists; reflexivity.
  - intros f _. simpl. rewrite lookup_empty. discriminate.
Defined.

(** ** Termination

    A computation can fail to return in three ways: a call of the
    marketplace CLI blocks, a remote command blocks, or the polling loop
    goes on.  Everything else returns or raises. *)

Lemma total_ret {A} (a : A) : total (ret a).
Proof. intros w. discriminate. Qed.

Lemma total_raise {A} (e : exn) : total (@raise A e).
Proof. intros w. discriminate. Qed.

Lemma total_lift {A} (r : res A) : total (lift r).
Proof. destruct r; [apply total_ret | apply total_raise]. Qed.

Lemma total_may_raise (o : option exn) : total (may_raise o).
Proof. destruct o; [apply total_raise | apply total_ret]. Qed.

Lemma total_bind {A B} (m : M A) (k : A -> M B) :
  total m -> (forall a, total (k a)) -> total (bind m k).
Proof.
  intros Hm Hk w. unfold bind. specialize (Hm w).
  destruct (m w) as [[a | e |] w1]; simpl in *; [apply Hk | discriminate | congruence].
Qed.

Lemma total_try_finally {A} (body : M A) (cleanup : M unit) :
  total body -> total cleanup -> total (try_finally body cleanup).
Proof.
  intros Hb Hc w. unfold try_finally. specialize (Hb w).
  destruct (body w) as [[a | e |] w1]; simpl in *; try congruence;
    specialize (Hc w1); destruct (cleanup w1) as [[[] | e' |] w2]; simpl in *; congruence.
Qed.

Lemma total_for_each {A} (xs : list A) (body : A -> M unit) :
  (forall x, total (body x)) -> total (for_each xs body).
Proof.
  intros Hb. induction xs as [| x xs IH]; simpl.
  - apply total_ret.
  - apply total_bind; [apply Hb | intros _; exact IH].
Qed.

Create HintDb total discriminated.

#[local] Hint Resolve total_ret total_raise total_lift total_may_raise : total.
#[local] Hint Extern 1 (total (emit _)) => (intros ?; discriminate) : total.
#[local] Hint Extern 1 (total get_fs) => (intros ?; discriminate) : total.
#[local] Hint Extern 1 (total (put_fs _)) => (intros ?; discriminate) : total.
#[local] Hint Extern 1 (total next_cli_call) => (intros ?; discriminate) : total.
#[local] Hint Extern 1 (total next_clock_read) => (intros ?; discriminate) : total.
#[local] Hint Extern 1 (total get_contract_id) => (intros ?; discriminate) : total.
#[local] Hint Extern 1 (total (set_contract_id _)) => (intros ?; discriminate) : total.

Ltac total_step :=
  lazymatch goal with
  | |- total (bind _ _) => apply total_bind; [| intros ?]
  | |- total (try_finally _ _) => apply total_try_finally
  | |- total (for_each _ _) => apply total_for_each; intros ?
  | |- total (print _) => unfold print
  | |- total diverge =>
      exfalso;
      match goal with
      | H : cli_ends ?env, E : vastai ?env _ _ = CliBlocks |- _ => exact (H _ _ E)
      | H : ssh_ends ?env, E : ssh_exec ?env _ = ExecBlocks _ |- _ => exact (H _ _ E)
      end
  | |- total (match ?x with _ => _ end) => destruct x eqn:?
  | |- total (let _ := _ in _) => cbv zeta
  | |- _ => solve [eauto with total]
  end.

Ltac total_auto := repeat total_step.

Section Total.

Variable env : Env.
Hypothesis Hcli : cli_ends env.
Hypothesis Hssh : ssh_ends env.

Lemma time_time_total : total (time_time env).
Proof. unfold time_time. total_auto. Qed.

Lemma run_vastai_cmd_total cmd : total (run_vastai_cmd env cmd).
Proof. unfold run_vastai_cmd. total_auto. Qed.

#[local] Hint Resolve time_time_total run_vastai_cmd_total : total.

Lemma select_best_total j : total (select_best j).
Proof. unfold select_best. total_auto. Qed.

Lemma find_best_gpu_total : total (find_best_gpu env).
Proof. unfold find_best_gpu, select_best. total_auto. Qed.

Lemma create_instance_total i : total (create_instance env i).
Proof. unfold create_instance. total_auto. Qed.

Lemma destroy_instance_total c : total (destroy_instance env c).
Proof. unfold destroy_instance. total_auto. Qed.

Lemma run_cleanup_total : total (run_cleanup env).
Proof. unfold run_cleanup, destroy_instance. total_auto. Qed.

Lemma package_project_total path : total (package_project env path).
Proof.
  unfold package_project, named_temporary_file, tarfile_open, tarfile_add, stat_size.
  total_auto.
Qed.

Lemma unlink_total path : total (unlink path).
Proof. unfold unlink. total_auto. Qed.

Lemma find_model_files_total dir ps acc : total (find_model_files env dir ps acc).
Proof.
  revert acc. induction ps as [| p ps IH]; intros acc; simpl.
  - total_auto.
  - unfold exec_command. total_auto.
Qed.

#[local] Hint Resolve find_model_files_total unlink_total : total.

Lemma download_artifacts_total dir : total (download_artifacts env dir).
Proof.
  unfold download_artifacts, download_all, mkdir_exist_ok, scp_get_file. total_auto.
Qed.

Lemma train_total pkg name : total (train env pkg name).
Proof. unfold train, scp_put_file, exec_command, stream_command. total_auto. Qed.

#[local] Hint Resolve download_artifacts_total train_total : total.

Lemma run_on_instance_total info pkg name : total (run_on_instance env info pkg name).
Proof. unfold run_on_instance. total_auto. Qed.

#[local] Hint Resolve run_on_instance_total : total.

Lemma deploy_total start instance info pkg name :
  total (deploy env start instance info pkg name).
Proof. unfold deploy. total_auto. Qed.

#[local] Hint Resolve deploy_total : total.

Lemma deploy_and_unlink_total start instance info pkg name :
  total (deploy_and_unlink env start instance info pkg name).
Proof. unfold deploy_and_unlink. total_auto. Qed.

End Total.

(** ** What the phases of a run leave behind *)

Lemma only_log_r (P : event -> Prop) (w0 w : World) (evs : list event) :
  Forall P evs -> only P w0 w -> only P w0 (log evs w).
Proof.
  intros F (e0 & E & F0). exists (e0 ++ evs). split.
  - simpl. now rewrite E, app_assoc.
  - now apply Forall_app.
Qed.

Lemma only_with_fs_r (P : event -> Prop) (w0 w : World) (f : gmap string entry) :
  only P w0 w -> only P w0 (with_fs f w).
Proof. intros (e0 & E & F0). now exists e0. Qed.

Lemma only_tick_r (P : event -> Prop) (w0 w : World) : only P w0 w -> only P w0 (tick w).
Proof. intros (e0 & E & F0). now exists e0. Qed.

Lemma only_elem_of (P : event -> Prop) (w w' : World) (e : event) :
  only P w w' -> e ∈ trace w' -> e ∈ trace w \/ P e.
Proof.
  intros (evs & E & F) Hin. rewrite E, elem_of_app in Hin.
  destruct Hin as [Hin | Hin]; [now left | right].
  rewrite Forall_forall in F. now apply F.
Qed.

(** Prove [Forall P] of an explicit list, each element by [tac]. *)
Ltac forall_list tac :=
  repeat (apply List.Forall_cons; [tac |]); apply List.Forall_nil.

Section Posts.

Variable env : Env.

Lemma package_loop_only (p dir : string) (items : list node) :
  respects (only packing)
    (for_each items (fun item =>
       if negb (Py.startswith "." (node_name item))
       then tarfile_add env p dir item else ret tt)).
Proof.
  eapply respects_weaken with (R := only (fun e => match e with TarAdd _ _ => True | _ => False end)).
  - intros w w'. apply only_weaken. intros [] H; try destruct H.
    split; [reflexivity | intros [s Hs]; discriminate].
  - unfold tarfile_add. respects_auto.
Qed.

Lemma package_loop_keeps_file (q p dir : string) (items : list node) :
  respects (keeps_file q)
    (for_each items (fun item =>
       if negb (Py.startswith "." (node_name item))
       then tarfile_add env p dir item else ret tt)).
Proof.
  apply respects_for_each; [typeclasses eauto | intros item].
  destruct (negb _); [| respects_auto].
  unfold tarfile_add. apply respects_bind; [typeclasses eauto | respects_auto | intros _].
  apply respects_bind; [typeclasses eauto | respects_auto | intros _].
  intros w. unfold keeps_file, bind, get_fs, put_fs. simpl. intros H.
  destruct (decide (p = q)) as [-> | Hne].
  - now rewrite lookup_insert_eq.
  - now rewrite lookup_insert_ne.
Qed.

Lemma package_loop_total (p dir : string) (items : list node) :
  total (for_each items (fun item =>
           if negb (Py.startswith "." (node_name item))
           then tarfile_add env p dir item else ret tt)).
Proof. unfold tarfile_add. total_auto. Qed.

(** [package_project] returns the path of the temporary file, which
    then holds the archive; when it raises, its last status line was not
    written. *)
Lemma package_project_post (project_path : string) (w : World) :
  match package_project env project_path w with
  | (Ok p, w') => tmp_file env = Val p /\ is_file (fs w' !! p) /\ only early w w'
  | (Raise _, w') => only packing w w'
  | (Diverge, _) => False
  end.
Proof.
  assert (Hpk : packing (Print MsgPackaging)).
  { split; [reflexivity | intros [s Hs]; discriminate]. }
  unfold package_project, named_temporary_file, tarfile_open.
  destruct (tmp_file env) as [p | e] eqn:Etmp; mstep;
    [| apply only_log_r; [forall_list assumption | reflexivity]].
  assert (Hmk : packing (MkTemp p)).
  { split; [reflexivity | intros [s Hs]; discriminate]. }
  assert (Hto : packing (TarOpen p)).
  { split; [reflexivity | intros [s Hs]; discriminate]. }
  destruct (tar_open env) as [e |] eqn:Eopen; mstep.
  { repeat (first [apply only_log_r; [forall_list assumption |]
                  | apply only_with_fs_r]). reflexivity. }
  destruct (listing env project_path) as [items | e] eqn:Elist; mstep.
  2: { repeat (first [apply only_log_r; [forall_list assumption |]
                     | apply only_with_fs_r]). reflexivity. }
  match goal with |- context [bind (for_each ?xs ?body) _ ?w1] =>
    pose proof (package_loop_only p project_path items w1) as Honly;
    pose proof (package_loop_keeps_file p p project_path items w1) as Hkeep;
    pose proof (package_loop_total p project_path items w1) as Htot;
    assert (Hw1 : only packing w w1)
      by (repeat (first [apply only_log_r; [forall_list assumption |]
                        | apply only_with_fs_r]); reflexivity);
    unfold bind at 1;
    destruct (for_each xs body w1) as [[[] | e |] w2]
  end; cbn [fst snd] in *.
  - unfold keeps_file in Hkeep. cbn [fs with_fs log] in Hkeep.
    rewrite lookup_insert_eq in Hkeep. specialize (Hkeep I).
    unfold stat_size. mstep.
    assert (Hst : packing (Stat p)).
    { split; [reflexivity | intros [s Hs]; discriminate]. }
    assert (Hearly : forall e, packing e -> early e).
    { intros e [He _]. unfold early. tauto. }
    assert (Hw2 : only early w w2).
    { eapply only_weaken; [exact Hearly |]. etransitivity; [exact Hw1 | exact Honly]. }
    destruct (fs w2 !! p) as [[ms | data |] |] eqn:Efs; try destruct Hkeep; mstep.
    + split; [reflexivity |]. split; [cbn [fs log with_fs]; now rewrite Efs |].
      apply only_log_r; [forall_list ltac:(unfold early; simpl; tauto) |].
      apply only_log_r; [forall_list ltac:(unfold early; simpl; tauto) | exact Hw2].
    + split; [reflexivity |]. split; [cbn [fs log with_fs]; now rewrite Efs |].
      apply only_log_r; [forall_list ltac:(unfold early; simpl; tauto) |].
      apply only_log_r; [forall_list ltac:(unfold early; simpl; tauto) | exact Hw2].
  - etransitivity; [exact Hw1 | exact Honly].
  - congruence.
Qed.

(** With the package in place, a deployment phase that ends does so by
    removing it: the outcome is that of the deployment, and the removal is
    the last event.  A deployment that does not end leaves the package
    where it is. *)
Lemma deploy_and_unlink_post (start_time : Q) (instance info : json) (p name : string)
    (w : World) :
  is_file (fs w !! p) ->
  exists r w1,
    deploy env start_time instance info p name w = (r, w1) /\
    is_file (fs w1 !! p) /\
    deploy_and_unlink env start_time instance info p name w
    = match r with
      | Diverge => (Diverge, w1)
      | _ => (r, with_fs (delete p (fs w1)) (log [Unlink p] w1))
      end.
Proof.
  intros Hfile.
  assert (Hkeep : keeps_file p w (deploy env start_time instance info p name w).2).
  { assert (H : respects (keeps_file p) (deploy env start_time instance info p name)).
    { unfold deploy. pose proof (run_on_instance_keeps_file env p info p name).
      pose proof (time_time_keeps_file env p). respects_auto. }
    apply H. }
  unfold deploy_and_unlink, try_finally.
  destruct (deploy env start_time instance info p name w) as [r w1]. cbn [fst snd] in *.
  specialize (Hkeep Hfile). exists r, w1. split; [reflexivity |].
  split; [exact Hkeep |].
  destruct r as [[] | e |]; [| | reflexivity]; unfold unlink; mstep;
    destruct (fs w1 !! p) as [[] |]; try destruct Hkeep; mstep; reflexivity.
Qed.

End Posts.

(** ** The course of a run *)

Lemma bind_inv {A B} (m : M A) (k : A -> M B) (w w' : World) (r : outcome B) :
  bind m k w = (r, w') ->
  (exists a w1, m w = (Ok a, w1) /\ k a w1 = (r, w')) \/
  (exists e, m w = (Raise e, w') /\ r = Raise e) \/
  (m w = (Diverge, w') /\ r = Diverge).
Proof.
  unfold bind. destruct (m w) as [[a | e |] w1]; intros E.
  - left. eauto.
  - right. left. injection E as <- <-. eauto.
  - right. right. injection E as <- <-. eauto.
Qed.

Lemma lift_inv {A} (x : res A) (w w' : World) (r : outcome A) :
  lift x w = (r, w') ->
  w' = w /\ r = match x with Val a => Ok a | Exc e => Raise e end.
Proof. destruct x; cbv [lift ret raise]; intros E; injection E as <- <-; auto. Qed.

Lemma in_phase_preparing (p : phase) (e : event) :
  p = Selecting \/ p = Creating \/ p = Waiting -> in_phase p e -> preparing e.
Proof.
  unfold in_phase, preparing, early. intros Hp He. split; [intuition congruence |].
  intros [s ->]. simpl in He. intuition congruence.
Qed.

Lemma packing_preparing (e : event) : packing e -> preparing e.
Proof. unfold packing, preparing, early. tauto. Qed.

Lemma preparing_early (e : event) : preparing e -> early e.
Proof. now intros [H _]. Qed.

Section Story.

Variable env : Env.

(** A run either stops before its package is complete, or it reaches
    the deployment phase with the package in place, and its outcome is
    that of the deployment phase. *)
Lemma run_body_story (fuel : nat) (start_time : Q) (project_path : string)
    (w w' : World) (r : outcome unit) :
  run_body env fuel start_time project_path w = (r, w') ->
  (r <> Ok tt /\ only preparing w w') \/
  (exists instance w0 info p w1,
     find_best_gpu env w = (Ok instance, w0) /\
     only early w w1 /\
     tmp_file env = Val p /\
     is_file (fs w1 !! p) /\
     deploy_and_unlink env start_time instance info p (Py.path_name project_path) w1
     = (r, w')).
Proof.
  intros E. unfold run_body in E.
  assert (Hsel : forall w1 w2 p, p = Selecting \/ p = Creating \/ p = Waiting ->
            only preparing w w1 -> only (in_phase p) w1 w2 -> only preparing w w2).
  { intros w1 w2 p Hp H1 H2. etransitivity; [exact H1 |]. revert H2.
    apply only_weaken. intros e. now apply in_phase_preparing. }
  assert (H0 : only preparing w w) by reflexivity.
  (* find_best_gpu *)
  pose proof (find_best_gpu_only env w) as H1.
  apply bind_inv in E as [(instance & w1 & E1 & E) | [(e & E1 & ->) | (E1 & ->)]];
    rewrite E1 in H1; cbn [snd] in H1;
    apply (Hsel _ _ Selecting ltac:(tauto) H0) in H1;
    [| left; split; [discriminate | exact H1] ..].
  (* instance["id"] *)
  apply bind_inv in E as [(offer_id & w1' & E2 & E) | [(e & E2 & ->) | (E2 & ->)]];
    [| left; split; [discriminate |] ..].
  2, 3: apply lift_inv in E2 as [-> _]; exact H1.
  apply lift_inv in E2 as [-> _].
  (* create_instance *)
  pose proof (create_instance_only env offer_id w1) as H2.
  apply bind_inv in E as [(c & w2 & E2 & E) | [(e & E2 & ->) | (E2 & ->)]];
    rewrite E2 in H2; cbn [snd] in H2;
    apply (Hsel _ _ Creating ltac:(tauto) H1) in H2;
    [| left; split; [discriminate | exact H2] ..].
  (* contract_id = ... *)
  unfold bind at 1, set_contract_id at 1 in E.
  match type of E with bind _ _ ?w3 = _ =>
    assert (H3 : only preparing w w3) by (destruct H2 as (evs & Ht & F); now exists evs);
    pose proof (wait_for_instance_only env fuel c w3) as H4
  end.
  (* wait_for_instance *)
  apply bind_inv in E as [(info & w4 & E4 & E) | [(e & E4 & ->) | (E4 & ->)]];
    rewrite E4 in H4; cbn [snd] in H4;
    apply (Hsel _ _ Waiting ltac:(tauto) H3) in H4;
    [| left; split; [discriminate | exact H4] ..].
  (* package_project *)
  pose proof (package_project_post env project_path w4) as H5.
  apply bind_inv in E as [(p & w5 & E5 & E) | [(e & E5 & ->) | (E5 & ->)]];
    rewrite E5 in H5; [| | destruct H5].
  - destruct H5 as (Htmp & Hfile & Hearly). right.
    exists instance, w1, info, p, w5. split; [exact E1 |]. split; [| auto].
    etransitivity; [| exact Hearly]. revert H4. apply only_weaken, preparing_early.
  - left. split; [discriminate |].
    etransitivity; [exact H4 |]. revert H5. apply only_weaken, packing_preparing.
Qed.

End Story.

(** ** Teardown *)

Lemma try_finally_inv {A} (body : M A) (cleanup : M unit) (w w' : World) (r : outcome A) :
  try_finally body cleanup w = (r, w') ->
  exists rb wb,
    body w = (rb, wb) /\
    ((rb = Diverge /\ r = Diverge /\ w' = wb) \/
     (rb <> Diverge /\
      exists rc, cleanup wb = (rc, w') /\
                 r = match rc with Ok _ => rb | Raise e => Raise e | Diverge => Diverge end)).
Proof.
  unfold try_finally. destruct (body w) as [rb wb]. intros E. exists rb, wb.
  split; [reflexivity |].
  destruct rb as [a | e |].
  - right. split; [discriminate |].
    destruct (cleanup wb) as [[[] | e' |] w2]; injection E as <- <-; eexists; eauto.
  - right. split; [discriminate |].
    destruct (cleanup wb) as [[[] | e' |] w2]; injection E as <- <-; eexists; eauto.
  - left. injection E as <- <-. auto.
Qed.

Section Teardown.

Variable env : Env.

(** The cleanup of [run] when the contract id is truthy. *)
Lemma run_cleanup_destroys (w : World) :
  Py.truthy (run_contract_id w) = true ->
  run_cleanup env w =
  match cli_outcome (vastai env (cli_calls w) (destroy_cmd (run_contract_id w))) with
  | Ok _ => (Ok tt, log [Print MsgDestroyed]
                      (issue (destroy_cmd (run_contract_id w))
                         (log [Print (MsgDestroying (run_contract_id w))] w)))
  | Raise e => (Raise e, issue (destroy_cmd (run_contract_id w))
                           (log [Print (MsgDestroying (run_contract_id w))] w))
  | Diverge => (Diverge, issue (destroy_cmd (run_contract_id w))
                           (log [Print (MsgDestroying (run_contract_id w))] w))
  end.
Proof.
  intros Ht. unfold run_cleanup, bind at 1, get_contract_id at 1. rewrite Ht.
  unfold destroy_instance. rewrite bind_print; cbv beta.
  unfold bind at 1. rewrite run_vastai_cmd_spec. cbn [cli_calls log].
  destruct (vastai env (cli_calls w) (destroy_cmd (run_contract_id w))); reflexivity.
Qed.

(** The cleanup of [run] when the contract id is falsy: nothing. *)
Lemma run_cleanup_skips (w : World) :
  Py.truthy (run_contract_id w) = false -> run_cleanup env w = (Ok tt, w).
Proof. intros Ht. unfold run_cleanup, bind at 1, get_contract_id at 1. now rewrite Ht. Qed.

End Teardown.

(** C2, as amended.  A failure of the destroy call made during cleanup is
    neither logged nor swallowed.  Whatever the outcome of the job was, a
    success or a failure, the run then ends with the [RuntimeError] of the
    failed command, and its last events are the announcement of the
    teardown and the call itself. *)
Theorem teardown_failure_propagates (env : Env) (fuel : nat) (project_path : string)
    (w wb : World) (rb : outcome unit) (stderr : string) :
  run_body env fuel (clock env (clock_reads w)) project_path (started w) = (rb, wb) ->
  rb <> Diverge ->
  Py.truthy (run_contract_id wb) = true ->
  vastai env (cli_calls wb) (destroy_cmd (run_contract_id wb)) = CliFailed stderr ->
  run env fuel project_path w =
  (Raise (RuntimeError ("vastai command failed: " +:+ stderr)),
   issue (destroy_cmd (run_contract_id wb))
     (log [Print (MsgDestroying (run_contract_id wb))] wb)).
Proof.
  intros Eb Hb Ht Hfail. rewrite run_unfold. unfold try_finally. rewrite Eb.
  rewrite (run_cleanup_destroys env wb Ht), Hfail. simpl.
  destruct rb; [reflexivity | reflexivity | congruence].
Qed.

(** The job succeeds, the teardown is refused, and the run ends with the
    error of the teardown: from the theorem. *)
Lemma teardown_failure_propagates_witness :
  played scenario_teardown_fails =
  (Raise (RuntimeError ("vastai command failed: " +:+ "error 404: no such instance")),
   issue (destroy_cmd (run_contract_id (body_played scenario_teardown_fails).2))
     (log [Print (MsgDestroying (run_contract_id (body_played scenario_teardown_fails).2))]
          (body_played scenario_teardown_fails).2)).
Proof.
  unfold played, body_played.
  apply (teardown_failure_propagates scenario_teardown_fails 10 "/home/user/proj" (start ∅)
           _ (Ok tt) "error 404: no such instance").
  - vm_compute. reflexivity.
  - discriminate.
  - vm_compute. reflexivity.
  - vm_compute. reflexivity.
Defined.

(** C2 as stated fails: a refused teardown replaces the result of a
    successful job, and after a failed job it replaces the error of the
    job; in both cases the run raises. *)
Lemma teardown_failure_masks_outcome :
  (body_played scenario_teardown_fails).1 = Ok tt /\
  (played scenario_teardown_fails).1
  = Raise (RuntimeError "vastai command failed: error 404: no such instance") /\
  (body_played scenario_both_fail).1 = Raise (RuntimeError "Training failed") /\
  (played scenario_both_fail).1
  = Raise (RuntimeError "vastai command failed: error 404: no such instance").
Proof. repeat split; vm_compute; reflexivity. Qed.

(** ** The package *)

Lemma only_trace_nil (P : event -> Prop) (w w' : World) (e : event) :
  trace w = [] -> only P w w' -> e ∈ trace w' -> P e.
Proof.
  intros Hnil Ho Hin. destruct (only_elem_of P w w' e Ho Hin) as [H | H]; [| exact H].
  rewrite Hnil in H. inversion H.
Qed.

Lemma only_subseteq (P : event -> Prop) (w w' : World) (e : event) :
  only P w w' -> e ∈ trace w -> e ∈ trace w'.
Proof. intros (evs & E & _) Hin. rewrite E. apply elem_of_app. now left. Qed.

(** Once the package exists, a deployment phase that ends does so by
    removing the package: its outcome is that of the deployment, the removal
    is its last event and the package file is absent afterwards.  In a run
    that ends, whenever [package_project] has completed, the package has
    been removed. *)
Lemma package_removed_after_deployment (env : Env) :
  (forall start_time instance instance_info package_path project_name w r w',
     is_file (fs w !! package_path) ->
     deploy_and_unlink env start_time instance instance_info package_path project_name w
     = (r, w') ->
     r <> Diverge ->
     exists w1,
       deploy env start_time instance instance_info package_path project_name w = (r, w1) /\
       w' = with_fs (delete package_path (fs w1)) (log [Unlink package_path] w1) /\
       fs w' !! package_path = None) /\
  (forall fuel project_path f r w size_mb,
     run env fuel project_path (start f) = (r, w) ->
     r <> Diverge ->
     Print (MsgPackaged size_mb) ∈ trace w ->
     exists package_path,
       tmp_file env = Val package_path /\
       Unlink package_path ∈ trace w /\
       fs w !! package_path = None).
Proof.
  split.
  - intros start_time instance info p name w r w' Hfile E Hr.
    destruct (deploy_and_unlink_post env start_time instance info p name w Hfile)
      as (r1 & w1 & E1 & _ & Eu).
    rewrite E in Eu.
    assert (r1 = r /\ w' = with_fs (delete p (fs w1)) (log [Unlink p] w1)) as [-> ->].
    { destruct r1; injection Eu as -> ->; [auto | auto | congruence]. }
    exists w1. split; [exact E1 |]. split; [reflexivity |].
    simpl. apply lookup_delete_eq.
  - intros fuel project_path f r w size_mb E Hr Hin.
    rewrite run_unfold in E.
    apply try_finally_inv in E as (rb & wb & Eb & Hcases).
    assert (Hnot : forall w', only preparing (started (start f)) w' ->
                              ~ Print (MsgPackaged size_mb) ∈ trace w').
    { intros w' Ho Hin'.
      destruct (only_trace_nil preparing (started (start f)) w' _ eq_refl Ho Hin') as [_ Hn].
      apply Hn. now exists size_mb. }
    assert (Hdes : forall w1 w2, only (in_phase Destroying) w1 w2 ->
                                 Print (MsgPackaged size_mb) ∈ trace w2 ->
                                 Print (MsgPackaged size_mb) ∈ trace w1).
    { intros w1 w2 Ho Hin'.
      destruct (only_elem_of _ _ _ _ Ho Hin') as [H | H]; [exact H | discriminate H]. }
    destruct Hcases as [(_ & -> & _) | (Hrb & rc & Ec & ->)]; [congruence |].
    apply run_body_story in Eb
      as [[_ Hprep] | (instance & w0 & info & p & w1 & _ & _ & Htmp & Hfile & Ed)].
    + exfalso. apply (Hnot wb Hprep). apply (Hdes wb w); [| exact Hin].
      pose proof (run_cleanup_only env wb) as H. now rewrite Ec in H.
    + destruct (deploy_and_unlink_post env (clock env (clock_reads (start f))) instance info p
                  (Py.path_name project_path) w1 Hfile) as (rd & w2 & _ & _ & Eu).
      rewrite Ed in Eu.
      assert (wb = with_fs (delete p (fs w2)) (log [Unlink p] w2)) as ->.
      { destruct rd; injection Eu as -> ->; [reflexivity | reflexivity | congruence]. }
      pose proof (run_cleanup_only env) as Ho.
      pose proof (run_cleanup_same_fs env) as Hfs.
      match type of Ec with run_cleanup env ?wb = _ =>
        specialize (Ho wb); specialize (Hfs wb)
      end.
      rewrite Ec in Ho, Hfs. cbn [fst snd] in *.
      exists p. split; [exact Htmp |]. split.
      * eapply only_subseteq; [exact Ho |]. simpl.
        rewrite elem_of_app, list_elem_of_singleton. auto.
      * rewrite Hfs. simpl. apply lookup_delete_eq.
Qed.

(** C7 at its failing input.  Adding [src] to the archive fails, so
    [package_project] raises after it has made its temporary file and
    before the [try] of the deployment is entered: the run ends with the
    error of the packaging, the temporary archive is still on disk then,
    and the run never tried to remove it. *)
Theorem failed_packaging_keeps_the_package :
  (played scenario_unreadable_source).1 = Raise (OSError "permission denied") /\
  MkTemp "/tmp/tmpabc.tar.gz" ∈ trace (played scenario_unreadable_source).2 /\
  is_file (fs (played scenario_unreadable_source).2 !! "/tmp/tmpabc.tar.gz") /\
  Forall (fun e => e <> Unlink "/tmp/tmpabc.tar.gz") (trace (played scenario_unreadable_source).2) /\
  last (trace (played scenario_unreadable_source).2) = Some (Print MsgDestroyed).
Proof.
  split; [vm_compute; reflexivity |].
  split; [apply list_elem_of_In; vm_compute; repeat (first [left; reflexivity | right]) |].
  split; [vm_compute; exact I |].
  split; [| vm_compute; reflexivity].
  vm_compute. forall_list ltac:(discriminate).
Qed.

(** ** The cost *)

Section Cost.

Variable env : Env.

(** An offer that [select_best] returns has a numeric hourly price. *)
Lemma select_best_priced (j o : json) (w w' : World) :
  select_best j w = (Ok o, w') -> exists price, hourly_price o = Some price.
Proof.
  unfold select_best. intros E.
  apply bind_inv in E as [(? & w1 & _ & E) | [(e & _ & H) | (_ & H)]]; try discriminate H.
  apply bind_inv in E as [(best & w2 & _ & E) | [(e & _ & H) | (_ & H)]]; try discriminate H.
  apply bind_inv in E as [(? & w3 & _ & E) | [(e & _ & H) | (_ & H)]]; try discriminate H.
  apply bind_inv in E as [(? & w4 & _ & E) | [(e & _ & H) | (_ & H)]]; try discriminate H.
  apply bind_inv in E as [(? & w5 & _ & E) | [(e & _ & H) | (_ & H)]]; try discriminate H.
  apply bind_inv in E as [(? & w6 & _ & E) | [(e & _ & H) | (_ & H)]]; try discriminate H.
  apply bind_inv in E as [(dph & w7 & Ed & E) | [(e & _ & H) | (_ & H)]]; try discriminate H.
  apply bind_inv in E as [(? & w8 & _ & E) | [(e & _ & H) | (_ & H)]]; try discriminate H.
  injection E as <- _.
  apply lift_inv in Ed as [_ Ed]. unfold hourly_price.
  destruct (Py.getitem best "dph_total") as [v | e]; [| discriminate Ed].
  simpl in Ed. unfold Py.format_float in Ed.
  destruct (Py.to_float v) as [q | e'] eqn:Ef; [eauto |].
  destruct v; try discriminate Ed; discriminate Ef.
Qed.

Lemma find_best_gpu_priced (o : json) (w w' : World) :
  find_best_gpu env w = (Ok o, w') -> exists price, hourly_price o = Some price.
Proof.
  unfold find_best_gpu. intros E.
  apply bind_inv in E as [(? & w1 & _ & E) | [(e & _ & H) | (_ & H)]]; try discriminate H.
  apply bind_inv in E as [(? & w2 & _ & E) | [(e & _ & H) | (_ & H)]]; try discriminate H.
  apply bind_inv in E as [(? & w3 & _ & E) | [(e & _ & H) | (_ & H)]]; try discriminate H.
  apply bind_inv in E as [(? & w4 & _ & E) | [(e & _ & H) | (_ & H)]]; try discriminate H.
  apply bind_inv in E as [(j & w5 & _ & E) | [(e & _ & H) | (_ & H)]]; try discriminate H.
  now apply select_best_priced in E.
Qed.

(** The cost is computed and reported when [run_on_instance] returns,
    and only then. *)
Lemma deploy_post (start_time : Q) (instance info : json) (p name : string) (w : World)
    (price : Q) :
  hourly_price instance = Some price ->
  exists ro w1,
    run_on_instance env info p name w = (ro, w1) /\
    deploy env start_time instance info p name w =
    match ro with
    | Ok _ => (Ok tt, log [Print (MsgCost (cost_of start_time (clock env (clock_reads w1)) price))]
                          (tick w1))
    | Raise e => (Raise e, w1)
    | Diverge => (Diverge, w1)
    end.
Proof.
  intros Hprice. unfold hourly_price in Hprice.
  destruct (run_on_instance env info p name w) as [[[] | e |] w1] eqn:Er;
    eexists _, w1; (split; [reflexivity |]); unfold deploy.
  - rewrite (bind_Ok _ _ _ _ _ Er), bind_time_time.
    destruct (Py.getitem instance "dph_total") as [v | e]; [| discriminate Hprice].
    cbn [res_bind]. unfold Py.float_mul.
    destruct (Py.to_float v) as [q | e]; [| discriminate Hprice].
    injection Hprice as ->. reflexivity.
  - now rewrite (bind_Raise _ _ _ _ _ Er).
  - now rewrite (bind_Diverge _ _ _ _ Er).
Qed.

End Cost.

Lemma costs_app (a b : list event) : costs (a ++ b) = costs a ++ costs b.
Proof. apply flat_map_app. Qed.

(** Events of a kind that is no cost line leave the reported costs as
    they are. *)
Lemma costs_only (P : event -> Prop) (w w' : World) :
  (forall e, P e -> ~ is_cost e) -> only P w w' -> costs (trace w') = costs (trace w).
Proof.
  intros HP (evs & -> & F). rewrite costs_app.
  assert (H : costs evs = []); [| now rewrite H, app_nil_r].
  induction F as [| e evs He _ IH]; [reflexivity |].
  change (costs (e :: evs))
    with ((match e with Print (MsgCost cost) => [cost] | _ => [] end) ++ costs evs).
  rewrite IH, app_nil_r.
  destruct e; try reflexivity.
  match goal with |- context [match ?m with _ => _ end] => destruct m; try reflexivity end.
  exfalso. apply (HP _ He). eexists. reflexivity.
Qed.




(** The job succeeds and the teardown is refused: the run raises, and the
    cost of the job was reported. *)
Example cost_is_reported_before_a_failed_teardown :
  (played scenario_teardown_fails).1
  = Raise (RuntimeError "vastai command failed: error 404: no such instance") /\
  map Qred (costs (trace (played scenario_teardown_fails).2)) = [10%Q].
Proof. split; vm_compute; reflexivity. Qed.

(** ** The teardown guard *)

Lemma Forall_forallb_false {A} (f : A -> bool) (l : list A) :
  forallb (fun x => negb (f x)) l = true -> Forall (fun x => f x = false) l.
Proof.
  intros H. apply Forall_forall. intros x Hx. apply negb_true_iff.
  apply (proj1 (forallb_forall _ l) H). now apply list_elem_of_In.
Qed.

(** C1 at its failing input.  The marketplace gives the new instance the
    contract id 0: the instance is created and becomes running, the run ends
    normally with the removal of the package as its last event, and no
    destroy command is ever issued, because [if contract_id:] takes 0 for
    "no instance". *)
Theorem contract_zero_is_never_destroyed :
  (played scenario_contract_zero).1 = Ok tt /\
  Print (MsgCreated (JInt 0)) ∈ trace (played scenario_contract_zero).2 /\
  Print MsgReady ∈ trace (played scenario_contract_zero).2 /\
  Forall (fun e => destroys e = false) (trace (played scenario_contract_zero).2) /\
  last (trace (played scenario_contract_zero).2) = Some (Unlink "/tmp/tmpabc.tar.gz").
Proof.
  split; [vm_compute; reflexivity |].
  split; [apply list_elem_of_In; vm_compute; repeat (first [left; reflexivity | right]) |].
  split; [apply list_elem_of_In; vm_compute; repeat (first [left; reflexivity | right]) |].
  split; [apply Forall_forallb_false |]; vm_compute; reflexivity.
Qed.

(** C5 at its failing input.  With the contract id 0 and a training that
    exits with status 1, the run raises "Training failed" and collects no
    artifact: after the training command there are only its two output
    lines, the end of the session and the removal of the package.  The
    instance was created and is not destroyed. *)
Theorem failed_training_with_contract_zero :
  (played scenario_contract_zero_d).1 = Raise (RuntimeError "Training failed") /\
  Print (MsgCreated (JInt 0)) ∈ trace (played scenario_contract_zero_d).2 /\
  (exists before,
     trace (played scenario_contract_zero_d).2 =
     before ++ [SshExec "cd /root/proj && python train.py" true;
                Print (MsgLine "epoch 1"); Print (MsgLine "epoch 2");
                SshClose; Unlink "/tmp/tmpabc.tar.gz"]) /\
  Forall (fun e => collects e = false) (trace (played scenario_contract_zero_d).2) /\
  Forall (fun e => destroys e = false) (trace (played scenario_contract_zero_d).2).
Proof.
  split; [vm_compute; reflexivity |].
  split; [apply list_elem_of_In; vm_compute; repeat (first [left; reflexivity | right]) |].
  split.
  { exists (take (length (trace (played scenario_contract_zero_d).2) - 5)
                 (trace (played scenario_contract_zero_d).2)).
    vm_compute. reflexivity. }
  split; apply Forall_forallb_false; vm_compute; reflexivity.
Qed.

(** ** The teardown of a created instance *)

Lemma in_phase_working (p : phase) (e : event) :
  p <> Destroying -> p <> Creating -> in_phase p e -> working e.
Proof.
  unfold in_phase, working, destroys. intros Hd Hc He. rewrite He. split.
  - now destruct p.
  - intros [c ->]. simpl in He. congruence.
Qed.

Lemma respects_working {A} (p : phase) (m : M A) :
  p <> Destroying -> p <> Creating -> respects (only (in_phase p)) m -> respects (only working) m.
Proof.
  intros Hd Hc. apply respects_weaken. intros w w'. apply only_weaken.
  intros e. now apply in_phase_working.
Qed.

Section Created.

Variable env : Env.

(** [create_instance] reports the new contract as its last step: it returns
    what it reported, and when it raises it has reported nothing. *)
Lemma create_instance_post (instance_id : json) (w : World) :
  match create_instance env instance_id w with
  | (Ok c, w') =>
      exists cmd, trace w' = trace w ++ [Print MsgCreating; Vastai cmd; Print (MsgCreated c)]
                  /\ verb cmd = "create"
                  /\ run_contract_id w' = run_contract_id w
  | (_, w') => only working w w'
  end.
Proof.
  unfold create_instance. rewrite bind_print; cbv beta.
  unfold bind at 1. rewrite run_vastai_cmd_spec.
  assert (H1 : working (Print MsgCreating)).
  { split; [reflexivity | intros [c H]; discriminate]. }
  assert (H2 : forall cmd, verb cmd = "create" -> working (Vastai cmd)).
  { intros cmd Hv. split; [unfold destroys; simpl; now rewrite Hv |].
    intros [c H]; discriminate. }
  match goal with |- context [issue ?cmd _] =>
    assert (Hw : only working w (issue cmd (log [Print MsgCreating] w)))
      by (exists [Print MsgCreating; Vastai cmd]; split;
          [simpl; now rewrite <- app_assoc | forall_list ltac:(auto)])
  end.
  destruct (cli_outcome _) as [result | e |]; [| exact Hw ..].
  destruct (Py.getitem result "new_contract") as [c | e]; mstep; [| exact Hw].
  eexists. split; [simpl; now rewrite <- !app_assoc | split; reflexivity].
Qed.

Lemma deploy_and_unlink_working start_time instance info p name :
  respects (only working) (deploy_and_unlink env start_time instance info p name).
Proof.
  unfold deploy_and_unlink, deploy.
  apply respects_try_finally; [typeclasses eauto | |].
  - apply respects_bind; [typeclasses eauto | | intros _].
    { apply (respects_working Deploying); [discriminate .. | apply run_on_instance_only]. }
    apply respects_bind; [typeclasses eauto | apply time_time_silent | intros now].
    apply respects_bind; [typeclasses eauto | apply respects_lift; typeclasses eauto | intros c].
    apply only_emit. split; [reflexivity | intros [c' H]; discriminate].
  - apply (respects_working Unlinking); [discriminate .. | apply unlink_only].
Qed.

Lemma deploy_and_unlink_same_contract start_time instance info p name :
  respects same_contract (deploy_and_unlink env start_time instance info p name).
Proof.
  unfold deploy_and_unlink, deploy.
  pose proof (run_on_instance_same_contract env info p name).
  pose proof (time_time_same_contract env).
  pose proof (unlink_same_contract p).
  respects_auto.
Qed.

(** After the contract is stored, the rest of the body neither changes it
    nor reports another one. *)
Lemma after_creation (fuel : nat) (start_time : Q) (instance : json) (project_path : string)
    (c : json) :
  let rest :=
    bind (wait_for_instance env fuel c) (fun instance_info =>
      bind (package_project env project_path) (fun package_path =>
        deploy_and_unlink env start_time instance instance_info package_path
                          (Py.path_name project_path))) in
  respects (only working) rest /\ respects same_contract rest.
Proof.
  split.
  - apply respects_bind; [typeclasses eauto | | intros info].
    { apply (respects_working Waiting); [discriminate .. | apply wait_for_instance_only]. }
    apply respects_bind; [typeclasses eauto | | intros p].
    { apply (respects_working Packaging); [discriminate .. | apply package_project_only]. }
    apply deploy_and_unlink_working.
  - apply respects_bind; [typeclasses eauto | apply wait_for_instance_same_contract | intros info].
    apply respects_bind; [typeclasses eauto | apply package_project_same_contract | intros p].
    apply deploy_and_unlink_same_contract.
Qed.

(** The body of a run issues no teardown event, and the contract it
    reports, if any, is the one it leaves in [contract_id]. *)
Lemma run_body_contract (fuel : nat) (start_time : Q) (project_path : string)
    (w w' : World) (r : outcome unit) :
  run_body env fuel start_time project_path w = (r, w') ->
  exists evs,
    trace w' = trace w ++ evs /\
    Forall (fun e => destroys e = false) evs /\
    forall c, Print (MsgCreated c) ∈ evs -> run_contract_id w' = c.
Proof.
  intros E. unfold run_body in E.
  assert (Hstop : forall w1, only working w w1 ->
            exists evs, trace w1 = trace w ++ evs /\
                        Forall (fun e => destroys e = false) evs /\
                        forall c, Print (MsgCreated c) ∈ evs -> run_contract_id w1 = c).
  { intros w1 (evs & Et & F). exists evs. split; [exact Et |]. split.
    - eapply Forall_impl; [exact F |]. now intros e [He _].
    - intros c Hin. rewrite Forall_forall in F. destruct (F _ Hin) as [_ Hn].
      exfalso. apply Hn. now exists c. }
  pose proof (respects_working Selecting (find_best_gpu env) ltac:(discriminate)
                ltac:(discriminate) (find_best_gpu_only env) w) as H1.
  apply bind_inv in E as [(instance & w1 & E1 & E) | [(e & E1 & ->) | (E1 & ->)]];
    rewrite E1 in H1; cbn [snd] in H1; [| now apply Hstop ..].
  apply bind_inv in E as [(offer_id & w1' & E2 & E) | [(e & E2 & ->) | (E2 & ->)]];
    apply lift_inv in E2 as [-> _]; [| now apply Hstop ..].
  pose proof (create_instance_post offer_id w1) as H2.
  apply bind_inv in E as [(c & w2 & E2 & E) | [(e & E2 & ->) | (E2 & ->)]];
    rewrite E2 in H2; [| apply Hstop; now transitivity w1 ..].
  destruct H2 as (cmd & Ht2 & Hverb & _).
  unfold bind at 1, set_contract_id at 1 in E.
  destruct (after_creation fuel start_time instance project_path c) as [Ho Hc].
  match type of E with ?rest ?w3 = _ =>
    specialize (Ho w3); specialize (Hc w3); rewrite E in Ho, Hc
  end.
  cbn [snd] in Ho, Hc. unfold same_contract in Hc. cbn [run_contract_id] in Hc.
  destruct H1 as (evs1 & Et1 & F1). destruct Ho as (evs3 & Et3 & F3).
  cbn [trace] in Et3.
  exists (evs1 ++ [Print MsgCreating; Vastai cmd; Print (MsgCreated c)] ++ evs3).
  split; [rewrite Et3, Ht2, Et1; now rewrite <- !app_assoc |]. split.
  - apply Forall_app. split; [eapply Forall_impl; [exact F1 |]; now intros e [He _] |].
    apply Forall_app. split.
    + apply List.Forall_cons; [reflexivity |].
      apply List.Forall_cons; [unfold destroys; simpl; now rewrite Hverb |].
      apply List.Forall_cons; [reflexivity | apply List.Forall_nil].
    + eapply Forall_impl; [exact F3 |]. now intros e [He _].
  - intros c' Hin. rewrite Hc. rewrite !elem_of_app in Hin.
    destruct Hin as [Hin | [Hin | Hin]].
    + rewrite Forall_forall in F1. destruct (F1 _ Hin) as [_ Hn]. exfalso. apply Hn. now exists c'.
    + rewrite !elem_of_cons in Hin. destruct Hin as [Hin | [Hin | [Hin | Hin]]];
        try discriminate Hin; [now injection Hin | inversion Hin].
    + rewrite Forall_forall in F3. destruct (F3 _ Hin) as [_ Hn]. exfalso. apply Hn. now exists c'.
Qed.

End Created.


(** ** A failed training *)

Lemma for_each_print {A} (xs : list A) (msg : A -> message) (w : World) :
  for_each xs (fun x => print (msg x)) w = (Ok tt, log (map (fun x => Print (msg x)) xs) w).
Proof.
  revert w. induction xs as [| x xs IH]; intros w; simpl.
  - now rewrite log_nil.
  - rewrite bind_print. cbv beta. now rewrite IH, log_log.
Qed.

(** One step of a computation that issues no interactive command. *)
Ltac quiet_step E H :=
  match type of E with
  | bind ?m _ ?w1 = _ =>
      let Hm := fresh "Hm" in
      assert (Hm : respects (only (fun e => interactive e = false)) m)
        by (unfold scp_put_file, exec_command; respects_auto);
      specialize (Hm w1);
      let a := fresh "a" in
      let w2 := fresh "w" in
      let Em := fresh "Em" in
      let e := fresh "e" in
      apply bind_inv in E as [(a & w2 & Em & E) | [(e & Em & ->) | (Em & ->)]];
      rewrite Em in Hm; cbn [snd] in Hm;
      [ | left; split; [etransitivity; [exact H | exact Hm] | intros ?; discriminate] ..];
      apply (transitivity H) in Hm; clear H Em; rename Hm into H
  end.

Section Training.

Variable env : Env.

(** [train] either stops before the training command, or it issues that
    command, streams its output and returns or raises by its exit
    status; a training that never exits keeps it streaming. *)
Lemma train_inv (package_path project_name : string) (w w' : World) (r : outcome string) :
  train env package_path project_name w = (r, w') ->
  (only (fun e => interactive e = false) w w' /\ forall dir, r <> Ok dir) \/
  (exists dir w1,
     only (fun e => interactive e = false) w w1 /\
     match ssh_exec env (training_command dir) with
     | ExecRaises e => r = Raise e /\ w' = log [SshExec (training_command dir) true] w1
     | ExecBlocks out =>
         r = Diverge /\
         w' = log (SshExec (training_command dir) true :: partial_output_events out) w1
     | ExecDone out err status =>
         if Z.eqb status 0
         then r = Ok dir /\
              w' = log (SshExec (training_command dir) true :: output_events out
                        ++ [Print MsgCompleted]) w1
         else r = Raise (RuntimeError "Training failed") /\
              w' = log (SshExec (training_command dir) true :: output_events out) w1
     end).
Proof.
  intros E. unfold train in E.
  assert (H : only (fun e => interactive e = false) w w) by reflexivity.
  do 7 quiet_step E H. cbv zeta in E. do 4 quiet_step E H.
  match type of E with
  | bind (stream_command env (training_command ?d)) _ ?wl = _ =>
      right; exists d, wl; split; [exact H |];
      unfold stream_command in E; rewrite bind_assoc, bind_emit in E; cbv beta in E;
      destruct (ssh_exec env (training_command d)) as [out err status | e | out]
  end.
  - rewrite bind_assoc in E.
    unfold bind at 1 in E. rewrite for_each_print in E. rewrite log_log in E.
    rewrite bind_ret in E.
    destruct (Z.eqb status 0); simpl negb in E; cbv iota in E.
    + rewrite bind_ret, bind_print in E. cbv beta in E. rewrite log_log in E.
      injection E as <- <-. split; reflexivity.
    + rewrite bind_raise in E. injection E as <- <-. split; reflexivity.
  - rewrite bind_raise in E. injection E as <- <-. split; reflexivity.
  - rewrite bind_assoc in E.
    unfold bind at 1 in E. rewrite for_each_print in E. rewrite log_log in E.
    unfold bind, diverge in E. injection E as <- <-. split; reflexivity.
Qed.

End Training.

Lemma quiet_not_interactive (l : list event) (cmd : string) :
  Forall (fun e => interactive e = false) l -> ~ SshExec cmd true ∈ l.
Proof. intros F Hin. rewrite Forall_forall in F. specialize (F _ Hin). discriminate F. Qed.

Section FailedTraining.

Variable env : Env.

Lemma find_model_files_quiet dir ps acc :
  respects (only (fun e => interactive e = false)) (find_model_files env dir ps acc).
Proof.
  revert acc. induction ps as [| p ps IH]; intros acc; simpl.
  - respects_auto.
  - unfold exec_command. respects_auto.
Qed.

Lemma download_artifacts_quiet dir :
  respects (only (fun e => interactive e = false)) (download_artifacts env dir).
Proof.
  pose proof (find_model_files_quiet dir).
  pose proof (time_time_silent env (fun e => interactive e = false)).
  unfold download_artifacts, download_all, mkdir_exist_ok, scp_get_file. respects_auto.
Qed.

(** X14.  What the code does when the training fails.  If the training command
    exits with a nonzero status, [run_on_instance] raises "Training failed",
    and after the training command there are only its output lines and the
    end of the session: no artifact is searched for or downloaded. *)
Lemma failed_training_skips_artifacts (info : json) (p name : string) (w w' : World)
    (r : outcome unit) (cmd out err : string) (status : Z) :
  run_on_instance env info p name w = (r, w') ->
  Forall (fun e => interactive e = false) (trace w) ->
  SshExec cmd true ∈ trace w' ->
  ssh_exec env cmd = ExecDone out err status ->
  status <> 0%Z ->
  r = Raise (RuntimeError "Training failed") /\
  exists before,
    trace w' = before ++ SshExec cmd true :: output_events out ++ [SshClose] /\
    Forall (fun e => interactive e = false) before.
Proof.
  intros E Fw Hin Hcmd Hst. unfold run_on_instance in E.
  assert (Hq : forall w1, only (fun e => interactive e = false) w w1 ->
                 Forall (fun e => interactive e = false) (trace w1)).
  { intros w1 (evs & Et & F). rewrite Et. now apply Forall_app. }
  assert (Hstop : forall (w1 : World), only (fun e => interactive e = false) w w1 -> w' = w1 ->
            r = Raise (RuntimeError "Training failed") /\
            exists before,
              trace w' = before ++ SshExec cmd true :: output_events out ++ [SshClose] /\
              Forall (fun e => interactive e = false) before).
  { intros w1 Ho ->. exfalso. exact (quiet_not_interactive _ cmd (Hq _ Ho) Hin). }
  assert (H : only (fun e => interactive e = false) w w) by reflexivity.
  assert (Hgoal : forall w0, only (fun e => interactive e = false) w w0 ->
            try_finally
              (bind (train env p name) (fun dir => download_artifacts env dir))
              (emit SshClose) w0 = (r, w') ->
            r = Raise (RuntimeError "Training failed") /\
            exists before,
              trace w' = before ++ SshExec cmd true :: output_events out ++ [SshClose] /\
              Forall (fun e => interactive e = false) before).
  { clear E H. intros w0 H E.
    apply try_finally_inv in E as (rb & wb & Eb & Hcases).
    assert (Hinb : SshExec cmd true ∈ trace wb).
    { destruct Hcases as [(_ & _ & ->) | (_ & rc & Ec & _)]; [exact Hin |].
      injection Ec as _ <-. cbn [trace log] in Hin.
      apply elem_of_app in Hin as [Hin | Hin]; [exact Hin |].
      apply list_elem_of_singleton in Hin; discriminate Hin. }
    clear Hin.
    assert (Hbody : rb = Raise (RuntimeError "Training failed") /\
                    exists before,
                      trace wb = before ++ SshExec cmd true :: output_events out /\
                      Forall (fun e => interactive e = false) before).
    { apply bind_inv in Eb as [(dir & w1 & Et & Ed) | [(e & Et & ->) | (Et & ->)]].
      - (* the training returned *)
        pose proof (download_artifacts_quiet dir w1) as Hd.
        rewrite Ed in Hd. cbn [snd] in Hd. destruct Hd as (evd & Etd & Fd).
        apply train_inv in Et as [[Ht Hr] | (dir' & wl & Hl & Hm)];
          [now specialize (Hr dir) |].
        destruct (ssh_exec env (training_command dir')) as [out' err' status' | e | out'] eqn:Ex;
          [| destruct Hm as [Hm _]; discriminate Hm ..].
        destruct (Z.eqb status' 0) eqn:Ez; [| destruct Hm as [Hm _]; discriminate Hm].
        destruct Hm as [_ ->]. exfalso.
        rewrite Etd in Hinb. cbn [trace log] in Hinb.
        rewrite !elem_of_app, !elem_of_cons, !elem_of_app, list_elem_of_singleton in Hinb.
        destruct Hinb as [[Hin | [Hin | [Hin | Hin]]] | Hin].
        + exact (quiet_not_interactive _ cmd (Hq _ (transitivity H Hl)) Hin).
        + injection Hin as ->. rewrite Ex in Hcmd. injection Hcmd as _ _ <-.
          apply Z.eqb_eq in Ez. contradiction.
        + unfold output_events in Hin. apply list_elem_of_fmap in Hin as (l & Hl' & _).
          discriminate Hl'.
        + discriminate Hin.
        + exact (quiet_not_interactive _ cmd Fd Hin).
      - (* the training raised *)
        apply train_inv in Et as [[Ht Hr] | (dir' & wl & Hl & Hm)].
        { exfalso. exact (quiet_not_interactive _ cmd (Hq _ (transitivity H Ht)) Hinb). }
        destruct (ssh_exec env (training_command dir')) as [out' err' status' | e' | out'] eqn:Ex.
        + destruct (Z.eqb status' 0) eqn:Ez; [destruct Hm as [Hm _]; discriminate Hm |].
          destruct Hm as [Hm ->]. injection Hm as ->. cbn [trace log] in Hinb |- *.
          rewrite elem_of_app, elem_of_cons in Hinb.
          destruct Hinb as [Hin | [Hin | Hin]].
          * exfalso. exact (quiet_not_interactive _ cmd (Hq _ (transitivity H Hl)) Hin).
          * injection Hin as ->. rewrite Ex in Hcmd. injection Hcmd as <- _ _.
            split; [reflexivity |]. exists (trace wl). split; [reflexivity |].
            exact (Hq _ (transitivity H Hl)).
          * exfalso. unfold output_events in Hin.
            apply list_elem_of_fmap in Hin as (l & Hl' & _). discriminate Hl'.
        + exfalso. destruct Hm as [_ ->]. cbn [trace log] in Hinb.
          rewrite elem_of_app, list_elem_of_singleton in Hinb. destruct Hinb as [Hin | Hin].
          * exact (quiet_not_interactive _ cmd (Hq _ (transitivity H Hl)) Hin).
          * injection Hin as ->. rewrite Ex in Hcmd. discriminate Hcmd.
        + destruct Hm as [Hm _]. discriminate Hm.
      - (* the training did not return *)
        exfalso.
        apply train_inv in Et as [[Ht Hr] | (dir' & wl & Hl & Hm)].
        { exact (quiet_not_interactive _ cmd (Hq _ (transitivity H Ht)) Hinb). }
        destruct (ssh_exec env (training_command dir')) as [out' err' status' | e' | out'] eqn:Ex.
        + destruct (Z.eqb status' 0); destruct Hm as [Hm _]; discriminate Hm.
        + destruct Hm as [Hm _]. discriminate Hm.
        + destruct Hm as [_ ->]. cbn [trace log] in Hinb.
          rewrite elem_of_app, elem_of_cons in Hinb.
          destruct Hinb as [Hin | [Hin | Hin]].
          * exact (quiet_not_interactive _ cmd (Hq _ (transitivity H Hl)) Hin).
          * injection Hin as ->. rewrite Ex in Hcmd. discriminate Hcmd.
          * unfold partial_output_events in Hin.
            apply list_elem_of_fmap in Hin as (l & Hl' & _). discriminate Hl'. }
    destruct Hbody as (-> & before & Etb & Fb).
    destruct Hcases as [(Hd & _) | (_ & rc & Ec & ->)]; [discriminate Hd |].
    injection Ec as <- <-. split; [reflexivity |].
    exists before. split; [| exact Fb].
    cbn [trace log]. rewrite Etb, <- !app_assoc. reflexivity. }
  do 7 (match type of E with
        | bind ?m _ ?w1 = _ =>
            let Hm := fresh "Hm" in
            assert (Hm : respects (only (fun e => interactive e = false)) m)
              by respects_auto;
            specialize (Hm w1);
            let a := fresh "a" in
            let w2 := fresh "w" in
            let Em := fresh "Em" in
            let e := fresh "e" in
            apply bind_inv in E as [(a & w2 & Em & E) | [(e & Em & ->) | (Em & ->)]];
            rewrite Em in Hm; cbn [snd] in Hm;
            [ | apply (Hstop w'); [etransitivity; [exact H | exact Hm] | reflexivity] ..];
            apply (transitivity H) in Hm; clear H Em; rename Hm into H
        end).
  cbv zeta in E. now apply (Hgoal _ H).
Qed.

End FailedTraining.

(** ** The polling loop and its fuel *)

Section Fuel.

Variable env : Env.

Lemma bind_ext_at {A B} (m : M A) (k1 k2 : A -> M B) (w : World) :
  (forall a w1, m w = (Ok a, w1) -> k1 a w1 = k2 a w1) -> bind m k1 w = bind m k2 w.
Proof. intros H. unfold bind. destruct (m w) as [[a | e |] w1]; auto. Qed.

Lemma wait_loop_S (fuel : nat) (c : json) (w : World) :
  wait_loop env (S fuel) c w =
  bind (run_vastai_cmd env show_cmd) (fun instances =>
    bind (lift (Py.iterate instances)) (fun items =>
      bind (lift (find_running c items)) (fun found =>
        match found with
        | Some instance =>
            bind (print MsgReady) (fun _ =>
              bind (lift (ssh_fields instance)) (fun fields =>
                bind (match fields with [] => ret tt | _ => print (MsgSshFields fields) end)
                     (fun _ => ret instance)))
        | None => bind (emit (Sleep 10)) (fun _ => wait_loop env fuel c)
        end))) w.
Proof. reflexivity. Qed.

(** A poll that does not end the loop is followed by a sleep and the next
    poll. *)
Lemma wait_loop_continues (fuel : nat) (c : json) (w : World) :
  poll_ends env c (cli_calls w) = false ->
  wait_loop env (S fuel) c w = wait_loop env fuel c (log [Sleep 10] (issue show_cmd w)).
Proof.
  intros H. unfold poll_ends in H. rewrite wait_loop_S.
  destruct (vastai env (cli_calls w) show_cmd) as [j | | | |] eqn:Ev; try discriminate H.
  erewrite bind_run_vastai_cmd by exact Ev.
  destruct (Py.iterate j) as [items |]; [| discriminate H]. rewrite bind_lift_Val.
  destruct (find_running c items) as [[] |]; try discriminate H.
  rewrite bind_lift_Val. now rewrite bind_emit.
Qed.

(** A poll that ends the loop ends it whatever fuel is left. *)
Lemma wait_loop_ends (fuel : nat) (c : json) (w : World) :
  poll_ends env c (cli_calls w) = true ->
  forall fuel', wait_loop env (S fuel') c w = wait_loop env (S fuel) c w.
Proof.
  intros H fuel'. unfold poll_ends in H. rewrite !wait_loop_S.
  apply bind_ext_at. intros j w1 Ej. rewrite run_vastai_cmd_spec in Ej.
  destruct (vastai env (cli_calls w) show_cmd) as [j' | | | |]; try discriminate Ej.
  injection Ej as <- _.
  apply bind_ext_at. intros items w2 Ei. apply lift_inv in Ei as [_ Ei].
  destruct (Py.iterate j') as [items' | e]; [| discriminate Ei]. injection Ei as ->.
  apply bind_ext_at. intros found w3 Ef. apply lift_inv in Ef as [_ Ef].
  destruct (find_running c items') as [[instance |] | e]; try discriminate.
  injection Ef as ->. reflexivity.
Qed.

(** A poll that ends the loop makes it return or raise, unless the poll
    itself never comes back. *)
Lemma wait_loop_ends_returns (fuel : nat) (c : json) (w : World) :
  poll_ends env c (cli_calls w) = true ->
  vastai env (cli_calls w) show_cmd <> CliBlocks ->
  (wait_loop env (S fuel) c w).1 <> Diverge.
Proof.
  intros H Hb. unfold poll_ends in H.
  rewrite wait_loop_S. unfold bind at 1. rewrite run_vastai_cmd_spec.
  destruct (vastai env (cli_calls w) show_cmd) as [j | | | |]; simpl cli_outcome; cbv iota;
    try discriminate; [| congruence].
  destruct (Py.iterate j) as [items | e]; [| discriminate]. rewrite !bind_lift_Val.
  destruct (find_running c items) as [[instance |] | e]; try discriminate H; [| discriminate].
  rewrite !bind_lift_Val, bind_print. cbv beta.
  destruct (ssh_fields instance) as [[| k ks] | e]; discriminate.
Qed.

(** Enough fuel gives the result: the loop returns or raises as soon as
    one of the polls within the fuel ends it, when no poll blocks. *)
Lemma wait_loop_terminates (fuel : nat) (c : json) :
  cli_ends env ->
  forall w : World,
    (exists k, k < fuel /\ poll_ends env c (cli_calls w + k) = true) ->
    (wait_loop env fuel c w).1 <> Diverge.
Proof.
  intros Hcli.
  induction fuel as [| fuel IH]; intros w (k & Hk & Hend); [lia |].
  destruct (poll_ends env c (cli_calls w)) eqn:E0.
  - apply wait_loop_ends_returns; [exact E0 | apply Hcli].
  - rewrite (wait_loop_continues fuel c w E0). apply IH.
    destruct k as [| k]; [rewrite Nat.add_0_r in Hend; congruence |].
    exists k. split; [lia |]. simpl. now rewrite <- Nat.add_succ_r.
Qed.

(** More fuel does not change a result. *)
Lemma wait_loop_fuel_monotone (fuel : nat) (c : json) :
  forall (w w' : World) (r : outcome json) (n : nat),
    wait_loop env fuel c w = (r, w') -> r <> Diverge ->
    wait_loop env (fuel + n) c w = (r, w').
Proof.
  induction fuel as [| fuel IH]; intros w w' r n E Hr.
  - injection E as <- _. congruence.
  - destruct (poll_ends env c (cli_calls w)) eqn:E0.
    + pose proof (wait_loop_ends fuel c w E0) as H. simpl plus. now rewrite (H (fuel + n)).
    + rewrite (wait_loop_continues fuel c w E0) in E. simpl plus.
      rewrite (wait_loop_continues (fuel + n) c w E0). now apply IH.
Qed.

(** Without a poll that ends it within the fuel, the loop is still
    polling, whatever the fuel: the run does not return. *)
Lemma wait_loop_diverges (fuel : nat) (c : json) :
  forall w : World,
    (forall k, k < fuel -> poll_ends env c (cli_calls w + k) = false) ->
    (wait_loop env fuel c w).1 = Diverge.
Proof.
  induction fuel as [| fuel IH]; intros w Hnone; [reflexivity |].
  assert (E0 : poll_ends env c (cli_calls w) = false).
  { specialize (Hnone 0 ltac:(lia)). now rewrite Nat.add_0_r in Hnone. }
  rewrite (wait_loop_continues fuel c w E0). apply IH.
  intros k Hk. specialize (Hnone (S k) ltac:(lia)). simpl.
  now rewrite <- Nat.add_succ_r.
Qed.

End Fuel.

Section RunFuel.

Variable env : Env.

Lemma wait_for_instance_fuel_monotone (fuel n : nat) (c : json) (w w' : World)
    (r : outcome json) :
  wait_for_instance env fuel c w = (r, w') -> r <> Diverge ->
  wait_for_instance env (fuel + n) c w = (r, w').
Proof.
  unfold wait_for_instance. rewrite !bind_print. cbv beta.
  apply wait_loop_fuel_monotone.
Qed.

Lemma run_body_fuel_monotone (fuel n : nat) (start_time : Q) (project_path : string)
    (w w' : World) (r : outcome unit) :
  run_body env fuel start_time project_path w = (r, w') -> r <> Diverge ->
  run_body env (fuel + n) start_time project_path w = (r, w').
Proof.
  intros E Hr. unfold run_body in *.
  apply bind_inv in E as [(instance & w1 & E1 & E) | [(e & E1 & ->) | (E1 & ->)]];
    [rewrite (bind_Ok _ _ _ _ _ E1) | now rewrite (bind_Raise _ _ _ _ _ E1) | congruence].
  apply bind_inv in E as [(offer_id & w2 & E2 & E) | [(e & E2 & ->) | (E2 & ->)]];
    [rewrite (bind_Ok _ _ _ _ _ E2) | now rewrite (bind_Raise _ _ _ _ _ E2) | congruence].
  apply bind_inv in E as [(c & w3 & E3 & E) | [(e & E3 & ->) | (E3 & ->)]];
    [rewrite (bind_Ok _ _ _ _ _ E3) | now rewrite (bind_Raise _ _ _ _ _ E3) | congruence].
  apply bind_inv in E as [(u & w4 & E4 & E) | [(e & E4 & ->) | (E4 & ->)]];
    [rewrite (bind_Ok _ _ _ _ _ E4) | now rewrite (bind_Raise _ _ _ _ _ E4) | congruence].
  apply bind_inv in E as [(info & w5 & E5 & E) | [(e & E5 & ->) | (E5 & ->)]];
    [| | congruence].
  - apply (wait_for_instance_fuel_monotone fuel n) in E5; [| discriminate].
    now rewrite (bind_Ok _ _ _ _ _ E5).
  - apply (wait_for_instance_fuel_monotone fuel n) in E5; [| discriminate].
    now rewrite (bind_Raise _ _ _ _ _ E5).
Qed.

(** The result of a run that returns or raises does not depend on the fuel
    that was left. *)
Lemma run_fuel_monotone (fuel n : nat) (project_path : string) (w w' : World)
    (r : outcome unit) :
  run env fuel project_path w = (r, w') -> r <> Diverge ->
  run env (fuel + n) project_path w = (r, w').
Proof.
  intros E Hr. rewrite run_unfold in *.
  apply try_finally_inv in E as (rb & wb & Eb & [(-> & -> & _) | (Hrb & rc & Ec & ->)]);
    [congruence |].
  apply (run_body_fuel_monotone fuel n) in Eb; [| exact Hrb].
  unfold try_finally. rewrite Eb, Ec.
  destruct rb as [[] | e |]; [| | congruence]; destruct rc as [[] | e' |]; reflexivity.
Qed.

(** X5.  A run returns or raises when no call of the marketplace CLI and no
    remote command blocks, and the fuel covers a poll that ends the polling
    loop for the contract that the run creates. *)
Lemma run_terminates (fuel : nat) (project_path : string) (w : World) :
  cli_ends env ->
  ssh_ends env ->
  (forall instance w1 offer_id contract_id w2,
     find_best_gpu env (started w) = (Ok instance, w1) ->
     Py.getitem instance "id" = Val offer_id ->
     create_instance env offer_id w1 = (Ok contract_id, w2) ->
     exists k, k < fuel /\ poll_ends env contract_id (cli_calls w2 + k) = true) ->
  (run env fuel project_path w).1 <> Diverge.
Proof.
  intros Hcli Hssh Hpoll. rewrite run_unfold. unfold try_finally.
  destruct (run_body env fuel (clock env (clock_reads w)) project_path (started w))
    as [rb wb] eqn:Eb.
  assert (Hrb : rb <> Diverge).
  { unfold run_body in Eb.
    apply bind_inv in Eb as [(instance & w1 & E1 & Eb) | [(e & _ & ->) | (E1 & _)]];
      [| discriminate |].
    2: { pose proof (find_best_gpu_total env Hcli (started w)) as H.
         rewrite E1 in H. exact (False_ind _ (H eq_refl)). }
    apply bind_inv in Eb as [(offer_id & w1' & E2 & Eb) | [(e & _ & ->) | (E2 & _)]];
      [| discriminate |].
    2: { apply lift_inv in E2 as [_ E2]. destruct (Py.getitem _ _); discriminate E2. }
    apply lift_inv in E2 as [-> E2].
    apply bind_inv in Eb as [(c & w2 & E3 & Eb) | [(e & _ & ->) | (E3 & _)]];
      [| discriminate |].
    2: { pose proof (create_instance_total env Hcli offer_id w1) as H.
         rewrite E3 in H. exact (False_ind _ (H eq_refl)). }
    unfold bind at 1, set_contract_id at 1 in Eb.
    apply bind_inv in Eb as [(info & w3 & E4 & Eb) | [(e & _ & ->) | (E4 & _)]];
      [| discriminate |].
    2: { exfalso. unfold wait_for_instance in E4. rewrite bind_print in E4. cbv beta in E4.
         match type of E4 with wait_loop env fuel c ?w0 = _ =>
           pose proof (wait_loop_terminates env fuel c Hcli w0) as H
         end.
         rewrite E4 in H. apply H; [| reflexivity].
         cbn [cli_calls log].
         destruct (Py.getitem instance "id") as [v | e'] eqn:Eid; [| discriminate E2].
         assert (v = offer_id) as -> by congruence.
         exact (Hpoll instance w1 offer_id c w2 E1 Eid E3). }
    apply bind_inv in Eb as [(p & w4 & E5 & Eb) | [(e & _ & ->) | (E5 & _)]];
      [| discriminate |].
    2: { pose proof (package_project_total env project_path w3) as H.
         rewrite E5 in H. exact (False_ind _ (H eq_refl)). }
    match type of Eb with ?m ?w0 = _ =>
      pose proof (deploy_and_unlink_total env Hssh (clock env (clock_reads w)) instance
                    info p (Py.path_name project_path) w0) as H
    end.
    rewrite Eb in H. exact H. }
  pose proof (run_cleanup_total env Hcli wb) as Hc.
  destruct rb as [[] | e |]; [| | congruence];
    destruct (run_cleanup env wb) as [[[] | e' |] w']; cbn [fst] in *; congruence.
Qed.

End RunFuel.

(** ** The entry point *)

(** A command of the marketplace CLI hangs only when the call blocks. *)
Lemma run_vastai_cmd_hangs (env : Env) (cmd : list arg) (w w' : World) :
  run_vastai_cmd env cmd w = (Diverge, w') -> vastai env (cli_calls w) cmd = CliBlocks.
Proof.
  rewrite run_vastai_cmd_spec. intros E. injection E as E _.
  destruct (vastai env (cli_calls w) cmd); try discriminate E. reflexivity.
Qed.

(** One step of the fallback in a selection that hangs. *)
Lemma tier_step_hangs (env : Env) (j : json) (msg : message) (tier : list arg)
    (k : json -> M json) (w w' : World) :
  bind (if negb (Py.truthy j) then bind (print msg) (fun _ => run_vastai_cmd env tier)
        else ret j) k w = (Diverge, w') ->
  (Py.truthy j = true /\ k j w = (Diverge, w')) \/
  (Py.truthy j = false /\ vastai env (cli_calls w) tier = CliBlocks) \/
  (Py.truthy j = false /\
   exists j', k j' (issue tier (log [Print msg] w)) = (Diverge, w')).
Proof.
  destruct (Py.truthy j); simpl negb; cbv iota.
  - rewrite bind_ret. auto.
  - rewrite bind_assoc, bind_print. cbv beta. intros E. right.
    apply bind_inv in E as [(j' & w1 & E1 & E) | [(e & _ & H) | (E1 & _)]];
      [| discriminate H |].
    + right. split; [reflexivity |]. exists j'.
      rewrite run_vastai_cmd_spec in E1. now injection E1 as _ <-.
    + left. split; [reflexivity |]. now apply run_vastai_cmd_hangs in E1.
Qed.

(** A selection hangs only when one of its searches blocks. *)
Lemma find_best_gpu_hangs (env : Env) (w w' : World) :
  find_best_gpu env w = (Diverge, w') ->
  exists i, i < 4 /\ vastai env (cli_calls w + i) (tiers !!! i) = CliBlocks.
Proof.
  intros E. unfold find_best_gpu in E. rewrite bind_print in E. cbv beta in E.
  assert (Hsel : forall j w0, select_best j w0 <> (Diverge, w')).
  { intros j w0 H. apply (select_best_total j w0). now rewrite H. }
  apply bind_inv in E as [(j1 & w1 & E1 & E) | [(e & _ & H) | (E1 & _)]];
    [| discriminate H |].
  2: { apply run_vastai_cmd_hangs in E1. exists 0. split; [lia |].
       rewrite Nat.add_0_r. exact E1. }
  rewrite run_vastai_cmd_spec in E1. injection E1 as _ <-.
  apply tier_step_hangs in E as [[T1 E] | [[T1 B] | (T1 & j2 & E)]].
  - apply tier_step_hangs in E as [[_ E] | [[T _] | (T & _)]]; [| congruence ..].
    apply tier_step_hangs in E as [[_ E] | [[T _] | (T & _)]]; [| congruence ..].
    now apply Hsel in E.
  - exists 1. split; [lia |]. rewrite Nat.add_1_r. exact B.
  - apply tier_step_hangs in E as [[T2 E] | [[T2 B] | (T2 & j3 & E)]].
    + apply tier_step_hangs in E as [[_ E] | [[T _] | (T & _)]]; [| congruence ..].
      now apply Hsel in E.
    + exists 2. split; [lia |].
      replace (cli_calls w + 2) with (S (S (cli_calls w))) by lia. exact B.
    + apply tier_step_hangs in E as [[T3 E] | [[T3 B] | (T3 & j4 & E)]].
      * now apply Hsel in E.
      * exists 3. split; [lia |].
        replace (cli_calls w + 3) with (S (S (S (cli_calls w)))) by lia. exact B.
      * now apply Hsel in E.
Qed.


(** X19.  [main] reaches the marketplace only after its four checks: whenever
    anything at all is done beyond printing [main]'s own lines, the command
    line had one or two arguments, the resolved project path is a directory
    that holds a [train.py], and the API key is set and not empty. *)
Theorem main_validates_before_acting (host : Host) (env : Env) (fuel : nat)
    (argv : list string) (f : gmap string entry) (e : event) :
  Do e ∈ (main host env fuel argv f).2 ->
  2 <= length argv <= 3 /\
  path_is_dir host (resolve host (nth 1 argv "")) = true /\
  path_exists host (Py.path_join (resolve host (nth 1 argv "")) "train.py") = true /\
  exists key, environ_get host "VAST_API_KEY" = Some key /\ key <> "".
Proof.
  unfold main.
  destruct (Nat.ltb (length argv) 2) eqn:E2; simpl orb; cbv iota.
  { cbn [snd]. intros H. apply list_elem_of_singleton in H. discriminate H. }
  destruct (Nat.ltb 3 (length argv)) eqn:E3; cbv iota.
  { cbn [snd]. intros H. apply list_elem_of_singleton in H. discriminate H. }
  cbv zeta.
  destruct (path_exists host (resolve host (nth 1 argv ""))) eqn:Ee; simpl negb; simpl orb;
    cbv iota.
  2: { cbn [snd]. intros H. apply list_elem_of_singleton in H. discriminate H. }
  destruct (path_is_dir host (resolve host (nth 1 argv ""))) eqn:Ed; simpl negb; cbv iota.
  2: { cbn [snd]. intros H. apply list_elem_of_singleton in H. discriminate H. }
  destruct (path_exists host (Py.path_join _ "train.py")) eqn:Et; simpl negb; cbv iota.
  2: { cbn [snd]. intros H. apply list_elem_of_singleton in H. discriminate H. }
  destruct (environ_get host "VAST_API_KEY") as [key |] eqn:Ek; simpl key_is_set.
  2: { cbn [negb snd]. intros H. apply list_elem_of_singleton in H. discriminate H. }
  destruct (String.eqb key "") eqn:Ekey; simpl negb; cbv iota.
  { cbn [snd]. intros H. apply list_elem_of_singleton in H. discriminate H. }
  intros _. apply Nat.ltb_ge in E2, E3. split; [lia |]. split; [reflexivity |].
  split; [reflexivity |]. exists key. split; [reflexivity |].
  now apply String.eqb_neq.
Qed.

Lemma main_validates_before_acting_witness :
  2 <= length ["speedrun.py"; "proj"; "--dry-run"] <= 3 /\
  path_is_dir workstation (resolve workstation "proj") = true /\
  path_exists workstation (Py.path_join (resolve workstation "proj") "train.py") = true /\
  exists key, environ_get workstation "VAST_API_KEY" = Some key /\ key <> "".
Proof.
  apply (main_validates_before_acting workstation scenario_a 10
           ["speedrun.py"; "proj"; "--dry-run"] ∅ (Print MsgFinding)).
  apply list_elem_of_In. vm_compute. right. right. right. left. reflexivity.
Defined.


(** X21.  Only the exact word [--dry-run] asks for a dry run.  Any other second
    argument is ignored without a warning, and [main] does what it does
    without it: the full run, with an instance that is paid for. *)
Theorem unknown_flag_starts_a_full_run (host : Host) (env : Env) (fuel : nat)
    (prog path flag : string) (f : gmap string entry) :
  flag <> "--dry-run" ->
  main host env fuel [prog; path; flag] f = main host env fuel [prog; path] f.
Proof.
  intros Hflag. unfold main. cbn [length Nat.ltb Nat.leb orb nth Nat.eqb andb].
  apply String.eqb_neq in Hflag. rewrite Hflag. reflexivity.
Qed.

Lemma unknown_flag_starts_a_full_run_witness :
  main workstation scenario_a 10 ["speedrun.py"; "proj"; "--dryrun"] ∅
  = main workstation scenario_a 10 ["speedrun.py"; "proj"] ∅.
Proof.
  apply (unknown_flag_starts_a_full_run workstation scenario_a 10 "speedrun.py" "proj"
           "--dryrun" ∅).
  discriminate.
Defined.

(** ** Waiting for the instance *)

Lemma polls_S (n : nat) : polls (S n) = Vastai show_cmd :: Sleep 10 :: polls n.
Proof. reflexivity. Qed.

Lemma polls_snoc (n : nat) : polls n ++ [Vastai show_cmd; Sleep 10] = polls (S n).
Proof.
  induction n as [| n IH]; [reflexivity |].
  rewrite (polls_S n), (polls_S (S n)), <- IH. reflexivity.
Qed.

(** X6.  The wait has no time limit.  As long as no poll reports the instance
    as running or fails, the loop goes on polling, ten seconds apart:
    whatever number of polls is allowed, all of them are made and the wait
    has not returned. *)
Theorem waiting_has_no_time_limit (env : Env) (fuel : nat) (contract_id : json) (w : World) :
  (forall k, k < fuel -> poll_ends env contract_id (cli_calls w + k) = false) ->
  exists w',
    wait_for_instance env fuel contract_id w = (Diverge, w') /\
    trace w' = trace w ++ Print MsgWaiting :: polls fuel.
Proof.
  unfold wait_for_instance. rewrite bind_print. cbv beta.
  assert (H : forall fuel w0,
             (forall k, k < fuel -> poll_ends env contract_id (cli_calls w0 + k) = false) ->
             exists w', wait_loop env fuel contract_id w0 = (Diverge, w') /\
                        trace w' = trace w0 ++ polls fuel).
  { clear. induction fuel as [| fuel IH]; intros w0 Hnone.
    - exists w0. split; [reflexivity |]. simpl. now rewrite app_nil_r.
    - assert (E0 : poll_ends env contract_id (cli_calls w0) = false).
      { specialize (Hnone 0 ltac:(lia)). now rewrite Nat.add_0_r in Hnone. }
      rewrite (wait_loop_continues env fuel contract_id w0 E0).
      destruct (IH (log [Sleep 10] (issue show_cmd w0))) as (w' & E & Et).
      { intros k Hk. specialize (Hnone (S k) ltac:(lia)). simpl.
        now rewrite <- Nat.add_succ_r. }
      exists w'. split; [exact E |]. rewrite Et. simpl.
      rewrite <- !app_assoc. reflexivity. }
  intros Hnone. destruct (H fuel (log [Print MsgWaiting] w) Hnone) as (w' & E & Et).
  exists w'. split; [exact E |]. rewrite Et. simpl. now rewrite <- app_assoc.
Qed.

Lemma waiting_has_no_time_limit_witness :
  exists w',
    wait_for_instance scenario_slow_start 5 (JInt 7001) (start ∅) = (Diverge, w') /\
    trace w' = Print MsgWaiting :: polls 5.
Proof.
  apply (waiting_has_no_time_limit scenario_slow_start 5 (JInt 7001) (start ∅)).
  intros k Hk. do 5 (destruct k as [| k]; [vm_compute; reflexivity |]). lia.
Defined.

Lemma find_running_is_running (contract_id : json) (items : list json) (instance : json) :
  find_running contract_id items = Val (Some instance) ->
  is_running contract_id instance = Val true /\ instance ∈ items.
Proof.
  induction items as [| item items IH]; intros H; [discriminate H |].
  simpl in H. destruct (is_running contract_id item) as [[] | e] eqn:E; simpl in H.
  - injection H as <-. split; [exact E | left].
  - destruct (IH H) as [H1 H2]. split; [exact H1 | now right].
  - discriminate H.
Qed.

(** X7.  What the wait returns.  The metadata it hands to the deployment is an
    entry of the last listing whose ["id"] equals the contract id and whose
    ["actual_status"] is ["running"]; before that listing every poll was
    followed by a pause of ten seconds, and the last things done are that
    poll and the status lines. *)
Theorem wait_returns_the_running_instance (env : Env) (fuel : nat) (contract_id : json)
    (w w' : World) (instance : json) :
  wait_for_instance env fuel contract_id w = (Ok instance, w') ->
  is_running contract_id instance = Val true /\
  exists k fields,
    k < fuel /\
    ssh_fields instance = Val fields /\
    trace w' = trace w ++ Print MsgWaiting :: polls k ++ Vastai show_cmd :: Print MsgReady
               :: match fields with [] => [] | _ => [Print (MsgSshFields fields)] end.
Proof.
  unfold wait_for_instance. rewrite bind_print. cbv beta.
  assert (H : forall fuel w0,
             wait_loop env fuel contract_id w0 = (Ok instance, w') ->
             is_running contract_id instance = Val true /\
             exists k fields,
               k < fuel /\ ssh_fields instance = Val fields /\
               trace w' = trace w0 ++ polls k ++ Vastai show_cmd :: Print MsgReady
                          :: match fields with [] => [] | _ => [Print (MsgSshFields fields)] end).
  { clear. induction fuel as [| fuel IH]; intros w0 E; [discriminate E |].
    destruct (poll_ends env contract_id (cli_calls w0)) eqn:E0.
    - rewrite wait_loop_S in E. unfold bind at 1 in E. rewrite run_vastai_cmd_spec in E.
      unfold poll_ends in E0.
      destruct (vastai env (cli_calls w0) show_cmd) as [j | | | |]; try discriminate E.
      cbn [cli_outcome] in E.
      destruct (Py.iterate j) as [items | e]; [| discriminate E]. rewrite bind_lift_Val in E.
      destruct (find_running contract_id items) as [[found |] | e] eqn:Ef;
        [| discriminate E0 | discriminate E].
      rewrite bind_lift_Val, bind_print in E. cbv beta in E.
      destruct (ssh_fields found) as [fields | e] eqn:Es; [| discriminate E].
      rewrite bind_lift_Val in E.
      apply find_running_is_running in Ef as [Hr _].
      destruct fields as [| x fields].
      + cbv iota in E. rewrite bind_ret in E. injection E as <- <-.
        split; [exact Hr |]. exists 0, []. split; [lia |]. split; [exact Es |].
        simpl. now rewrite <- app_assoc.
      + cbv iota in E. rewrite bind_print in E. cbv beta in E. injection E as <- <-.
        split; [exact Hr |]. exists 0, (x :: fields). split; [lia |].
        split; [exact Es |]. simpl. now rewrite <- !app_assoc.
    - rewrite (wait_loop_continues env fuel contract_id w0 E0) in E.
      destruct (IH _ E) as (Hr & k & fields & Hk & Hf & Et).
      split; [exact Hr |]. exists (S k), fields. split; [lia |]. split; [exact Hf |].
      rewrite Et. simpl. now rewrite <- !app_assoc. }
  intros E. destruct (H fuel _ E) as (Hr & k & fields & Hk & Hf & Et).
  split; [exact Hr |]. exists k, fields. split; [exact Hk |]. split; [exact Hf |].
  rewrite Et. simpl. now rewrite <- app_assoc.
Qed.

Lemma wait_returns_the_running_instance_witness :
  is_running (JInt 7001) (running_instance (JInt 7001)) = Val true /\
  exists k fields,
    k < 10 /\
    ssh_fields (running_instance (JInt 7001)) = Val fields /\
    trace (wait_for_instance scenario_a 10 (JInt 7001) (start ∅)).2
    = trace (start ∅) ++ Print MsgWaiting :: polls k ++ Vastai show_cmd :: Print MsgReady
      :: match fields with [] => [] | _ => [Print (MsgSshFields fields)] end.
Proof.
  apply (wait_returns_the_running_instance scenario_a 10 (JInt 7001) (start ∅)
           (wait_for_instance scenario_a 10 (JInt 7001) (start ∅)).2
           (running_instance (JInt 7001))).
  vm_compute. reflexivity.
Defined.

(** ** Errors of the selection *)

Lemma bind_run_vastai_cmd_Raise {B} (env : Env) (cmd : list arg) (k : json -> M B)
    (w : World) (e : exn) :
  cli_outcome (vastai env (cli_calls w) cmd) = Raise e ->
  bind (run_vastai_cmd env cmd) k w = (Raise e, issue cmd w).
Proof. intros H. apply bind_Raise. now rewrite run_vastai_cmd_spec, H. Qed.

(** X9.  A search that fails is not taken for an empty tier.  When the tiers
    before tier [k] are empty and the search of tier [k] fails, the
    selection raises the error of that search, and the tiers after [k] are
    never queried. *)
Theorem failed_search_ends_the_selection (env : Env) (w : World) (k : nat) (e : exn) :
  k < 4 ->
  (forall i, i < k -> vastai env (cli_calls w + i) (tiers !!! i) = CliJson (JList [])) ->
  cli_outcome (vastai env (cli_calls w + k) (tiers !!! k)) = Raise e ->
  exists w', find_best_gpu env w = (Raise e, w') /\
             calls (trace w') = calls (trace w) ++ take (S k) tiers.
Proof.
  intros Hk Hempty He. unfold find_best_gpu.
  rewrite bind_print; cbv beta.
  assert (H0 : 0 < k -> vastai env (cli_calls w) tier1 = CliJson (JList [])).
  { intros H. specialize (Hempty 0 H). now rewrite Nat.add_0_r in Hempty. }
  assert (H1 : 1 < k -> vastai env (S (cli_calls w)) tier2 = CliJson (JList [])).
  { intros H. specialize (Hempty 1 H). now rewrite Nat.add_1_r in Hempty. }
  assert (H2 : 2 < k -> vastai env (S (S (cli_calls w))) tier3 = CliJson (JList [])).
  { intros H. specialize (Hempty 2 H).
    now replace (cli_calls w + 2) with (S (S (cli_calls w))) in Hempty by lia. }
  clear Hempty.
  destruct k as [|[|[|[|k]]]]; try lia.
  - rewrite Nat.add_0_r in He. simpl in He.
    erewrite bind_run_vastai_cmd_Raise by exact He.
    eexists. split; [reflexivity |].
    simpl. rewrite !calls_app. simpl. now rewrite app_nil_r.
  - erewrite bind_run_vastai_cmd by (apply H0; lia). simpl negb; cbv beta iota.
    rewrite bind_assoc, bind_print; cbv beta.
    rewrite Nat.add_1_r in He. simpl in He.
    erewrite bind_run_vastai_cmd_Raise by exact He.
    eexists. split; [reflexivity |].
    simpl. rewrite !calls_app. simpl. rewrite ?app_nil_r, <- ?app_assoc. reflexivity.
  - erewrite bind_run_vastai_cmd by (apply H0; lia). simpl negb; cbv beta iota.
    rewrite bind_assoc, bind_print; cbv beta.
    erewrite bind_run_vastai_cmd by (apply H1; lia). simpl negb; cbv beta iota.
    rewrite bind_assoc, bind_print; cbv beta.
    replace (cli_calls w + 2) with (S (S (cli_calls w))) in He by lia. simpl in He.
    erewrite bind_run_vastai_cmd_Raise by exact He.
    eexists. split; [reflexivity |].
    simpl. rewrite !calls_app. simpl. rewrite ?app_nil_r, <- ?app_assoc. reflexivity.
  - erewrite bind_run_vastai_cmd by (apply H0; lia). simpl negb; cbv beta iota.
    rewrite bind_assoc, bind_print; cbv beta.
    erewrite bind_run_vastai_cmd by (apply H1; lia). simpl negb; cbv beta iota.
    rewrite bind_assoc, bind_print; cbv beta.
    erewrite bind_run_vastai_cmd by (apply H2; lia). simpl negb; cbv beta iota.
    rewrite bind_assoc, bind_print; cbv beta.
    replace (cli_calls w + 3) with (S (S (S (cli_calls w)))) in He by lia. simpl in He.
    erewrite bind_run_vastai_cmd_Raise by exact He.
    eexists. split; [reflexivity |].
    simpl. rewrite !calls_app. simpl. rewrite ?app_nil_r, <- ?app_assoc. reflexivity.
Qed.

Lemma failed_search_ends_the_selection_witness :
  exists w', find_best_gpu scenario_search_refused (start ∅)
             = (Raise (RuntimeError "vastai command failed: rate limited"), w') /\
             calls (trace w') = calls (trace (start ∅)) ++ take 2 tiers.
Proof.
  apply (failed_search_ends_the_selection scenario_search_refused (start ∅) 1
           (RuntimeError "vastai command failed: rate limited")).
  - lia.
  - intros i Hi. destruct i as [| i]; [reflexivity | lia].
  - reflexivity.
Defined.

(** What [x / 1024] and the [.2f] format make of a value. *)
Lemma div_const_1024 (v : json) :
  match Py.div_const v 1024 with
  | Val _ =>
      match v with
      | JInt z => Py.fits_float (inject_Z z / 1024)
      | JBool _ | JFloat _ => true
      | _ => false
      end = true
  | Exc e =>
      (e = TypeError \/ e = OverflowError) /\
      match v with
      | JInt z => Py.fits_float (inject_Z z / 1024)
      | JBool _ | JFloat _ => true
      | _ => false
      end = false
  end.
Proof.
  destruct v as [| | z | | | |]; cbn [Py.div_const]; auto.
  change (inject_Z 1024) with 1024%Q.
  destruct (Py.fits_float (inject_Z z / 1024)); auto.
Qed.

Lemma format_float_cases (v : json) :
  match Py.format_float v with
  | Val _ =>
      match v with
      | JInt z => Py.fits_float (inject_Z z)
      | JBool _ | JFloat _ => true
      | _ => false
      end = true
  | Exc e =>
      (e = TypeError \/ e = ValueError \/ e = OverflowError) /\
      match v with
      | JInt z => Py.fits_float (inject_Z z)
      | JBool _ | JFloat _ => true
      | _ => false
      end = false
  end.
Proof.
  destruct v as [| | z | | | |]; cbn [Py.format_float Py.to_float]; auto.
  destruct (Py.fits_float (inject_Z z)); auto.
Qed.

(** X10.  The first candidate must be printable.  The selection reports the
    first offer of the answer before it returns it, so it returns that offer
    exactly when the offer is a record with the five reported fields, with
    numbers within the range of a float where a number is printed.
    Otherwise it raises a [KeyError], [TypeError], [ValueError] or
    [OverflowError] without looking at the other offers of the answer, and
    without having printed anything about the offer. *)
Theorem selection_needs_a_printable_offer (o : json) (rest : list json) (w : World) :
  if is_offer o
  then exists m, select_best (JList (o :: rest)) w = (Ok o, log [Print m] w)
  else exists e, select_best (JList (o :: rest)) w = (Raise e, w) /\
                 (e = TypeError \/ e = ValueError \/ e = OverflowError \/
                  exists key, e = KeyError key).
Proof.
  destruct (is_offer o) eqn:Ho; [now apply select_best_offer |].
  destruct o as [| | | | | | d]; try (eexists; split; [reflexivity | auto]).
  unfold is_offer in Ho. cbv zeta in Ho.
  unfold select_best, bind, lift, ret, print, emit.
  cbn [Py.truthy negb Py.getitem0 Py.getitem].
  destruct (Py.lookup_key "gpu_ram" d) as [v1|] eqn:E1; cbn [res_bind];
    [| eexists; split; [reflexivity | eauto 6]].
  pose proof (div_const_1024 v1) as D1.
  destruct (Py.div_const v1 1024) as [q1 | e1];
    [| eexists; split; [reflexivity | intuition auto]].
  rewrite D1 in Ho. cbn [andb] in Ho.
  destruct (Py.lookup_key "gpu_total_ram" d) as [v2|] eqn:E2; cbn [res_bind];
    [| eexists; split; [reflexivity | eauto 6]].
  pose proof (div_const_1024 v2) as D2.
  destruct (Py.div_const v2 1024) as [q2 | e2];
    [| eexists; split; [reflexivity | intuition auto]].
  rewrite D2 in Ho. cbn [andb] in Ho.
  destruct (Py.lookup_key "num_gpus" d) as [v3|] eqn:E3; cbn [res_bind];
    [| eexists; split; [reflexivity | eauto 6]].
  destruct (Py.lookup_key "gpu_name" d) as [v4|] eqn:E4; cbn [res_bind];
    [| eexists; split; [reflexivity | eauto 6]].
  rewrite !bool_decide_eq_true_2 in Ho by eauto. cbn [andb] in Ho.
  destruct (Py.lookup_key "dph_total" d) as [v5|] eqn:E5; cbn [res_bind];
    [| eexists; split; [reflexivity | eauto 6]].
  pose proof (format_float_cases v5) as D5.
  destruct (Py.format_float v5) as [q5 | e5];
    [congruence | eexists; split; [reflexivity | intuition auto]].
Qed.

(** ** Creation and teardown *)

Lemma create_instance_cmd (env : Env) (offer_id : json) (w : World) :
  create_instance env offer_id w =
  match cli_outcome (vastai env (cli_calls w) (create_cmd offer_id)) with
  | Ok result =>
      match Py.getitem result "new_contract" with
      | Val c => (Ok c, log [Print (MsgCreated c)]
                          (issue (create_cmd offer_id) (log [Print MsgCreating] w)))
      | Exc e => (Raise e, issue (create_cmd offer_id) (log [Print MsgCreating] w))
      end
  | Raise e => (Raise e, issue (create_cmd offer_id) (log [Print MsgCreating] w))
  | Diverge => (Diverge, issue (create_cmd offer_id) (log [Print MsgCreating] w))
  end.
Proof.
  unfold create_instance. rewrite bind_print; cbv beta.
  unfold bind at 1. rewrite run_vastai_cmd_spec. fold (create_cmd offer_id).
  cbn [cli_calls log].
  destruct (cli_outcome _) as [result | e |]; [| reflexivity ..].
  destruct (Py.getitem result "new_contract") as [c | e]; reflexivity.
Qed.

(** X3.  A creation that raises is followed by no teardown.  When
    [create_instance] raises, because the command failed, because its
    output was not JSON or because the answer has no ["new_contract"], the
    run ends with that exception and the create command is the last thing
    it did: [contract_id] is still [None], so no destroy command is issued,
    whether or not the marketplace has started an instance. *)
Theorem failed_creation_is_not_torn_down (env : Env) (fuel : nat) (project_path : string)
    (f : gmap string entry) (instance offer_id : json) (w1 w2 : World) (e : exn) :
  find_best_gpu env (started (start f)) = (Ok instance, w1) ->
  Py.getitem instance "id" = Val offer_id ->
  create_instance env offer_id w1 = (Raise e, w2) ->
  run env fuel project_path (start f) = (Raise e, w2) /\
  trace w2 = trace w1 ++ [Print MsgCreating; Vastai (create_cmd offer_id)].
Proof.
  intros Ef Hid Ec. split.
  - rewrite run_unfold. unfold try_finally, run_body.
    rewrite (bind_Ok _ _ _ _ _ Ef), Hid, bind_lift_Val, (bind_Raise _ _ _ _ _ Ec).
    pose proof (find_best_gpu_same_contract env (started (start f))) as H1.
    pose proof (create_instance_same_contract env offer_id w1) as H2.
    rewrite Ef in H1. rewrite Ec in H2. unfold same_contract in H1, H2. cbn [snd] in H1, H2.
    rewrite run_cleanup_skips; [reflexivity |]. now rewrite H2, H1.
  - rewrite create_instance_cmd in Ec.
    destruct (cli_outcome _) as [result | e' |]; [| | discriminate Ec].
    + destruct (Py.getitem result "new_contract") as [c | e']; [discriminate Ec |].
      injection Ec as _ <-. simpl. now rewrite <- app_assoc.
    + injection Ec as _ <-. simpl. now rewrite <- app_assoc.
Qed.

Lemma failed_creation_is_not_torn_down_witness :
  run scenario_creation_refused 10 "/home/user/proj" (start ∅)
  = (Raise (KeyError "new_contract"),
     (create_instance scenario_creation_refused (JInt 42)
        (find_best_gpu scenario_creation_refused (started (start ∅))).2).2) /\
  trace (create_instance scenario_creation_refused (JInt 42)
           (find_best_gpu scenario_creation_refused (started (start ∅))).2).2
  = trace (find_best_gpu scenario_creation_refused (started (start ∅))).2
    ++ [Print MsgCreating; Vastai (create_cmd (JInt 42))].
Proof.
  apply (failed_creation_is_not_torn_down scenario_creation_refused 10 "/home/user/proj" ∅
           offer8 (JInt 42)).
  - vm_compute. reflexivity.
  - reflexivity.
  - vm_compute. reflexivity.
Defined.

Section Origin.

Variable env : Env.

(** The contract id the body of a run leaves in [contract_id] is the one
    it found there, or one that it reported as created. *)
Lemma run_body_contract_origin (fuel : nat) (start_time : Q) (project_path : string)
    (w w' : World) (r : outcome unit) :
  run_body env fuel start_time project_path w = (r, w') ->
  run_contract_id w' = run_contract_id w \/
  Print (MsgCreated (run_contract_id w')) ∈ trace w'.
Proof.
  intros E. unfold run_body in E.
  pose proof (find_best_gpu_same_contract env w) as H1.
  apply bind_inv in E as [(instance & w1 & E1 & E) | [(e & E1 & ->) | (E1 & ->)]];
    rewrite E1 in H1; cbn [snd] in H1; [| now left ..].
  apply bind_inv in E as [(offer_id & w1' & E2 & E) | [(e & E2 & ->) | (E2 & ->)]];
    apply lift_inv in E2 as [-> _]; [| now left ..].
  pose proof (create_instance_same_contract env offer_id w1) as H2.
  pose proof (create_instance_post env offer_id w1) as H3.
  apply bind_inv in E as [(c & w2 & E2 & E) | [(e & E2 & ->) | (E2 & ->)]];
    rewrite E2 in H2, H3; cbn [snd] in H2;
    [| left; unfold same_contract in *; congruence ..].
  destruct H3 as (cmd & Ht2 & _ & _).
  unfold bind at 1, set_contract_id at 1 in E.
  destruct (after_creation env fuel start_time instance project_path c) as [Ho Hc].
  match type of E with ?rest ?w3 = _ =>
    specialize (Ho w3); specialize (Hc w3); rewrite E in Ho, Hc
  end.
  cbn [snd] in Ho, Hc. unfold same_contract in Hc. cbn [run_contract_id] in Hc.
  right. rewrite Hc. destruct Ho as (evs & Et & _). cbn [trace] in Et.
  rewrite Et, Ht2. rewrite !elem_of_app, !elem_of_cons. tauto.
Qed.

End Origin.

(** X2.  A destroy command is only ever issued for an instance the run has
    created: whenever a run issues one, it is the command for a contract id
    that [create_instance] returned and reported earlier in the same run. *)
Theorem teardown_only_of_a_created_instance (env : Env) (fuel : nat) (project_path : string)
    (f : gmap string entry) (r : outcome unit) (w : World) (cmd : list arg) :
  run env fuel project_path (start f) = (r, w) ->
  Vastai cmd ∈ trace w ->
  verb cmd = "destroy" ->
  exists c, cmd = destroy_cmd c /\ Py.truthy c = true /\ Print (MsgCreated c) ∈ trace w.
Proof.
  intros E Hin Hverb. rewrite run_unfold in E.
  apply try_finally_inv in E as (rb & wb & Eb & Hcases).
  pose proof (run_body_contract_origin env _ _ _ _ _ _ Eb) as Horigin.
  apply run_body_contract in Eb as (evs & Et & F & _). cbn [trace started start app] in Et.
  assert (Hbody : ~ Vastai cmd ∈ trace wb).
  { rewrite Et. intros H. rewrite Forall_forall in F. specialize (F _ H).
    unfold destroys in F. simpl in F. rewrite Hverb in F. discriminate F. }
  destruct Hcases as [(_ & _ & ->) | (_ & rc & Ec & _)]; [contradiction |].
  destruct (Py.truthy (run_contract_id wb)) eqn:Etr.
  - exists (run_contract_id wb).
    assert (Hc : Print (MsgCreated (run_contract_id wb)) ∈ trace wb).
    { destruct Horigin as [H | H]; [| exact H].
      rewrite H in Etr. discriminate Etr. }
    rewrite (run_cleanup_destroys env wb Etr) in Ec.
    destruct (cli_outcome _) as [j | e |]; injection Ec as _ <-;
      cbn [trace log issue] in Hin |- *;
      rewrite ?elem_of_app, ?list_elem_of_singleton in Hin |- *.
    + destruct Hin as [[[Hin | Hin] | Hin] | Hin];
        [contradiction | discriminate Hin | injection Hin as -> | discriminate Hin].
      split; [reflexivity |]. split; [exact Etr |]. auto.
    + destruct Hin as [[Hin | Hin] | Hin];
        [contradiction | discriminate Hin | injection Hin as ->].
      split; [reflexivity |]. split; [exact Etr |]. auto.
    + destruct Hin as [[Hin | Hin] | Hin];
        [contradiction | discriminate Hin | injection Hin as ->].
      split; [reflexivity |]. split; [exact Etr |]. auto.
  - rewrite (run_cleanup_skips env wb Etr) in Ec. injection Ec as _ <-. contradiction.
Qed.

Lemma teardown_only_of_a_created_instance_witness :
  exists c, destroy_cmd (JInt 7001) = destroy_cmd c /\ Py.truthy c = true /\
            Print (MsgCreated c) ∈ trace (played scenario_a).2.
Proof.
  unfold played.
  apply (teardown_only_of_a_created_instance scenario_a 10 "/home/user/proj" ∅ _ _
           (destroy_cmd (JInt 7001)) (surjective_pairing _)).
  - apply list_elem_of_In. vm_compute. repeat (first [left; reflexivity | right]).
  - reflexivity.
Defined.


(** Scenario D, on the instance alone. *)
Lemma failed_training_skips_artifacts_witness :
  (run_on_instance scenario_d (running_instance (JInt 7001)) "/tmp/tmpabc.tar.gz" "proj"
     package_in_place).1
  = Raise (RuntimeError "Training failed") /\
  exists before,
    trace (run_on_instance scenario_d (running_instance (JInt 7001)) "/tmp/tmpabc.tar.gz"
             "proj" package_in_place).2
    = before ++ SshExec "cd /root/proj && python train.py" true
      :: output_events "epoch 1
epoch 2
" ++ [SshClose] /\
    Forall (fun e => interactive e = false) before.
Proof.
  apply (failed_training_skips_artifacts scenario_d (running_instance (JInt 7001))
           "/tmp/tmpabc.tar.gz" "proj" package_in_place _ _
           "cd /root/proj && python train.py" _ "" 1 (surjective_pairing _)).
  - apply List.Forall_nil.
  - apply list_elem_of_In. vm_compute. repeat (first [left; reflexivity | right]).
  - reflexivity.
  - discriminate.
Defined.

(** The marketplace and the remote host of the scenarios answer every
    call. *)
Lemma market_ends (tier_answers : list json) (contract : json) (ready_at : nat)
    (destroy_answer : cli_result) :
  destroy_answer <> CliBlocks ->
  forall n cmd, market tier_answers contract ready_at destroy_answer n cmd <> CliBlocks.
Proof.
  intros Hd n cmd. unfold market.
  repeat match goal with |- context [if ?b then _ else _] => destruct b end;
    first [discriminate | exact Hd].
Qed.

Lemma remote_ends (status : Z) (found : string -> string) (cmd out : string) :
  remote status found cmd <> ExecBlocks out.
Proof.
  unfold remote.
  repeat match goal with |- context [if ?b then _ else _] => destruct b end; discriminate.
Qed.

(** Scenario A: the instance is running at the second poll, and the run
    ends with the fuel for ten. *)
Lemma run_terminates_witness : (played scenario_a).1 <> Diverge.
Proof.
  unfold played.
  apply (run_terminates scenario_a 10 "/home/user/proj" (start ∅)).
  - intros n cmd. apply market_ends. discriminate.
  - intros cmd out. apply remote_ends.
  - intros instance w1 offer_id c w2 E1 Eid E3.
    vm_compute in E1. injection E1 as <- <-.
    vm_compute in Eid. injection Eid as <-.
    vm_compute in E3. injection E3 as <- <-.
    exists 1. split; [lia | vm_compute; reflexivity].
Defined.

(** ** Packaging that fails *)

Section Stages.

Variable env : Env.

(** The body of a run stops before packaging, or in it, or it reaches the
    deployment phase with the package written. *)
Lemma run_body_stages (fuel : nat) (start_time : Q) (project_path : string)
    (w w' : World) (r : outcome unit) :
  run_body env fuel start_time project_path w = (r, w') ->
  (r <> Ok tt /\ only provisioning w w') \/
  (exists w3,
     only provisioning w w3 /\
     ((exists e, package_project env project_path w3 = (Raise e, w') /\ r = Raise e) \/
      (exists instance info p w4,
         package_project env project_path w3 = (Ok p, w4) /\
         deploy_and_unlink env start_time instance info p (Py.path_name project_path) w4
         = (r, w')))).
Proof.
  intros E. unfold run_body in E.
  assert (Hsel : forall w1 w2 p, p = Selecting \/ p = Creating \/ p = Waiting ->
            only provisioning w w1 -> only (in_phase p) w1 w2 -> only provisioning w w2).
  { intros w1 w2 p Hp H1 H2. etransitivity; [exact H1 |]. revert H2.
    apply only_weaken. intros e He. unfold in_phase in He. unfold provisioning.
    rewrite He. exact Hp. }
  assert (H0 : only provisioning w w) by reflexivity.
  pose proof (find_best_gpu_only env w) as H1.
  apply bind_inv in E as [(instance & w1 & E1 & E) | [(e & E1 & ->) | (E1 & ->)]];
    rewrite E1 in H1; cbn [snd] in H1;
    apply (Hsel _ _ Selecting ltac:(tauto) H0) in H1;
    [| left; split; [discriminate | exact H1] ..].
  apply bind_inv in E as [(offer_id & w1' & E2 & E) | [(e & E2 & ->) | (E2 & ->)]];
    [| left; split; [discriminate |] ..].
  2, 3: apply lift_inv in E2 as [-> _]; exact H1.
  apply lift_inv in E2 as [-> _].
  pose proof (create_instance_only env offer_id w1) as H2.
  apply bind_inv in E as [(c & w2 & E2 & E) | [(e & E2 & ->) | (E2 & ->)]];
    rewrite E2 in H2; cbn [snd] in H2;
    apply (Hsel _ _ Creating ltac:(tauto) H1) in H2;
    [| left; split; [discriminate | exact H2] ..].
  unfold bind at 1, set_contract_id at 1 in E.
  match type of E with bind _ _ ?w3 = _ =>
    assert (H3 : only provisioning w w3) by (destruct H2 as (evs & Ht & F); now exists evs);
    pose proof (wait_for_instance_only env fuel c w3) as H4
  end.
  apply bind_inv in E as [(info & w4 & E4 & E) | [(e & E4 & ->) | (E4 & ->)]];
    rewrite E4 in H4; cbn [snd] in H4;
    apply (Hsel _ _ Waiting ltac:(tauto) H3) in H4;
    [| left; split; [discriminate | exact H4] ..].
  right. exists w4. split; [exact H4 |].
  pose proof (package_project_total env project_path w4) as Htot.
  apply bind_inv in E as [(p & w5 & E5 & E) | [(e & E5 & ->) | (E5 & ->)]].
  - right. now exists instance, info, p, w5.
  - left. now exists e.
  - rewrite E5 in Htot. now contradiction Htot.
Qed.

(** When [package_project] raises, the temporary file it made is still
    there. *)
Lemma package_project_raises (project_path p : string) (w w' : World) (e : exn) :
  package_project env project_path w = (Raise e, w') ->
  tmp_file env = Val p ->
  is_file (fs w' !! p).
Proof.
  intros E Htmp. revert E.
  unfold package_project, named_temporary_file, tarfile_open. rewrite Htmp. mstep.
  destruct (tar_open env) as [e1 |] eqn:Eopen; mstep.
  { intros E. injection E as _ <-. cbn [fs with_fs log]. now rewrite lookup_insert_eq. }
  destruct (listing env project_path) as [items | e1] eqn:Elist; mstep.
  2: { intros E. injection E as _ <-. cbn [fs with_fs log]. now rewrite lookup_insert_eq. }
  match goal with |- context [bind (for_each ?xs ?body) _ ?w1] =>
    pose proof (package_loop_keeps_file env p p project_path items w1) as Hkeep;
    unfold bind at 1;
    destruct (for_each xs body w1) as [[[] | e1 |] w2]
  end; cbn [fst snd] in *; unfold keeps_file in Hkeep; cbn [fs with_fs log] in Hkeep;
    rewrite lookup_insert_eq in Hkeep; specialize (Hkeep I).
  - unfold stat_size. mstep.
    destruct (fs w2 !! p) as [[ms | data |] |] eqn:Efs; try destruct Hkeep; mstep;
      intros E; discriminate E.
  - intros E. injection E as _ <-. exact Hkeep.
  - intros E. discriminate E.
Qed.

(** When [package_project] returns, its last status line is written. *)
Lemma package_project_returns (project_path p : string) (w w' : World) :
  package_project env project_path w = (Ok p, w') ->
  exists size_mb, Print (MsgPackaged size_mb) ∈ trace w'.
Proof.
  unfold package_project. intros E.
  do 6 (apply bind_inv in E as [(? & ? & _ & E) | [(? & _ & E) | (_ & E)]];
        [| discriminate E ..]).
  rewrite bind_print in E. injection E as _ <-. eexists. cbn [trace log].
  apply elem_of_app. right. left.
Qed.

End Stages.

(** X11.  A packaging that fails leaves its temporary file behind.  The file is
    made with [delete=False] and is only removed by the [finally] clause
    around the deployment, which is not yet entered: when a run starts
    packaging and does not complete it, the temporary archive is still on
    disk when the run ends, and the run never tried to remove it.  The run
    does not return normally: it raises, unless it hangs in a destroy
    command that blocks. *)
Theorem failed_packaging_leaves_the_temporary_file (env : Env) (fuel : nat)
    (project_path : string) (f : gmap string entry) (r : outcome unit) (w : World)
    (p : string) :
  run env fuel project_path (start f) = (r, w) ->
  tmp_file env = Val p ->
  Print MsgPackaging ∈ trace w ->
  (forall size_mb, ~ Print (MsgPackaged size_mb) ∈ trace w) ->
  is_file (fs w !! p) /\ ~ Unlink p ∈ trace w /\
  ((exists e, r = Raise e) \/
   (r = Diverge /\ exists n c, vastai env n (destroy_cmd c) = CliBlocks)).
Proof.
  intros E Htmp Hstart Hnot. rewrite run_unfold in E.
  apply try_finally_inv in E as (rb & wb & Eb & Hcases).
  assert (Hsub : forall e, e ∈ trace wb -> e ∈ trace w).
  { intros e He. destruct Hcases as [(_ & _ & ->) | (_ & rc & Ec & _)]; [exact He |].
    pose proof (run_cleanup_only env wb) as H. rewrite Ec in H.
    eapply only_subseteq; eauto. }
  assert (Hback : forall e, e ∈ trace w -> e ∈ trace wb \/ phase_of e = Destroying).
  { intros e He. destruct Hcases as [(_ & _ & ->) | (_ & rc & Ec & _)]; [now left |].
    pose proof (run_cleanup_only env wb) as H. rewrite Ec in H.
    exact (only_elem_of _ _ _ _ H He). }
  apply run_body_stages in Eb
    as [[_ Hprov] | (w3 & Hprov & [(e & Ep & ->) | (instance & info & p' & w4 & Ep & Ed)])].
  - exfalso. destruct (Hback _ Hstart) as [H | H]; [| discriminate H].
    apply (only_trace_nil provisioning (started (start f)) wb _ eq_refl Hprov) in H.
    destruct H as [H | [H | H]]; discriminate H.
  - pose proof (package_project_raises env _ _ _ _ _ Ep Htmp) as Hfile.
    pose proof (package_project_only env project_path w3) as Hpack.
    rewrite Ep in Hpack. cbn [snd] in Hpack.
    assert (Hun : ~ Unlink p ∈ trace wb).
    { intros H. destruct (only_elem_of _ _ _ _ Hpack H) as [H' | H']; [| discriminate H'].
      apply (only_trace_nil provisioning (started (start f)) w3 _ eq_refl Hprov) in H'.
      destruct H' as [H' | [H' | H']]; discriminate H'. }
    destruct Hcases as [(Hd & _) | (_ & rc & Ec & ->)]; [discriminate Hd |].
    pose proof (run_cleanup_same_fs env wb) as Hfs.
    rewrite Ec in Hfs. unfold same_fs in Hfs. cbn [fst snd] in Hfs.
    split; [now rewrite Hfs |]. split.
    + intros H. destruct (Hback _ H) as [H' | H']; [contradiction | discriminate H'].
    + destruct rc as [[] | e' |]; [left; now exists e | left; now exists e' |].
      right. split; [reflexivity |].
      destruct (Py.truthy (run_contract_id wb)) eqn:Etr.
      * rewrite (run_cleanup_destroys env wb Etr) in Ec.
        destruct (vastai env (cli_calls wb) (destroy_cmd (run_contract_id wb))) eqn:V;
          try discriminate Ec.
        eauto.
      * rewrite (run_cleanup_skips env wb Etr) in Ec. discriminate Ec.
  - exfalso. apply package_project_returns in Ep as [size_mb Hin].
    apply (Hnot size_mb). apply Hsub.
    pose proof (deploy_and_unlink_working env (clock env (clock_reads (start f))) instance
                  info p' (Py.path_name project_path) w4) as H.
    rewrite Ed in H. eapply only_subseteq; eauto.
Qed.

Lemma failed_packaging_leaves_the_temporary_file_witness :
  is_file (fs (run scenario_unreadable_source 10 "/home/user/proj" (start ∅)).2
           !! "/tmp/tmpabc.tar.gz") /\
  ~ Unlink "/tmp/tmpabc.tar.gz"
      ∈ trace (run scenario_unreadable_source 10 "/home/user/proj" (start ∅)).2 /\
  ((exists e, (run scenario_unreadable_source 10 "/home/user/proj" (start ∅)).1 = Raise e) \/
   ((run scenario_unreadable_source 10 "/home/user/proj" (start ∅)).1 = Diverge /\
    exists n c, vastai scenario_unreadable_source n (destroy_cmd c) = CliBlocks)).
Proof.
  apply (failed_packaging_leaves_the_temporary_file scenario_unreadable_source 10
           "/home/user/proj" ∅ _ _ "/tmp/tmpabc.tar.gz" (surjective_pairing _)).
  - reflexivity.
  - apply list_elem_of_In. vm_compute. repeat (first [left; reflexivity | right]).
  - intros size_mb H. apply list_elem_of_In in H. vm_compute in H.
    repeat (destruct H as [H | H]; [discriminate H |]). exact H.
Defined.

(** ** The SSH session *)

Section Session.

Variable env : Env.

Lemma find_model_files_open dir ps acc :
  respects (only (fun e => closes e = false)) (find_model_files env dir ps acc).
Proof.
  revert acc. induction ps as [| p ps IH]; intros acc; simpl.
  - respects_auto.
  - unfold exec_command. respects_auto.
Qed.

Lemma session_body_open (p name : string) :
  respects (only (fun e => closes e = false))
    (bind (train env p name) (fun dir => download_artifacts env dir)).
Proof.
  pose proof find_model_files_open.
  pose proof (time_time_silent env (fun e => closes e = false)).
  unfold train, scp_put_file, exec_command, stream_command, download_artifacts, download_all,
    mkdir_exist_ok, scp_get_file.
  respects_auto.
Qed.

Lemma session_body_total (p name : string) :
  ssh_ends env ->
  total (bind (train env p name) (fun dir => download_artifacts env dir)).
Proof.
  intros Hssh.
  apply total_bind; [now apply train_total | intros dir; now apply download_artifacts_total].
Qed.

End Session.


(** A training that never exits: the run hangs after the one line that the
    training completed, with the connection open, the package on disk and
    the instance running. *)
Example hanging_training_keeps_everything_open :
  (played scenario_training_hangs).1 = Diverge /\
  (exists before,
     trace (played scenario_training_hangs).2
     = before ++ [SshExec "cd /root/proj && python train.py" true; Print (MsgLine "epoch 1")]) /\
  Forall (fun e => closes e = false) (trace (played scenario_training_hangs).2) /\
  Forall (fun e => destroys e = false) (trace (played scenario_training_hangs).2) /\
  is_file (fs (played scenario_training_hangs).2 !! "/tmp/tmpabc.tar.gz").
Proof.
  split; [vm_compute; reflexivity |].
  split.
  { exists (take (length (trace (played scenario_training_hangs).2) - 2)
                 (trace (played scenario_training_hangs).2)).
    vm_compute. reflexivity. }
  split; [apply Forall_forallb_false; vm_compute; reflexivity |].
  split; [apply Forall_forallb_false; vm_compute; reflexivity |].
  vm_compute. exact I.
Qed.


(** ** A download that fails *)

(** X18.  A download that fails ends the collection where it stands.  The files
    before it in the list were fetched and stay in the results directory,
    the failing file was requested, the files after it are never
    requested, and the exception of the transfer is raised. *)
Theorem failed_download_keeps_the_earlier_files (env : Env) (results_dir : string)
    (before after : list string) (failing : string) (e : exn) (w : World) :
  Forall (fun f => exists data, scp_get env f = Val data) before ->
  scp_get env failing = Exc e ->
  (forall f, f ∈ before -> fs w !! local_file results_dir f <> Some Directory) ->
  exists w',
    download_all env results_dir (before ++ failing :: after) w = (Raise e, w') /\
    fs w' = downloaded env results_dir before (fs w) /\
    trace w' = trace w ++ flat_map (download_events results_dir) before
               ++ download_events results_dir failing.
Proof.
  unfold download_all. intros Hbefore Hfail. revert w.
  induction Hbefore as [| f files (data & Hf) _ IH]; intros w Hdir; simpl.
  - unfold scp_get_file. rewrite Hfail. mstep.
    eexists. split; [reflexivity |]. split; [reflexivity |].
    simpl. now rewrite <- !app_assoc.
  - unfold scp_get_file at 1. rewrite Hf. mstep.
    assert (Et : scp_target (fs w) f (local_file results_dir f) = local_file results_dir f).
    { unfold scp_target. specialize (Hdir f ltac:(set_solver)).
      destruct (fs w !! local_file results_dir f) as [[] |]; congruence. }
    rewrite Et.
    match goal with |- context [for_each _ _ ?w1] =>
      destruct (IH w1) as (w' & E & Hfs & Ht)
    end.
    { intros g Hg. simpl.
      destruct (decide (local_file results_dir f = local_file results_dir g)) as [<- | Hne].
      - rewrite lookup_insert_eq. discriminate.
      - rewrite lookup_insert_ne by exact Hne. apply Hdir. set_solver. }
    exists w'. split; [exact E |]. split.
    + rewrite Hfs. simpl. unfold contents. now rewrite Hf.
    + rewrite Ht. simpl. now rewrite <- !app_assoc.
Qed.

Lemma failed_download_keeps_the_earlier_files_witness :
  exists w',
    download_all scenario_download_fails "speedrun_results_1000"
      (["/root/proj/model.pt"] ++ "/root/proj/weights.pth" :: ["/root/proj/best.pkl"])
      (start ∅)
    = (Raise (TransportError "connection lost"), w') /\
    fs w' = downloaded scenario_download_fails "speedrun_results_1000"
              ["/root/proj/model.pt"] (fs (start ∅)) /\
    trace w' = trace (start ∅)
               ++ flat_map (download_events "speedrun_results_1000") ["/root/proj/model.pt"]
               ++ download_events "speedrun_results_1000" "/root/proj/weights.pth".
Proof.
  apply (failed_download_keeps_the_earlier_files scenario_download_fails
           "speedrun_results_1000" ["/root/proj/model.pt"] ["/root/proj/best.pkl"]
           "/root/proj/weights.pth" (TransportError "connection lost") (start ∅)).
  - apply List.Forall_cons; [eexists; reflexivity | apply List.Forall_nil].
  - reflexivity.
  - intros f Hf. unfold start. cbn [fs]. rewrite lookup_empty. discriminate.
Defined.

(** ** Exit statuses *)

Lemma startswith_app (p s : string) : Py.startswith p (p +:+ s) = true.
Proof.
  unfold Py.startswith. induction p as [| c p IH]; simpl.
  - now destruct s.
  - destruct (ascii_dec c c) as [_ | H]; [exact IH | contradiction].
Qed.

Lemma bind_cong {A B} (m m' : M A) (k k' : A -> M B) (w : World) :
  m' w = m w -> (forall a w1, k' a w1 = k a w1) -> bind m' k' w = bind m k w.
Proof. intros Hm Hk. unfold bind. rewrite Hm. destruct (m w) as [[a | e |] w1]; auto. Qed.

Lemma try_finally_cong {A} (body body' : M A) (cleanup : M unit) (w : World) :
  body' w = body w -> try_finally body' cleanup w = try_finally body cleanup w.
Proof. intros H. unfold try_finally. now rewrite H. Qed.

Section Statuses.

Variable env : Env.
Variable exec : string -> exec_result.

Hypothesis same_output : forall cmd, forget_status (exec cmd) = forget_status (ssh_exec env cmd).

(** A command whose exit status is not read. *)
Lemma exec_command_unchecked {B} (cmd : string) (pty : bool)
    (k k' : string * string * Z -> M B) (w : World) :
  (forall out err s s' w1, k' (out, err, s') w1 = k (out, err, s) w1) ->
  bind (exec_command (with_exec env exec) cmd pty) k' w
  = bind (exec_command env cmd pty) k w.
Proof.
  intros Hk. unfold exec_command. rewrite !bind_assoc, !bind_emit. cbn [ssh_exec with_exec].
  specialize (same_output cmd).
  destruct (exec cmd) as [out err s | e | out],
           (ssh_exec env cmd) as [out' err' s' | e' | out'];
    simpl in same_output; try discriminate same_output.
  - injection same_output as -> ->. rewrite !bind_ret. apply Hk.
  - injection same_output as ->. reflexivity.
  - reflexivity.
Qed.

Lemma find_model_files_unchecked (dir : string) (ps : list string) (acc : list string)
    (w : World) :
  find_model_files (with_exec env exec) dir ps acc w = find_model_files env dir ps acc w.
Proof.
  revert acc w. induction ps as [| p ps IH]; intros acc w; simpl; [reflexivity |].
  apply exec_command_unchecked. intros out err s s' w1. apply IH.
Qed.

Lemma download_artifacts_unchecked (dir : string) (w : World) :
  download_artifacts (with_exec env exec) dir w = download_artifacts env dir w.
Proof.
  unfold download_artifacts. apply bind_cong; [reflexivity | intros _ w1].
  apply bind_cong; [apply find_model_files_unchecked | intros files w2]. reflexivity.
Qed.

Hypothesis same_training :
  forall dir, exec (training_command dir) = ssh_exec env (training_command dir).

Lemma train_unchecked (p name : string) (w : World) :
  train (with_exec env exec) p name w = train env p name w.
Proof.
  unfold train.
  apply bind_cong; [reflexivity | intros _ w1].
  apply bind_cong; [reflexivity | intros _ w2].
  apply bind_cong; [reflexivity | intros _ w3].
  apply exec_command_unchecked. intros out0 err0 s0 s0' w4.
  apply exec_command_unchecked. intros out1 err1 s1 s1' w5. cbn [fst snd].
  apply bind_cong; [reflexivity | intros _ w6].
  apply exec_command_unchecked. intros out2 err2 s2 s2' w7. cbn [fst snd]. cbv zeta.
  apply bind_cong; [reflexivity | intros dir w8].
  apply exec_command_unchecked. intros out3 err3 s3 s3' w9. cbn [fst snd].
  apply bind_cong.
  { destruct (String.eqb err3 ""); [| reflexivity].
    apply bind_cong; [reflexivity | intros _ w10].
    apply exec_command_unchecked. reflexivity. }
  intros _ w10.
  apply bind_cong; [reflexivity | intros _ w11].
  apply bind_cong; [| reflexivity].
  unfold stream_command. cbn [ssh_exec with_exec]. now rewrite same_training.
Qed.

End Statuses.

(** X15.  Only the exit status of the training is looked at.  The statuses of
    the commands that unpack the project, look for [train.py] and
    [requirements.txt], install the requirements and search for artifacts
    are never read: two remote hosts that give the same output and the same
    errors for every command, and the same status for the training
    command, give the same run on the instance. *)
Theorem only_the_training_status_is_checked (env : Env) (exec : string -> exec_result)
    (info : json) (p name : string) (w : World) :
  (forall cmd, forget_status (exec cmd) = forget_status (ssh_exec env cmd)) ->
  (forall dir, exec (training_command dir) = ssh_exec env (training_command dir)) ->
  run_on_instance (with_exec env exec) info p name w = run_on_instance env info p name w.
Proof.
  intros Hout Htrain. unfold run_on_instance.
  apply bind_cong; [reflexivity | intros conn w1]. cbv zeta.
  apply bind_cong; [reflexivity | intros _ w2].
  apply bind_cong; [reflexivity | intros _ w3].
  apply bind_cong; [reflexivity | intros _ w4].
  apply bind_cong; [reflexivity | intros _ w5].
  apply bind_cong; [reflexivity | intros _ w6].
  apply bind_cong; [reflexivity | intros _ w7].
  apply try_finally_cong.
  apply bind_cong; [now apply train_unchecked | intros dir w8].
  now apply download_artifacts_unchecked.
Qed.

Lemma only_the_training_status_is_checked_witness :
  run_on_instance (with_exec scenario_a failing_lookups) (running_instance (JInt 7001))
    "/tmp/tmpabc.tar.gz" "proj" package_in_place
  = run_on_instance scenario_a (running_instance (JInt 7001))
      "/tmp/tmpabc.tar.gz" "proj" package_in_place.
Proof.
  apply (only_the_training_status_is_checked scenario_a failing_lookups
           (running_instance (JInt 7001)) "/tmp/tmpabc.tar.gz" "proj" package_in_place).
  - intros cmd. unfold failing_lookups. cbn [ssh_exec scenario_a make_env].
    destruct (remote 0 found_two cmd); [| reflexivity ..].
    destruct (Py.startswith "cd " cmd); reflexivity.
  - intros dir. unfold failing_lookups. cbn [ssh_exec scenario_a make_env].
    unfold training_command. rewrite startswith_app.
    destruct (remote 0 found_two ("cd " +:+ dir +:+ " && python train.py")); reflexivity.
Defined.

(** ** The project directory on the instance *)

Lemma split_nonempty (sep : ascii) (s : string) : Py.split sep s <> [].
Proof.
  destruct s as [| c s]; simpl; [discriminate |].
  destruct (Ascii.eqb c sep); [discriminate |].
  destruct (Py.split sep s); discriminate.
Qed.

Lemma split_app (sep : ascii) (a b : string) :
  Py.split sep (a +:+ String sep b) = Py.split sep a ++ Py.split sep b.
Proof.
  induction a as [| c a IH]; simpl.
  - now rewrite Ascii.eqb_refl.
  - destruct (Ascii.eqb c sep); [now rewrite IH |].
    rewrite IH. pose proof (split_nonempty sep a) as Hne.
    destruct (Py.split sep a) as [| x xs]; [contradiction | reflexivity].
Qed.

Lemma but_last_snoc {A} (l : list A) (x : A) : Py.but_last (l ++ [x]) = l.
Proof.
  unfold Py.but_last. rewrite length_app. simpl.
  replace (length l + 1 - 1) with (length l) by lia.
  now rewrite take_app_length.
Qed.

Lemma join_split (sep : ascii) (s : string) :
  Py.join (String sep EmptyString) (Py.split sep s) = s.
Proof.
  induction s as [| c s IH]; [reflexivity |]. simpl Py.split.
  pose proof (split_nonempty sep s) as Hne.
  destruct (Ascii.eqb c sep) eqn:Ec.
  - apply Ascii.eqb_eq in Ec as ->.
    destruct (Py.split sep s) as [| x xs]; [contradiction |].
    change (Py.join (String sep "") ("" :: x :: xs))
      with ("" +:+ String sep "" +:+ Py.join (String sep "") (x :: xs)).
    now rewrite IH.
  - destruct (Py.split sep s) as [| x xs]; [contradiction |].
    destruct xs as [| y ys]; simpl in IH |- *; now rewrite <- IH.
Qed.

(** The directory of a path that ends in [/train.py]. *)
Lemma dirname_train_py (d : string) :
  Py.join "/" (Py.but_last (Py.split "/" (d +:+ "/train.py"))) = d.
Proof.
  change (d +:+ "/train.py") with (d +:+ String "/" "train.py").
  rewrite split_app.
  change (Py.split "/" "train.py") with ["train.py"].
  rewrite but_last_snoc. apply join_split.
Qed.

(** One step of a computation that only unpacks. *)
Ltac unpack_step E H :=
  match type of E with
  | bind ?m _ ?w1 = _ =>
      let Hm := fresh "Hm" in
      assert (Hm : respects (only (fun e => unpacking e = true)) m)
        by (unfold scp_put_file, exec_command; respects_auto);
      specialize (Hm w1);
      let a := fresh "a" in
      let w2 := fresh "w" in
      let Em := fresh "Em" in
      let e := fresh "e" in
      apply bind_inv in E as [(a & w2 & Em & E) | [(e & Em & ->) | (Em & ->)]];
      rewrite Em in Hm; cbn [snd] in Hm;
      [ | left; split; [etransitivity; [exact H | exact Hm] | intros ?; discriminate] ..];
      apply (transitivity H) in Hm; clear H Em; rename Hm into H
  end.

Section Setup.

Variable env : Env.

(** [train] either stops while it unpacks the project, or it finds the
    project directory and goes on with the requirements and the
    training. *)
Lemma train_setup (p name : string) (w w' : World) (r : outcome string) :
  train env p name w = (r, w') ->
  (only (fun e => unpacking e = true) w w' /\ forall dir, r <> Ok dir) \/
  exists out err status w1,
    ssh_exec env "find /root -name 'train.py' -type f" = ExecDone out err status /\
    only (fun e => unpacking e = true) w w1 /\
    bind (exec_command env (requirements_command (project_dir out name)) false) (fun r0 =>
      bind (if String.eqb r0.1.2 ""
            then bind (print MsgInstalling) (fun _ =>
                   bind (exec_command env (install_command (project_dir out name)) false)
                        (fun _ => print MsgInstalled))
            else ret tt) (fun _ =>
        bind (print MsgRunning) (fun _ =>
          bind (stream_command env (training_command (project_dir out name))) (fun status =>
            bind (if negb (Z.eqb status 0)
                  then raise (RuntimeError "Training failed") else ret tt) (fun _ =>
              bind (print MsgCompleted) (fun _ => ret (project_dir out name))))))) w1
    = (r, w').
Proof.
  intros E. unfold train in E.
  assert (H : only (fun e => unpacking e = true) w w) by reflexivity.
  do 6 unpack_step E H.
  unfold exec_command at 1 in E. rewrite bind_assoc, bind_emit in E. cbv beta in E.
  destruct (ssh_exec env "find /root -name 'train.py' -type f") as [out err status | e | out]
    eqn:Efind.
  2, 3: (injection E as <- <-; left; (split; [| discriminate]);
         apply only_log_r; [forall_list ltac:(exact eq_refl) | exact H]).
  rewrite bind_ret in E. cbn [fst snd] in E. cbv zeta in E.
  right. exists out, err, status. unfold project_dir. cbv zeta.
  destruct (String.eqb (Py.strip out) "") eqn:Eblank; simpl negb in E; cbv iota in E;
    rewrite bind_assoc, bind_print, bind_ret in E; cbv beta in E;
    (eexists; split; [reflexivity |]; split; [| exact E]);
    (apply only_log_r; [forall_list ltac:(exact eq_refl) |]);
    (apply only_log_r; [forall_list ltac:(exact eq_refl) | exact H]).
Qed.

End Setup.

Lemma only_unpacking_quiet (w w' : World) :
  only (fun e => unpacking e = true) w w' -> only (fun e => interactive e = false) w w'.
Proof. apply only_weaken. intros [[] | | | | | | | | | | | | [] [] | |]; now simpl. Qed.

(** X16.  Where the training runs.  The only command run with a terminal is
    the training, in the directory taken from the output of the search for
    [train.py]: the output up to its last [/train.py], so the directory of
    [train.py] when one path is reported, and [/root/<project name>] when
    the search prints nothing. *)
Theorem training_runs_in_the_project_directory (env : Env) (p name : string) (w w' : World)
    (r : outcome string) (find_out find_err : string) (find_status : Z) (cmd : string) :
  train env p name w = (r, w') ->
  Forall (fun e => interactive e = false) (trace w) ->
  ssh_exec env "find /root -name 'train.py' -type f" = ExecDone find_out find_err find_status ->
  SshExec cmd true ∈ trace w' ->
  cmd = training_command (project_dir find_out name) /\
  (forall d, Py.strip find_out = d +:+ "/train.py" -> project_dir find_out name = d) /\
  (Py.strip find_out = "" -> project_dir find_out name = "/root/" +:+ name).
Proof.
  intros E Fw Hfind Hin. split; [| split].
  - assert (Hq : forall w1, only (fun e => interactive e = false) w w1 ->
                   ~ SshExec cmd true ∈ trace w1).
    { intros w1 (evs & Et & F). rewrite Et. apply quiet_not_interactive.
      now apply Forall_app. }
    apply train_setup in E as [[Hu _] | (out & err & status & w1 & Hfind' & Hu & E)].
    { exfalso. apply (Hq w'); [now apply only_unpacking_quiet | exact Hin]. }
    rewrite Hfind in Hfind'. injection Hfind' as <- <- <-.
    apply only_unpacking_quiet in Hu.
    assert (Hstop : forall w2, only (fun e => interactive e = false) w w2 -> w' = w2 ->
              cmd = training_command (project_dir find_out name)).
    { intros w2 Ho ->. exfalso. now apply (Hq w2). }
    do 3 (match type of E with
          | bind ?m _ ?w1 = _ =>
              let Hm := fresh "Hm" in
              assert (Hm : respects (only (fun e => interactive e = false)) m)
                by (unfold exec_command; respects_auto);
              specialize (Hm w1);
              let a := fresh "a" in
              let w2 := fresh "w" in
              let Em := fresh "Em" in
              let e := fresh "e" in
              apply bind_inv in E as [(a & w2 & Em & E) | [(e & Em & ->) | (Em & ->)]];
              rewrite Em in Hm; cbn [snd] in Hm;
              [ | apply (Hstop w'); [etransitivity; [exact Hu | exact Hm] | reflexivity] ..];
              apply (transitivity Hu) in Hm; clear Hu Em; rename Hm into Hu
          end).
    unfold stream_command at 1 in E. rewrite bind_assoc, bind_emit in E. cbv beta in E.
    match type of E with
    | bind ?m ?k ?wl = _ =>
        assert (Hm : respects (only (fun e => interactive e = false)) (bind m k))
          by respects_auto;
        specialize (Hm wl); rewrite E in Hm; cbn [snd] in Hm;
        destruct Hm as (evs & Et & F)
    end.
    rewrite Et in Hin. cbn [trace log] in Hin.
    rewrite !elem_of_app, list_elem_of_singleton in Hin.
    destruct Hin as [[Hin | Hin] | Hin].
    + exfalso. now apply (Hq _ Hu).
    + now injection Hin.
    + exfalso. exact (quiet_not_interactive _ _ F Hin).
  - intros d Hd. unfold project_dir. cbv zeta. rewrite Hd.
    replace (String.eqb (d +:+ "/train.py") "") with false by now destruct d.
    apply dirname_train_py.
  - intros Hblank. unfold project_dir. cbv zeta. now rewrite Hblank.
Qed.

Lemma training_runs_in_the_project_directory_witness :
  "cd /root/proj && python train.py"
  = training_command (project_dir "/root/proj/train.py
" "proj") /\
  (forall d, Py.strip "/root/proj/train.py
" = d +:+ "/train.py" ->
             project_dir "/root/proj/train.py
" "proj" = d) /\
  (Py.strip "/root/proj/train.py
" = "" ->
   project_dir "/root/proj/train.py
" "proj" = "/root/" +:+ "proj").
Proof.
  apply (training_runs_in_the_project_directory scenario_a "/tmp/tmpabc.tar.gz" "proj"
           package_in_place _ _ _ "" 0 _ (surjective_pairing _)).
  - apply List.Forall_nil.
  - reflexivity.
  - apply list_elem_of_In. vm_compute. repeat (first [left; reflexivity | right]).
Defined.

(** ** The requirements *)

(** X17.  Whether the requirements are installed is decided by the error
    output of [ls <dir>/requirements.txt] alone.  In a run that reaches the
    training, the events on the instance are the unpacking, that [ls], then
    the installation by [pip] exactly when [ls] wrote nothing to its
    standard error, then the training; neither the exit status of [ls] nor
    that of [pip] is looked at. *)
Theorem requirements_are_installed_when_ls_is_silent (env : Env) (p name : string)
    (w w' : World) (r : outcome string) (find_out find_err out err : string)
    (find_status status : Z) (evs : list event) :
  train env p name w = (r, w') ->
  ssh_exec env "find /root -name 'train.py' -type f" = ExecDone find_out find_err find_status ->
  ssh_exec env (requirements_command (project_dir find_out name)) = ExecDone out err status ->
  trace w' = trace w ++ evs ->
  Print MsgRunning ∈ evs ->
  exists before after,
    Forall (fun e => unpacking e = true) before /\
    evs = before ++ SshExec (requirements_command (project_dir find_out name)) false
          :: (if String.eqb err ""
              then [Print MsgInstalling;
                    SshExec (install_command (project_dir find_out name)) false;
                    Print MsgInstalled]
              else [])
          ++ Print MsgRunning :: after.
Proof.
  intros E Hfind Hreq Et Hin.
  assert (Hnot : forall l, Forall (fun e => unpacking e = true) l -> ~ Print MsgRunning ∈ l).
  { intros l F H. rewrite Forall_forall in F. specialize (F _ H). discriminate F. }
  apply train_setup in E as [[(evs' & Et' & F) _] | (out0 & err0 & st0 & w1 & Hfind' & Hu & E)].
  { exfalso. rewrite Et' in Et. apply app_inv_head in Et. subst evs'. now apply (Hnot evs). }
  rewrite Hfind in Hfind'. injection Hfind' as <- <- <-.
  destruct Hu as (before & Et1 & Fb). exists before.
  erewrite bind_exec_command in E by exact Hreq. cbn [fst snd] in E.
  assert (Hrest : forall w2 pre,
            bind (print MsgRunning) (fun _ =>
              bind (stream_command env (training_command (project_dir find_out name)))
                (fun status =>
                  bind (if negb (Z.eqb status 0)
                        then raise (RuntimeError "Training failed") else ret tt) (fun _ =>
                    bind (print MsgCompleted)
                         (fun _ => ret (project_dir find_out name))))) w2
            = (r, w') ->
            trace w2 = trace w ++ before ++ pre ->
            exists after, evs = before ++ pre ++ Print MsgRunning :: after).
  { intros w2 pre E2 Et2. rewrite bind_print in E2. cbv beta in E2.
    match type of E2 with
    | ?m ?wl = _ =>
        assert (Hm : respects (only (fun _ => True)) m)
          by (unfold stream_command; respects_auto);
        specialize (Hm wl); rewrite E2 in Hm; cbn [snd] in Hm;
        destruct Hm as (after & Eta & _)
    end.
    exists after. cbn [trace log] in Eta. rewrite Eta, Et2, <- !app_assoc in Et.
    apply app_inv_head in Et. now rewrite <- Et. }
  destruct (String.eqb err "").
  - rewrite !bind_assoc, bind_print in E. cbv beta in E.
    unfold exec_command at 1 in E. rewrite !bind_assoc, bind_emit in E. cbv beta in E.
    destruct (ssh_exec env (install_command (project_dir find_out name)))
      as [out2 err2 st2 | e | out2].
    + rewrite bind_ret, bind_print in E. cbv beta in E.
      apply (Hrest _ [SshExec (requirements_command (project_dir find_out name)) false;
                      Print MsgInstalling;
                      SshExec (install_command (project_dir find_out name)) false;
                      Print MsgInstalled]) in E as (after & Eevs);
        [| cbn [trace log]; rewrite Et1, <- !app_assoc; reflexivity].
      exists after. split; [exact Fb | exact Eevs].
    + exfalso. rewrite bind_raise in E. injection E as _ <-. cbn [trace log] in Et.
      rewrite Et1, <- !app_assoc in Et. apply app_inv_head in Et. subst evs.
      rewrite ?elem_of_app, ?elem_of_cons, ?elem_of_nil in Hin.
      destruct_or! Hin; try discriminate Hin; try contradiction.
      now apply (Hnot before).
    + exfalso. unfold bind, diverge in E. injection E as _ <-. cbn [trace log] in Et.
      rewrite Et1, <- !app_assoc in Et. apply app_inv_head in Et. subst evs.
      rewrite ?elem_of_app, ?elem_of_cons, ?elem_of_nil in Hin.
      destruct_or! Hin; try discriminate Hin; try contradiction.
      now apply (Hnot before).
  - rewrite bind_ret in E.
    apply (Hrest _ [SshExec (requirements_command (project_dir find_out name)) false]) in E
      as (after & Eevs); [| cbn [trace log]; rewrite Et1, <- !app_assoc; reflexivity].
    exists after. split; [exact Fb | exact Eevs].
Qed.

Lemma requirements_are_installed_when_ls_is_silent_witness :
  exists before after,
    Forall (fun e => unpacking e = true) before /\
    [Print MsgUploading; ScpPut "/tmp/tmpabc.tar.gz" "/root/project.tar.gz";
     Print MsgExtracting;
     SshExec "cd /root && tar -xzf project.tar.gz && rm project.tar.gz" false;
     SshExec "ls -la /root/" false; Print (MsgDirContents "");
     SshExec "find /root -name 'train.py' -type f" false; Print (MsgFoundTrain "/root/proj");
     SshExec "ls /root/proj/requirements.txt" false; Print MsgInstalling;
     SshExec "cd /root/proj && pip install -r requirements.txt" false; Print MsgInstalled;
     Print MsgRunning; SshExec "cd /root/proj && python train.py" true;
     Print (MsgLine "epoch 1"); Print (MsgLine "epoch 2"); Print MsgCompleted]
    = before ++ SshExec (requirements_command (project_dir "/root/proj/train.py
" "proj")) false
      :: (if String.eqb "" ""
          then [Print MsgInstalling;
                SshExec (install_command (project_dir "/root/proj/train.py
" "proj")) false;
                Print MsgInstalled]
          else [])
      ++ Print MsgRunning :: after.
Proof.
  apply (requirements_are_installed_when_ls_is_silent scenario_requirements
           "/tmp/tmpabc.tar.gz" "proj" package_in_place _ _ _ "" "/root/proj/requirements.txt
" "" 0 0 _ (surjective_pairing _)).
  - reflexivity.
  - reflexivity.
  - vm_compute. reflexivity.
  - apply list_elem_of_In. vm_compute. repeat (first [left; reflexivity | right]).
Defined.

(** ** The calls to the marketplace *)

Lemma calls_local (evs : list event) :
  Forall (fun e => backend e = false) evs -> calls evs = [].
Proof.
  induction 1 as [| e evs He _ IH]; [reflexivity |].
  destruct e; try discriminate He; exact IH.
Qed.

Lemma only_local_calls (w w' : World) :
  only (fun e => backend e = false) w w' -> calls (trace w') = calls (trace w).
Proof.
  intros (evs & Et & F). rewrite Et, calls_app, (calls_local evs F). apply app_nil_r.
Qed.

Section Protocol.

Variable env : Env.

Lemma select_best_local (j : json) : respects (only (fun e => backend e = false)) (select_best j).
Proof. unfold select_best. respects_auto. Qed.

(** The selection issues between one and four searches, the tiers in
    their order, whatever its outcome. *)
Lemma find_best_gpu_calls (w : World) :
  exists n, 1 <= n <= 4 /\
            calls (trace (find_best_gpu env w).2) = calls (trace w) ++ take n tiers.
Proof.
  assert (Hsel : forall j w1 n,
            calls (trace w1) = calls (trace w) ++ take n tiers ->
            calls (trace (select_best j w1).2) = calls (trace w) ++ take n tiers).
  { intros j w1 n <-. apply only_local_calls, select_best_local. }
  assert (Hstep : forall cmd w1 l,
            calls (trace w1) = calls (trace w) ++ l ->
            calls (trace (issue cmd w1)) = calls (trace w) ++ l ++ [cmd]).
  { intros cmd w1 l H. cbn [trace issue]. rewrite calls_app, H, <- app_assoc. reflexivity. }
  unfold find_best_gpu. rewrite bind_print; cbv beta.
  assert (H0 : calls (trace (log [Print MsgFinding] w)) = calls (trace w) ++ []).
  { cbn [trace log]. rewrite calls_app. reflexivity. }
  unfold bind at 1. rewrite run_vastai_cmd_spec.
  apply (Hstep tier1) in H0.
  destruct (cli_outcome _) as [j1 | e |]; [| exists 1; split; [lia | exact H0] ..].
  destruct (Py.truthy j1) eqn:T1; simpl negb; cbv iota.
  { repeat (rewrite bind_ret; cbv beta; rewrite ?T1; simpl negb; cbv iota).
    exists 1. split; [lia |]. now apply Hsel. }
  rewrite bind_assoc, bind_print; cbv beta.
  unfold bind at 1. rewrite run_vastai_cmd_spec.
  assert (H1 : calls (trace (log [Print MsgNoAffordable4] (issue tier1 (log [Print MsgFinding] w))))
               = calls (trace w) ++ [tier1]).
  { cbn [trace log]. rewrite calls_app, app_nil_r. exact H0. }
  apply (Hstep tier2) in H1.
  destruct (cli_outcome _) as [j2 | e |]; [| exists 2; split; [lia | exact H1] ..].
  destruct (Py.truthy j2) eqn:T2; simpl negb; cbv iota.
  { repeat (rewrite bind_ret; cbv beta; rewrite ?T2; simpl negb; cbv iota).
    exists 2. split; [lia |]. now apply Hsel. }
  rewrite bind_assoc, bind_print; cbv beta.
  unfold bind at 1. rewrite run_vastai_cmd_spec.
  match goal with |- context [issue tier3 ?w2] =>
    assert (H2 : calls (trace w2) = calls (trace w) ++ [tier1; tier2])
      by (cbn [trace log]; rewrite calls_app, app_nil_r; exact H1)
  end.
  apply (Hstep tier3) in H2.
  destruct (cli_outcome _) as [j3 | e |]; [| exists 3; split; [lia | exact H2] ..].
  destruct (Py.truthy j3) eqn:T3; simpl negb; cbv iota.
  { repeat (rewrite bind_ret; cbv beta; rewrite ?T3; simpl negb; cbv iota).
    exists 3. split; [lia |]. now apply Hsel. }
  rewrite bind_assoc, bind_print; cbv beta.
  unfold bind at 1. rewrite run_vastai_cmd_spec.
  match goal with |- context [issue tier4 ?w3] =>
    assert (H3 : calls (trace w3) = calls (trace w) ++ [tier1; tier2; tier3])
      by (cbn [trace log]; rewrite calls_app, app_nil_r; exact H2)
  end.
  apply (Hstep tier4) in H3.
  destruct (cli_outcome _) as [j4 | e |]; [| exists 4; split; [lia | exact H3] ..].
  exists 4. split; [lia |]. now apply Hsel.
Qed.

(** Creation issues exactly the create command, whatever its outcome. *)
Lemma create_instance_calls (offer_id : json) (w : World) :
  calls (trace (create_instance env offer_id w).2) = calls (trace w) ++ [create_cmd offer_id].
Proof.
  rewrite create_instance_cmd.
  destruct (cli_outcome _) as [result | e |];
    [destruct (Py.getitem result "new_contract") as [c | e] | ..];
    cbn [snd trace log issue]; rewrite !calls_app; simpl; now rewrite ?app_nil_r.
Qed.

(** The wait issues nothing but polls, at most as many as the fuel. *)
Lemma wait_for_instance_calls (fuel : nat) (c : json) (w : World) :
  exists k, k <= fuel /\
            calls (trace (wait_for_instance env fuel c w).2)
            = calls (trace w) ++ replicate k show_cmd.
Proof.
  unfold wait_for_instance. rewrite bind_print. cbv beta.
  assert (H : forall fuel w0,
             exists k, k <= fuel /\
                       calls (trace (wait_loop env fuel c w0).2)
                       = calls (trace w0) ++ replicate k show_cmd).
  { clear. induction fuel as [| fuel IH]; intros w0.
    - exists 0. split; [lia |]. simpl. now rewrite app_nil_r.
    - destruct (poll_ends env c (cli_calls w0)) eqn:E0.
      + exists 1. split; [lia |].
        rewrite wait_loop_S. unfold bind at 1. rewrite run_vastai_cmd_spec.
        assert (Hi : calls (trace (issue show_cmd w0)) = calls (trace w0) ++ [show_cmd]).
        { cbn [trace issue]. now rewrite calls_app. }
        unfold poll_ends in E0.
        destruct (vastai env (cli_calls w0) show_cmd) as [j | | | |]; cbn [cli_outcome];
          [| exact Hi ..].
        destruct (Py.iterate j) as [items | e]; [| exact Hi]. rewrite bind_lift_Val.
        destruct (find_running c items) as [[found |] | e]; [| discriminate E0 | exact Hi].
        rewrite bind_lift_Val, bind_print. cbv beta.
        destruct (ssh_fields found) as [[| x fields] | e]; mstep;
          simpl; rewrite ?calls_app; simpl; now rewrite ?app_nil_r.
      + rewrite (wait_loop_continues env fuel c w0 E0).
        destruct (IH (log [Sleep 10] (issue show_cmd w0))) as (k & Hk & Hc).
        exists (S k). split; [lia |]. rewrite Hc. cbn [trace log issue].
        rewrite !calls_app. simpl. now rewrite app_nil_r, <- app_assoc. }
  destruct (H fuel (log [Print MsgWaiting] w)) as (k & Hk & Hc).
  exists k. split; [exact Hk |]. rewrite Hc. cbn [trace log].
  rewrite calls_app. simpl. now rewrite app_nil_r.
Qed.

Lemma find_model_files_local dir ps acc :
  respects (only (fun e => backend e = false)) (find_model_files env dir ps acc).
Proof.
  revert acc. induction ps as [| p ps IH]; intros acc; simpl.
  - respects_auto.
  - unfold exec_command. respects_auto.
Qed.

(** Packaging and deployment do not call the marketplace. *)
Lemma package_project_local (project_path : string) :
  respects (only (fun e => backend e = false)) (package_project env project_path).
Proof.
  unfold package_project, named_temporary_file, tarfile_open, tarfile_add, stat_size.
  respects_auto.
Qed.

Lemma deploy_and_unlink_local start_time instance info p name :
  respects (only (fun e => backend e = false))
    (deploy_and_unlink env start_time instance info p name).
Proof.
  pose proof find_model_files_local.
  pose proof (time_time_silent env (fun e => backend e = false)).
  unfold deploy_and_unlink, deploy, run_on_instance, train, scp_put_file, exec_command, stream_command,
    download_artifacts, download_all, mkdir_exist_ok, scp_get_file, unlink.
  respects_auto.
Qed.

End Protocol.

Section Order.

Variable env : Env.

(** The calls of the body of a run: the searches, then at most one
    creation, then the polls. *)
Lemma run_body_calls (fuel : nat) (start_time : Q) (project_path : string)
    (w w' : World) (r : outcome unit) :
  run_body env fuel start_time project_path w = (r, w') ->
  exists n creation k,
    1 <= n <= 4 /\ k <= fuel /\
    (creation = [] \/ exists offer_id, creation = [create_cmd offer_id]) /\
    calls (trace w') = calls (trace w) ++ take n tiers ++ creation ++ replicate k show_cmd /\
    (creation = [] -> k = 0 /\ run_contract_id w' = run_contract_id w).
Proof.
  intros E. unfold run_body in E.
  destruct (find_best_gpu_calls env w) as (n & Hn & Hc1).
  pose proof (find_best_gpu_same_contract env w) as Hid.
  assert (Hearly : forall w1, calls (trace w1) = calls (trace w) ++ take n tiers ->
                              same_contract w w1 ->
            exists n creation k,
              1 <= n <= 4 /\ k <= fuel /\
              (creation = [] \/ exists offer_id, creation = [create_cmd offer_id]) /\
              calls (trace w1)
              = calls (trace w) ++ take n tiers ++ creation ++ replicate k show_cmd /\
              (creation = [] -> k = 0 /\ run_contract_id w1 = run_contract_id w)).
  { intros w1 Hc Hs. exists n, [], 0. split; [exact Hn |]. split; [lia |].
    split; [now left |]. split; [now rewrite Hc, !app_nil_r |]. now intros _. }
  apply bind_inv in E as [(instance & w1 & E1 & E) | [(e & E1 & ->) | (E1 & ->)]];
    rewrite E1 in Hc1, Hid; cbn [snd] in Hc1, Hid; [| now apply Hearly ..].
  apply bind_inv in E as [(offer_id & w1' & E2 & E) | [(e & E2 & ->) | (E2 & ->)]];
    apply lift_inv in E2 as [-> _]; [| now apply Hearly ..].
  pose proof (create_instance_calls env offer_id w1) as Hc2.
  assert (Hlate : forall w2 k, k <= fuel ->
            calls (trace w2)
            = calls (trace w) ++ take n tiers ++ [create_cmd offer_id] ++ replicate k show_cmd ->
            exists n creation k,
              1 <= n <= 4 /\ k <= fuel /\
              (creation = [] \/ exists offer_id, creation = [create_cmd offer_id]) /\
              calls (trace w2)
              = calls (trace w) ++ take n tiers ++ creation ++ replicate k show_cmd /\
              (creation = [] -> k = 0 /\ run_contract_id w2 = run_contract_id w)).
  { intros w2 k Hk Hc. exists n, [create_cmd offer_id], k. split; [exact Hn |].
    split; [exact Hk |]. split; [right; now exists offer_id |]. split; [exact Hc |].
    discriminate. }
  apply bind_inv in E as [(c & w2 & E2 & E) | [(e & E2 & ->) | (E2 & ->)]];
    rewrite E2 in Hc2; cbn [snd] in Hc2; rewrite Hc1, <- app_assoc in Hc2;
    [| apply (Hlate _ 0); [lia | now rewrite app_nil_r] ..].
  unfold bind at 1, set_contract_id at 1 in E.
  match type of E with bind _ _ ?w3 = _ =>
    destruct (wait_for_instance_calls env fuel c w3) as (k & Hk & Hc3)
  end.
  cbn [trace] in Hc3. rewrite Hc2, <- !app_assoc in Hc3.
  apply bind_inv in E as [(info & w4 & E4 & E) | [(e & E4 & ->) | (E4 & ->)]];
    rewrite E4 in Hc3; cbn [snd] in Hc3; [| now apply (Hlate _ k) ..].
  pose proof (package_project_local env project_path w4) as H5.
  apply bind_inv in E as [(p & w5 & E5 & E) | [(e & E5 & ->) | (E5 & ->)]];
    rewrite E5 in H5; cbn [snd] in H5; apply only_local_calls in H5;
    [| apply (Hlate _ k); [exact Hk | now rewrite H5] ..].
  pose proof (deploy_and_unlink_local env start_time instance info p
                (Py.path_name project_path) w5) as H6.
  rewrite E in H6. cbn [snd] in H6. apply only_local_calls in H6.
  apply (Hlate _ k); [exact Hk | now rewrite H6, H5].
Qed.

End Order.

(** X4.  The calls to the marketplace always come in one order: between one
    and four searches, the tiers in their order; then at most one create
    command; then the polls; then at most one destroy command.  Without a
    create command there is no poll and no destroy command, and nothing is
    ever created twice. *)
Theorem marketplace_calls_come_in_one_order (env : Env) (fuel : nat) (project_path : string)
    (f : gmap string entry) (r : outcome unit) (w : World) :
  run env fuel project_path (start f) = (r, w) ->
  exists n creation k teardown,
    1 <= n <= 4 /\ k <= fuel /\
    (creation = [] \/ exists offer_id, creation = [create_cmd offer_id]) /\
    (teardown = [] \/ exists c, teardown = [destroy_cmd c]) /\
    (creation = [] -> k = 0 /\ teardown = []) /\
    calls (trace w) = take n tiers ++ creation ++ replicate k show_cmd ++ teardown.
Proof.
  intros E. rewrite run_unfold in E.
  apply try_finally_inv in E as (rb & wb & Eb & Hcases).
  apply run_body_calls in Eb as (n & creation & k & Hn & Hk & Hcr & Hc & Hnone).
  change (calls (trace (started (start f)))) with (@nil (list arg)) in Hc.
  rewrite app_nil_l in Hc. cbn [run_contract_id started] in Hnone.
  exists n, creation, k.
  assert (Hskip : w = wb ->
            exists teardown,
              1 <= n <= 4 /\ k <= fuel /\
              (creation = [] \/ exists offer_id, creation = [create_cmd offer_id]) /\
              (teardown = [] \/ exists c, teardown = [destroy_cmd c]) /\
              (creation = [] -> k = 0 /\ teardown = []) /\
              calls (trace w) = take n tiers ++ creation ++ replicate k show_cmd ++ teardown).
  { intros ->. exists []. split; [exact Hn |]. split; [exact Hk |]. split; [exact Hcr |].
    split; [now left |]. split; [intros H; now destruct (Hnone H) |].
    now rewrite Hc, app_nil_r. }
  destruct Hcases as [(_ & _ & ->) | (_ & rc & Ec & _)]; [now apply Hskip |].
  destruct (Py.truthy (run_contract_id wb)) eqn:Etr.
  - exists [destroy_cmd (run_contract_id wb)].
    split; [exact Hn |]. split; [exact Hk |]. split; [exact Hcr |].
    split; [right; now eexists |]. split.
    + intros H. destruct (Hnone H) as [_ Hid]. rewrite Hid in Etr. discriminate Etr.
    + rewrite (run_cleanup_destroys env wb Etr) in Ec.
      destruct (vastai env (cli_calls wb) (destroy_cmd (run_contract_id wb)));
        cbn [cli_outcome] in Ec; injection Ec as _ <-;
        cbn [trace log issue]; rewrite ?calls_app, Hc; simpl;
        rewrite ?app_nil_r, <- ?app_assoc; reflexivity.
  - rewrite (run_cleanup_skips env wb Etr) in Ec. injection Ec as _ <-. now apply Hskip.
Qed.

Lemma marketplace_calls_come_in_one_order_witness :
  exists n creation k teardown,
    1 <= n <= 4 /\ k <= 10 /\
    (creation = [] \/ exists offer_id, creation = [create_cmd offer_id]) /\
    (teardown = [] \/ exists c, teardown = [destroy_cmd c]) /\
    (creation = [] -> k = 0 /\ teardown = []) /\
    calls (trace (played scenario_a).2)
    = take n tiers ++ creation ++ replicate k show_cmd ++ teardown.
Proof.
  unfold played.
  apply (marketplace_calls_come_in_one_order scenario_a 10 "/home/user/proj" ∅ _ _
           (surjective_pairing _)).
Defined.

(** ** The local files *)

#[local] Instance untouched_preorder (own : string -> Prop) : PreOrder (untouched own).
Proof.
  split; [now intros w q | ].
  intros w1 w2 w3 H1 H2 q Hq. now rewrite (H2 q Hq), (H1 q Hq).
Qed.

#[local] Hint Extern 1 (respects (untouched _) (emit _)) => (intros ? ? ?; reflexivity) : respects.
#[local] Hint Extern 1 (respects (untouched _) next_cli_call) =>
  (intros ? ? ?; reflexivity) : respects.
#[local] Hint Extern 1 (respects (untouched _) next_clock_read) =>
  (intros ? ? ?; reflexivity) : respects.
#[local] Hint Extern 1 (respects (untouched _) (set_contract_id _)) =>
  (intros ? ? ?; reflexivity) : respects.

Lemma untouched_put_fs (own : string -> Prop) (path : string)
    (x : gmap string entry -> entry) :
  own path ->
  respects (untouched own) (bind get_fs (fun f => put_fs (<[path := x f]> f))).
Proof.
  intros Hown w q Hq. simpl. apply lookup_insert_ne. intros ->. contradiction.
Qed.

Lemma respects_ext {A} (R : World -> World -> Prop) (m m' : M A) :
  (forall w, m w = m' w) -> respects R m' -> respects R m.
Proof. intros H Hm w. rewrite H. apply Hm. Qed.

(** Sequencing, when what follows depends on a property of the value
    returned. *)
Lemma respects_bind_post {A B} (R : World -> World -> Prop) `{!PreOrder R} (Q : A -> Prop)
    (m : M A) (k : A -> M B) :
  respects R m ->
  (forall w a w1, m w = (Ok a, w1) -> Q a) ->
  (forall a, Q a -> respects R (k a)) ->
  respects R (bind m k).
Proof.
  intros Hm Hq Hk w. unfold bind. specialize (Hm w). specialize (Hq w).
  destruct (m w) as [[a | e |] w1]; simpl in *; try assumption.
  transitivity w1; [assumption | now apply Hk, (Hq a w1)].
Qed.

Lemma string_app_assoc (a b c : string) : (a +:+ b) +:+ c = a +:+ (b +:+ c).
Proof.
  induction a as [| x a IH]; [reflexivity |].
  change (String x ((a +:+ b) +:+ c) = String x (a +:+ (b +:+ c))). now rewrite IH.
Qed.

Lemma startswith_path_join (prefix rest name : string) :
  Py.startswith prefix (Py.path_join (prefix +:+ rest) name) = true.
Proof.
  unfold Py.path_join. destruct (decide (name = "")); [apply startswith_app |].
  rewrite string_app_assoc. apply startswith_app.
Qed.

Section LocalFiles.

Variable env : Env.

Lemma unlink_untouched (p : string) :
  own_path env p -> respects (untouched (own_path env)) (unlink p).
Proof.
  intros Hown. unfold unlink. apply respects_bind; [typeclasses eauto | respects_auto | intros _].
  intros w q Hq. unfold bind, get_fs. simpl.
  destruct (fs w !! p) as [[] |]; simpl; try reflexivity;
    apply lookup_delete_ne; intros ->; contradiction.
Qed.

Lemma mkdir_untouched (now : Q) :
  respects (untouched (own_path env)) (mkdir_exist_ok (results_dir_name now)).
Proof.
  unfold mkdir_exist_ok. apply respects_bind; [typeclasses eauto | respects_auto | intros _].
  intros w q Hq. unfold bind, get_fs. simpl.
  destruct (fs w !! results_dir_name now) as [[] |]; simpl; try reflexivity.
  apply lookup_insert_ne. intros <-. apply Hq. right. exists now, "". now left.
Qed.

Lemma scp_get_file_untouched (now : Q) (remote_file : string) :
  respects (untouched (own_path env))
    (scp_get_file env remote_file (local_file (results_dir_name now) remote_file)).
Proof.
  unfold scp_get_file. apply respects_bind; [typeclasses eauto | respects_auto | intros _].
  apply respects_bind; [typeclasses eauto | respects_auto | intros data].
  intros w q Hq. unfold bind, get_fs. simpl.
  apply lookup_insert_ne. intros <-. apply Hq. right. exists now, remote_file.
  unfold scp_target. destruct (fs w !! _) as [[] |]; auto.
Qed.

Lemma find_model_files_untouched dir ps acc :
  respects (untouched (own_path env)) (find_model_files env dir ps acc).
Proof.
  revert acc. induction ps as [| p ps IH]; intros acc; simpl.
  - respects_auto.
  - unfold exec_command. respects_auto.
Qed.

Lemma time_time_untouched : respects (untouched (own_path env)) (time_time env).
Proof. unfold time_time. respects_auto. Qed.

Lemma run_vastai_cmd_untouched cmd : respects (untouched (own_path env)) (run_vastai_cmd env cmd).
Proof. unfold run_vastai_cmd. respects_auto. Qed.

Lemma run_on_instance_untouched info p name :
  respects (untouched (own_path env)) (run_on_instance env info p name).
Proof.
  pose proof find_model_files_untouched. pose proof time_time_untouched.
  pose proof mkdir_untouched. pose proof scp_get_file_untouched.
  unfold run_on_instance, train, scp_put_file, exec_command, stream_command, download_artifacts, download_all.
  respects_auto.
Qed.

Lemma deploy_and_unlink_untouched start_time instance info p name :
  own_path env p ->
  respects (untouched (own_path env)) (deploy_and_unlink env start_time instance info p name).
Proof.
  intros Hown.
  pose proof run_on_instance_untouched. pose proof time_time_untouched.
  pose proof (unlink_untouched p Hown).
  unfold deploy_and_unlink, deploy. respects_auto.
Qed.

Lemma named_temporary_file_untouched :
  respects (untouched (own_path env)) (named_temporary_file env).
Proof.
  unfold named_temporary_file. destruct (tmp_file env) as [p | e] eqn:Etmp.
  2: { apply (respects_ext _ _ (raise e)); [intros w; apply bind_lift_Exc |].
       apply respects_raise. typeclasses eauto. }
  apply (respects_ext _ _ _ (bind_lift_Val p _)).
  apply respects_bind; [typeclasses eauto | respects_auto | intros _].
  apply (respects_ext _ _
           (bind (bind get_fs (fun f => put_fs (<[p := Blob ""]> f))) (fun _ => ret p)));
    [intros w; now rewrite bind_assoc |].
  apply respects_bind; [typeclasses eauto | | intros _; respects_auto].
  apply (untouched_put_fs _ p (fun _ => Blob "")). now left.
Qed.

Lemma named_temporary_file_returns (w : World) (p : string) (w1 : World) :
  named_temporary_file env w = (Ok p, w1) -> own_path env p.
Proof.
  unfold named_temporary_file. destruct (tmp_file env) as [p' | e] eqn:Etmp.
  - rewrite bind_lift_Val. mstep. intros E. injection E as <- _. now left.
  - rewrite bind_lift_Exc. discriminate.
Qed.

Lemma package_project_untouched project_path :
  respects (untouched (own_path env)) (package_project env project_path).
Proof.
  unfold package_project.
  apply respects_bind; [typeclasses eauto | respects_auto | intros _].
  apply (respects_bind_post _ (own_path env));
    [apply named_temporary_file_untouched | apply named_temporary_file_returns |].
  intros p Hown.
  assert (Hopen : respects (untouched (own_path env)) (tarfile_open env p)).
  { unfold tarfile_open.
    apply respects_bind; [typeclasses eauto | respects_auto | intros _].
    apply respects_bind; [typeclasses eauto | respects_auto | intros _].
    apply (untouched_put_fs (own_path env) p (fun _ => Archive []) Hown). }
  assert (Hadd : forall item,
            respects (untouched (own_path env)) (tarfile_add env p project_path item)).
  { intros item. unfold tarfile_add.
    apply respects_bind; [typeclasses eauto | respects_auto | intros _].
    apply respects_bind; [typeclasses eauto | respects_auto | intros _].
    cbv zeta.
    apply (untouched_put_fs (own_path env) p
             (fun f => Archive (match f !! p with Some (Archive ms) => ms | _ => [] end
                                ++ tar_members env p (Py.path_join project_path (node_name item))
                                               (node_name item) item)) Hown). }
  unfold stat_size. respects_auto.
Qed.

Lemma same_fs_untouched {A} (m : M A) :
  respects same_fs m -> respects (untouched (own_path env)) m.
Proof. apply respects_weaken. intros w w' H q _. now rewrite H. Qed.

Lemma package_project_returns_own (project_path : string) (w : World) (p : string)
    (w1 : World) :
  package_project env project_path w = (Ok p, w1) -> own_path env p.
Proof.
  intros E. pose proof (package_project_post env project_path w) as H.
  rewrite E in H. left. now destruct H.
Qed.

Lemma run_untouched (fuel : nat) (project_path : string) :
  respects (untouched (own_path env)) (run env fuel project_path).
Proof.
  unfold run.
  apply respects_bind; [typeclasses eauto | apply time_time_untouched | intros start_time].
  apply respects_bind; [typeclasses eauto | respects_auto | intros _].
  apply respects_try_finally; [typeclasses eauto | |].
  - unfold run_body.
    apply respects_bind;
      [typeclasses eauto | apply same_fs_untouched, find_best_gpu_same_fs | intros instance].
    apply respects_bind; [typeclasses eauto | respects_auto | intros offer_id].
    apply respects_bind;
      [typeclasses eauto | apply same_fs_untouched, create_instance_same_fs | intros c].
    apply respects_bind; [typeclasses eauto | respects_auto | intros _].
    apply respects_bind;
      [typeclasses eauto | apply same_fs_untouched, wait_for_instance_same_fs | intros info].
    apply (respects_bind_post _ (own_path env));
      [apply package_project_untouched | apply package_project_returns_own |].
    intros p Hown. now apply deploy_and_unlink_untouched.
  - apply same_fs_untouched, run_cleanup_same_fs.
Qed.

End LocalFiles.

(** The paths a run writes to, by their spelling. *)
Lemma own_path_spelling (env : Env) (p : string) :
  own_path env p -> tmp_file env = Val p \/ Py.startswith "speedrun_results_" p = true.
Proof.
  intros [H | (now & remote_file & [-> | [-> | ->]])]; [now left | right ..].
  - apply startswith_app.
  - apply startswith_path_join.
  - unfold local_file, results_dir_name, Py.path_join.
    repeat destruct (decide _); rewrite ?string_app_assoc; apply startswith_app.
Qed.

(** X12.  A run leaves the other local files alone.  The only local paths it
    writes to or removes are its temporary archive, a results directory
    [speedrun_results_<seconds>] in the current directory, and the files
    in it that are named after the remote artifacts: every file whose
    absolute path is that of none of these, the project directory included,
    is after the run what it was before, however the run ends. *)
Theorem run_touches_only_its_own_files (env : Env) (fuel : nat) (project_path : string)
    (f : gmap string entry) (r : outcome unit) (w : World) (q : string) :
  run env fuel project_path (start f) = (r, w) ->
  (forall p, own_path env p -> abspath env q <> abspath env p) ->
  fs w !! q = f !! q.
Proof.
  intros E Hq.
  pose proof (run_untouched env fuel project_path (start f)) as H.
  rewrite E in H. apply H. intros Hown. now apply (Hq q Hown).
Qed.

Lemma run_touches_only_its_own_files_witness :
  fs (run scenario_a 10 "/home/user/proj" (start user_files)).2 !! "/home/user/proj/train.py"
  = user_files !! "/home/user/proj/train.py".
Proof.
  apply (run_touches_only_its_own_files scenario_a 10 "/home/user/proj" user_files _ _
           "/home/user/proj/train.py" (surjective_pairing _)).
  intros p Hp Heq. cbn [abspath scenario_a make_env] in Heq. subst p.
  apply own_path_spelling in Hp as [Hp | Hp]; discriminate Hp.
Defined.

(** ** A poll that fails *)

(** X8.  A poll that fails is not retried.  When the polls before the poll
    number [k] did not end the wait and that poll fails, the wait raises the
    error of that poll at once, after [k] pauses. *)
Theorem failed_poll_ends_the_wait (env : Env) (fuel : nat) (contract_id : json) (w : World)
    (k : nat) (e : exn) :
  k < fuel ->
  (forall i, i < k -> poll_ends env contract_id (cli_calls w + i) = false) ->
  cli_outcome (vastai env (cli_calls w + k) show_cmd) = Raise e ->
  exists w',
    wait_for_instance env fuel contract_id w = (Raise e, w') /\
    trace w' = trace w ++ Print MsgWaiting :: polls k ++ [Vastai show_cmd].
Proof.
  unfold wait_for_instance. rewrite bind_print. cbv beta.
  assert (H : forall k fuel w0,
             k < fuel ->
             (forall i, i < k -> poll_ends env contract_id (cli_calls w0 + i) = false) ->
             cli_outcome (vastai env (cli_calls w0 + k) show_cmd) = Raise e ->
             exists w', wait_loop env fuel contract_id w0 = (Raise e, w') /\
                        trace w' = trace w0 ++ polls k ++ [Vastai show_cmd]).
  { clear. induction k as [| k IH]; intros fuel w0 Hk Hnone He;
      (destruct fuel as [| fuel]; [lia |]).
    - rewrite Nat.add_0_r in He. rewrite wait_loop_S.
      rewrite (bind_run_vastai_cmd_Raise env _ _ _ _ He).
      eexists. split; [reflexivity |]. reflexivity.
    - assert (E0 : poll_ends env contract_id (cli_calls w0) = false).
      { specialize (Hnone 0 ltac:(lia)). now rewrite Nat.add_0_r in Hnone. }
      rewrite (wait_loop_continues env fuel contract_id w0 E0).
      destruct (IH fuel (log [Sleep 10] (issue show_cmd w0))) as (w' & E & Et).
      + lia.
      + intros i Hi. specialize (Hnone (S i) ltac:(lia)). simpl.
        now rewrite <- Nat.add_succ_r.
      + simpl. now rewrite <- Nat.add_succ_r.
      + exists w'. split; [exact E |]. rewrite Et. simpl. now rewrite <- !app_assoc. }
  intros Hk Hnone He.
  destruct (H k fuel (log [Print MsgWaiting] w) Hk Hnone He) as (w' & E & Et).
  exists w'. split; [exact E |]. rewrite Et. simpl. now rewrite <- app_assoc.
Qed.

Lemma failed_poll_ends_the_wait_witness :
  exists w',
    wait_for_instance scenario_listing_breaks 10 (JInt 7001)
      (create_instance scenario_listing_breaks (JInt 42)
         (find_best_gpu scenario_listing_breaks (start ∅)).2).2
    = (Raise (RuntimeError "vastai command failed: 502 bad gateway"), w') /\
    trace w'
    = trace (create_instance scenario_listing_breaks (JInt 42)
               (find_best_gpu scenario_listing_breaks (start ∅)).2).2
      ++ Print MsgWaiting :: polls 2 ++ [Vastai show_cmd].
Proof.
  apply (failed_poll_ends_the_wait scenario_listing_breaks 10 (JInt 7001) _ 2
           (RuntimeError "vastai command failed: 502 bad gateway")).
  - lia.
  - intros i Hi. do 2 (destruct i as [| i]; [vm_compute; reflexivity |]). lia.
  - vm_compute. reflexivity.
Defined.

(** ** The offer an instance is created from *)

(** X22.  The instance is created from the selected offer.  Every create
    command of a run follows a selection that returned an offer, and it is
    the create command for the ["id"] of that offer. *)
Theorem instance_is_created_from_the_selected_offer (env : Env) (fuel : nat)
    (project_path : string) (f : gmap string entry) (r : outcome unit) (w : World)
    (cmd : list arg) :
  run env fuel project_path (start f) = (r, w) ->
  Vastai cmd ∈ trace w ->
  verb cmd = "create" ->
  exists instance w1 offer_id,
    find_best_gpu env (started (start f)) = (Ok instance, w1) /\
    Py.getitem instance "id" = Val offer_id /\
    cmd = create_cmd offer_id.
Proof.
  intros E Hin Hverb. rewrite run_unfold in E.
  assert (Hphase : phase_of (Vastai cmd) = Creating) by (simpl; now rewrite Hverb).
  apply try_finally_inv in E as (rb & wb & Eb & Hcases).
  assert (Hin' : Vastai cmd ∈ trace wb).
  { destruct Hcases as [(_ & _ & ->) | (_ & rc & Ec & _)]; [exact Hin |].
    pose proof (run_cleanup_only env wb) as H. rewrite Ec in H.
    destruct (only_elem_of _ _ _ _ H Hin) as [H' | H']; [exact H' |].
    unfold in_phase in H'. congruence. }
  clear Hin Hcases. unfold run_body in Eb.
  pose proof (find_best_gpu_only env (started (start f))) as H1.
  assert (Hsel : forall w1, only (in_phase Selecting) (started (start f)) w1 ->
                            ~ Vastai cmd ∈ trace w1).
  { intros w1 Ho H.
    pose proof (only_trace_nil (in_phase Selecting) (started (start f)) w1 _ eq_refl Ho H)
      as H'.
    unfold in_phase in H'. congruence. }
  apply bind_inv in Eb as [(instance & w1 & E1 & Eb) | [(e & E1 & ->) | (E1 & ->)]];
    rewrite E1 in H1; cbn [snd] in H1; [| now destruct (Hsel _ H1) ..].
  apply bind_inv in Eb as [(offer_id & w1' & E2 & Eb) | [(e & E2 & ->) | (E2 & ->)]];
    apply lift_inv in E2 as [-> E2]; [| now destruct (Hsel _ H1) ..].
  exists instance, w1, offer_id. split; [exact E1 |].
  split; [destruct (Py.getitem instance "id") as [v | e]; [now injection E2 as -> |
                                                             discriminate E2] |].
  assert (Hcreate : forall w2, (create_instance env offer_id w1).2 = w2 ->
                               forall evs, trace wb = trace w2 ++ evs ->
                                           ~ Vastai cmd ∈ evs ->
                                           cmd = create_cmd offer_id).
  { intros w2 <- evs Et Hno. rewrite Et in Hin'. rewrite create_instance_cmd in Hin'.
    destruct (cli_outcome _) as [result | e |];
      [destruct (Py.getitem result "new_contract") as [c | e] | ..];
      cbn [snd trace log issue] in Hin';
      rewrite ?elem_of_app, ?elem_of_cons, ?elem_of_nil in Hin';
      destruct_or! Hin'; try discriminate Hin'; try contradiction;
      try (now destruct (Hsel _ H1)); now injection Hin'. }
  apply bind_inv in Eb as [(c & w2 & E3 & Eb) | [(e & E3 & ->) | (E3 & ->)]];
    [| apply (Hcreate wb ltac:(now rewrite E3) []);
       [now rewrite app_nil_r | apply not_elem_of_nil] ..].
  unfold bind at 1, set_contract_id at 1 in Eb.
  assert (Hrest : only (fun e => e <> Vastai cmd)
                    {| trace := trace w2; fs := fs w2; cli_calls := cli_calls w2;
                       clock_reads := clock_reads w2; run_contract_id := c |} wb).
  { assert (Hw : forall w3 w4, only (in_phase Waiting) w3 w4 ->
                               only (fun e => e <> Vastai cmd) w3 w4).
    { intros w3 w4. apply only_weaken. unfold in_phase. intros e He ->. congruence. }
    assert (Hl : forall w3 w4, only (fun e => backend e = false) w3 w4 ->
                               only (fun e => e <> Vastai cmd) w3 w4).
    { intros w3 w4. apply only_weaken. intros e He ->. discriminate He. }
    match type of Eb with bind _ _ ?w3 = _ =>
      pose proof (wait_for_instance_only env fuel c w3) as H4
    end.
    apply bind_inv in Eb as [(info & w4 & E4 & Eb) | [(e & E4 & ->) | (E4 & ->)]];
      rewrite E4 in H4; cbn [snd] in H4; apply Hw in H4; [| exact H4 ..].
    pose proof (package_project_local env project_path w4) as H5.
    apply bind_inv in Eb as [(p & w5 & E5 & Eb) | [(e & E5 & ->) | (E5 & ->)]];
      rewrite E5 in H5; cbn [snd] in H5; apply Hl in H5;
      [| etransitivity; [exact H4 | exact H5] ..].
    pose proof (deploy_and_unlink_local env (clock env (clock_reads (start f))) instance info
                  p (Py.path_name project_path) w5) as H6.
    rewrite Eb in H6. cbn [snd] in H6. apply Hl in H6.
    etransitivity; [exact H4 |]. etransitivity; [exact H5 | exact H6]. }
  destruct Hrest as (evs & Et & F). cbn [trace] in Et.
  apply (Hcreate w2 ltac:(now rewrite E3) evs Et).
  intros H. rewrite Forall_forall in F. now apply (F _ H).
Qed.

Lemma instance_is_created_from_the_selected_offer_witness :
  exists instance w1 offer_id,
    find_best_gpu scenario_a (started (start ∅)) = (Ok instance, w1) /\
    Py.getitem instance "id" = Val offer_id /\
    create_cmd (JInt 42) = create_cmd offer_id.
Proof.
  apply (instance_is_created_from_the_selected_offer scenario_a 10 "/home/user/proj" ∅ _ _
           (create_cmd (JInt 42)) (surjective_pairing _)).
  - apply list_elem_of_In. vm_compute. repeat (first [left; reflexivity | right]).
  - reflexivity.
Defined.
